(** * deploy.py: build and deploy script of astrohopper

    A shallow embedding of [deploy.py] and the proofs of its specified
    behaviour.

    Conventions of the embedding.
    - A Python [str] is a [string]; each [ascii] stands for one character
      (a code point below 256).  Text files hold their text: decoding and
      the translation of line ends are left out, a line ends with the
      character 10.
    - The file system and the console are an explicit [world] threaded
      through a state-and-exception monad [M].
    - [create_db], the Markdown converter and the way an exception is printed
      are collaborators of the script and are section variables. *)

From Stdlib Require Import String Ascii List Bool Arith Lia NArith.
Import ListNotations.
Open Scope string_scope.

(** ** Text: the [str] methods the script uses *)

Module Text.

Definition newline : ascii := "010"%char.
Definition nl : string := String newline "".
Definition dquote : string := String "034"%char "".

(** [s[n:]] and [s[:n]]. *)
Fixpoint drop (n : nat) (s : string) : string :=
  match n, s with
  | S k, String _ s' => drop k s'
  | _, _ => s
  end.

Fixpoint take (n : nat) (s : string) : string :=
  match n, s with
  | S k, String c s' => String c (take k s')
  | _, _ => ""
  end.

(** [s.startswith(p)] *)
Fixpoint startswith (p s : string) : bool :=
  match p, s with
  | "", _ => true
  | String a p', String b s' => (a =? b)%char && startswith p' s'
  | String _ _, "" => false
  end.

(** [all(f(c) for c in s)]. *)
Fixpoint all (f : ascii -> bool) (s : string) : bool :=
  match s with
  | "" => true
  | String c s' => f c && all f s'
  end.

Definition not_newline (c : ascii) : bool := negb (c =? newline)%char.
Definition no_newline (s : string) : bool := all not_newline s.

(** [str.isspace] on one character, for the code points below 256:
    9-13, 28-32, 133 and 160. *)
Definition isspace (c : ascii) : bool :=
  let n := nat_of_ascii c in
  (((9 <=? n) && (n <=? 13)) || ((28 <=? n) && (n <=? 32))
   || (n =? 133) || (n =? 160))%nat.

Fixpoint lstrip (s : string) : string :=
  match s with
  | String c s' => if isspace c then lstrip s' else s
  | "" => ""
  end.

Fixpoint rstrip (s : string) : string :=
  match s with
  | String c s' =>
      match rstrip s' with
      | "" => if isspace c then "" else String c ""
      | r => String c r
      end
  | "" => ""
  end.

(** [s.strip()] *)
Definition strip (s : string) : string := rstrip (lstrip s).

(** Put [c] in front of the first field of a non-empty list of fields. *)
Definition cons_first (c : ascii) (fields : list string) : list string :=
  match fields with
  | f :: fs => String c f :: fs
  | [] => [String c ""]
  end.

(** [s.split(sep)] for a non-empty [sep]: the text is scanned from the left,
    an occurrence of [sep] closes the current field and is skipped whole
    ([skip] counts the characters of it still to pass over). *)
Fixpoint split_go (sep : string) (skip : nat) (s : string) : list string :=
  match s with
  | "" => [""]
  | String c s' =>
      match skip with
      | S k => split_go sep k s'
      | O => if startswith sep s
             then "" :: split_go sep (String.length sep - 1) s'
             else cons_first c (split_go sep 0 s')
      end
  end.

Definition split (sep s : string) : list string := split_go sep 0 s.

(** [fields[-1]] of a list that [split] returned. *)
Definition last_field (fields : list string) : string := last fields "".

(** [s.replace(old, new)] for a non-empty [old]: every occurrence met in
    the scan from the left is replaced, and the scan goes on after it. *)
Fixpoint replace_go (old new : string) (skip : nat) (s : string) : string :=
  match s with
  | "" => ""
  | String c s' =>
      match skip with
      | S k => replace_go old new k s'
      | O => if startswith old s
             then new ++ replace_go old new (String.length old - 1) s'
             else String c (replace_go old new 0 s')
      end
  end.

Definition replace (old new s : string) : string := replace_go old new 0 s.

(** [f.readline()] on the text that is left: up to and with the first
    newline, or all of it. *)
Fixpoint readline (s : string) : string :=
  match s with
  | "" => ""
  | String c s' => if (c =? newline)%char then String c "" else String c (readline s')
  end.

(** [for line in f]: the lines of a text, each with its newline; the last
    one is without it when the text does not end with a newline. *)
Fixpoint lines (s : string) : list string :=
  match s with
  | "" => []
  | String c s' =>
      if (c =? newline)%char then String c "" :: lines s'
      else cons_first c (lines s')
  end.

(** The text after the last place where [sep] occurs in [s], if it occurs:
    the reading of "the substring after the last occurrence". *)
Fixpoint after_last (sep s : string) : option string :=
  match s with
  | "" => None
  | String _ s' =>
      match after_last sep s' with
      | Some x => Some x
      | None => if startswith sep s then Some (drop (String.length sep) s) else None
      end
  end.

(** [sep in s] *)
Fixpoint occurs (sep s : string) : bool :=
  match s with
  | "" => startswith sep ""
  | String _ s' => startswith sep s || occurs sep s'
  end.

(** A single line of text: not empty, and a newline only at its end. *)
Definition single_line (s : string) : Prop :=
  exists body, no_newline body = true /\
               (s = body ++ nl \/ (s = body /\ body <> "")).

(** *** Standard base64 ([base64.b64encode]) *)

Definition b64char (i : N) : ascii :=
  (if i <? 26 then ascii_of_N (65 + i)
   else if i <? 52 then ascii_of_N (97 + (i - 26))
   else if i <? 62 then ascii_of_N (48 + (i - 52))
   else if i =? 62 then "+"%char else "/"%char)%N.

Definition sextet (n : N) (k : N) : ascii :=
  b64char (N.shiftr n (6 * k) mod 64)%N.

Fixpoint b64encode (bytes : string) : string :=
  match bytes with
  | String a (String b (String c rest)) =>
      let n := (N_of_ascii a * 65536 + N_of_ascii b * 256 + N_of_ascii c)%N in
      String (sextet n 3) (String (sextet n 2) (String (sextet n 1)
        (String (sextet n 0) (b64encode rest))))
  | String a (String b "") =>
      let n := (N_of_ascii a * 65536 + N_of_ascii b * 256)%N in
      String (sextet n 3) (String (sextet n 2) (String (sextet n 1) "="))
  | String a "" =>
      let n := (N_of_ascii a * 65536)%N in
      String (sextet n 3) (String (sextet n 2) "==")
  | "" => ""
  end.

End Text.

Import Text.

(** ** Regular expressions: the part of [re] the script uses *)

Module Regex.

(** The constructs of the four patterns of [embed].  [Star f] is a greedy
    star over a one-character class, as every star of the patterns is. *)
Inductive regex : Type :=
| Lit (s : string)
| Star (f : ascii -> bool)
| Group (n : nat) (r : regex)
| Seq (r1 r2 : regex)
| Bol
| Eol.

Declare Scope regex_scope.
Delimit Scope regex_scope with re.
Bind Scope regex_scope with regex.
Infix ";;" := Seq (at level 61, right associativity) : regex_scope.

(** The text of the groups closed so far, the last closed first. *)
Definition captures : Type := list (nat * string).

(** Greedy star with backtracking: the longest run is tried first, and one
    character is given back at a time while the rest [k] fails. *)
Fixpoint star (f : ascii -> bool) (k : string -> option captures) (s : string)
  : option captures :=
  match s with
  | String c s' =>
      if f c then match star f k s' with
                  | Some r => Some r
                  | None => k s
                  end
      else k s
  | "" => k s
  end.

(** Backtracking matcher in continuation-passing style: [s] is what is left
    of [input], [k] matches what follows [r] in the pattern. *)
Fixpoint exec (r : regex) (input : string)
    (k : string -> captures -> option captures)
    (s : string) (caps : captures) : option captures :=
  match r with
  | Lit l => if startswith l s then k (drop (String.length l) s) caps else None
  | Star f => star f (fun rest => k rest caps) s
  | Group n r' =>
      exec r' input
        (fun rest caps' =>
           k rest ((n, take (String.length s - String.length rest) s) :: caps'))
        s caps
  | Seq r1 r2 => exec r1 input (exec r2 input k) s caps
  | Bol => if (String.length s =? String.length input)%nat then k s caps else None
  | Eol => if (s =? "") || (s =? nl) then k s caps else None
  end.

(** [pattern.match(line)]: the pattern is tried at the start of the line
    and need not reach its end. *)
Definition rmatch (r : regex) (line : string) : option captures :=
  exec r line (fun _ caps => Some caps) line [].

(** [m.group(n)] *)
Fixpoint group (caps : captures) (n : nat) : string :=
  match caps with
  | (i, s) :: rest => if (i =? n)%nat then s else group rest n
  | [] => ""
  end.

(** [.] *)
Definition dot : ascii -> bool := not_newline.

Definition in_range (lo hi c : ascii) : bool :=
  ((nat_of_ascii lo <=? nat_of_ascii c) && (nat_of_ascii c <=? nat_of_ascii hi))%nat.

(** [[a-z0-9_\-]] *)
Definition png_name_char (c : ascii) : bool :=
  in_range "a" "z" c || in_range "0" "9" c || (c =? "_")%char || (c =? "-")%char.

(** [[a-z0-9_\-\/]] *)
Definition png_path_char (c : ascii) : bool :=
  png_name_char c || (c =? "/")%char.

End Regex.

Import Regex.

(** ** The operating system: files, directories and the console *)

Module OS.

(** What a name stands for: a regular file or a directory.  A file holds
    text, which is also taken for its bytes; a file that is there can be
    opened, and reading an open file does not fail. *)
Inductive node : Type :=
| File (data : string)
| Dir.

(** A resolved path: the names from the working directory down; [[]] is the
    working directory, which is also taken as the root. *)
Definition path : Type := list string.
Bind Scope list_scope with path.

(** What is at each path.  The file systems meant are trees: a name is
    there only below directories. *)
Definition filesystem : Type := path -> option node.

Record world : Type := World { fs : filesystem; stdout : list string }.

Inductive exn : Type :=
| FileNotFoundError (name : string)
| FileExistsError (name : string)
| IsADirectoryError (name : string)
| NotADirectoryError (name : string)
| SameFileError (src dst : string)
| Error (message : string).

Inductive outcome (A : Type) : Type :=
| Ok (a : A)
| Raise (e : exn).
Arguments Ok {A} a.
Arguments Raise {A} e.

(** A computation of the script: it runs in a world and returns or raises,
    leaving a world behind either way. *)
Definition M (A : Type) : Type := world -> outcome A * world.

Definition ret {A} (a : A) : M A := fun w => (Ok a, w).
Definition raise {A} (e : exn) : M A := fun w => (Raise e, w).
Definition bind {A B} (m : M A) (f : A -> M B) : M B :=
  fun w => match m w with
           | (Ok a, w') => f a w'
           | (Raise e, w') => (Raise e, w')
           end.

(** [try: body  except ...: handler]: [handler e] is [None] when no
    [except] clause catches [e]. *)
Definition try_except {A} (body : M A) (handler : exn -> option (M A)) : M A :=
  fun w => match body w with
           | (Raise e, w') =>
               match handler e with
               | Some h => h w'
               | None => (Raise e, w')
               end
           | done => done
           end.

Declare Scope monad_scope.
Delimit Scope monad_scope with monad.
Notation "x <- m ;; k" := (bind m (fun x => k))
  (at level 61, m at next level, right associativity) : monad_scope.
Notation "m ;; k" := (bind m (fun _ => k))
  (at level 61, right associativity) : monad_scope.

Local Open Scope monad_scope.

(** [for x in xs: body x] *)
Fixpoint for_each {A} (xs : list A) (body : A -> M unit) : M unit :=
  match xs with
  | [] => ret tt
  | x :: rest => body x ;; for_each rest body
  end.

(** The world with one more line on the console. *)
Definition printed (w : world) (line : string) : world :=
  World (fs w) (stdout w ++ [line])%list.

(** [print(line)] *)
Definition print (line : string) : M unit :=
  fun w => (Ok tt, printed w line).

(** *** Paths *)

(** The names of a path string, cut at each slash. *)
Fixpoint components (s : string) : list string :=
  match s with
  | "" => [""]
  | String c s' =>
      if (c =? "/")%char then "" :: components s'
      else cons_first c (components s')
  end.

Definition step (here : path) (name : string) : path :=
  if (name =? "") || (name =? ".") then here
  else if name =? ".." then removelast here
  else (here ++ [name])%list.

(** Resolution is by the names alone (there are no symbolic links): empty
    names and [.] are passed over, [..] goes one directory up.  The empty
    string names nothing.  This is what the operating system does with a
    relative path of plain names ([plain_path] below), as [_deploy] or
    [out/site]: the statements on copying and on the target are about such
    paths.  The operating system looks at the directories on the way as
    well, so it can answer otherwise for a name with [..] behind a directory
    that is not there, for a slash behind the name of a file, and for a name
    that starts at the root. *)
Definition resolve (s : string) : option path :=
  if s =? "" then None else Some (fold_left step (components s) []).

Definition path_eqb (p q : path) : bool :=
  if list_eq_dec string_dec p q then true else false.

Fixpoint strip_prefix (p q : path) : option path :=
  match p, q with
  | [], _ => Some q
  | a :: p', b :: q' => if a =? b then strip_prefix p' q' else None
  | _ :: _, [] => None
  end.

Definition lookup (f : filesystem) (p : path) : option node :=
  match p with
  | [] => Some Dir
  | _ => f p
  end.

Definition update (f : filesystem) (p : path) (n : node) : filesystem :=
  fun q => if path_eqb q p then Some n else f q.

Definition is_file (n : option node) : bool :=
  match n with Some (File _) => true | _ => false end.

(** Some directory on the way to [rest] below [pre] is a regular file. *)
Fixpoint blocked_from (f : filesystem) (pre rest : path) : bool :=
  match rest with
  | [] => false
  | name :: rest' =>
      is_file (lookup f pre) || blocked_from f (pre ++ [name])%list rest'
  end.

Definition blocked (f : filesystem) (p : path) : bool := blocked_from f [] p.

(** The error of reaching for a name that is not there. *)
Definition missing (f : filesystem) (p : path) (name : string) : exn :=
  if blocked f p then NotADirectoryError name else FileNotFoundError name.

(** [os.path.join(a, b)] *)
Definition os_path_join (a b : string) : string :=
  if startswith "/" b then b
  else if (a =? "") || (String.eqb (drop (String.length a - 1) a) "/") then a ++ b
  else a ++ "/" ++ b.

(** [os.path.exists(name)] *)
Definition os_path_exists (name : string) : M bool :=
  fun w => (Ok (match resolve name with
                | Some p => match lookup (fs w) p with
                            | Some _ => true
                            | None => false
                            end
                | None => false
                end), w).

(** [open(name, 'r').read()], and the same in binary mode. *)
Definition read_file (name : string) : M string :=
  fun w => match resolve name with
           | None => (Raise (FileNotFoundError name), w)
           | Some p =>
               match lookup (fs w) p with
               | Some (File data) => (Ok data, w)
               | Some Dir => (Raise (IsADirectoryError name), w)
               | None => (Raise (missing (fs w) p name), w)
               end
           end.

(** [open(name, 'r')] alone: the file must be there; nothing is read yet. *)
Definition open_read (name : string) : M unit :=
  fun w => match resolve name with
           | None => (Raise (FileNotFoundError name), w)
           | Some p =>
               match lookup (fs w) p with
               | Some (File _) => (Ok tt, w)
               | Some Dir => (Raise (IsADirectoryError name), w)
               | None => (Raise (missing (fs w) p name), w)
               end
           end.

(** [f.read()], and the lines of [for line in f], on the file opened for
    reading under [name]: the text that the file holds then. *)
Definition read_open (name : string) : M string :=
  fun w => (Ok (match resolve name with
                | Some p => match lookup (fs w) p with
                            | Some (File data) => data
                            | _ => ""
                            end
                | None => ""
                end), w).

(** [open(name, 'w')]: the file is created, or emptied when it is there. *)
Definition open_write (name : string) : M unit :=
  fun w => match resolve name with
           | None => (Raise (FileNotFoundError name), w)
           | Some p =>
               match lookup (fs w) p with
               | Some Dir => (Raise (IsADirectoryError name), w)
               | _ =>
                   match lookup (fs w) (removelast p) with
                   | Some Dir => (Ok tt, World (update (fs w) p (File "")) (stdout w))
                   | Some (File _) => (Raise (NotADirectoryError name), w)
                   | None => (Raise (missing (fs w) (removelast p) name), w)
                   end
               end
           end.

(** [out.write(data)] on the file opened under [name]: the text is put at
    its end (what is written is in the file at once). *)
Definition write (name : string) (data : string) : M unit :=
  fun w => match resolve name with
           | Some p =>
               match lookup (fs w) p with
               | Some (File old) =>
                   (Ok tt, World (update (fs w) p (File (old ++ data))) (stdout w))
               | _ => (Ok tt, w)
               end
           | None => (Ok tt, w)
           end.

(** [q] is [p] or a directory above it, the root apart. *)
Definition on_the_way (q p : path) : bool :=
  match q with
  | [] => false
  | _ => match strip_prefix q p with Some _ => true | None => false end
  end.

(** [os.makedirs(name)]: the directory and those above it that are not
    there are made; nothing is made when a regular file is on the way.  (For
    a relative path of plain names; with [..] in the name [os.makedirs] can
    make a directory and raise.) *)
Definition os_makedirs (name : string) : M unit :=
  fun w => match resolve name with
           | None => (Raise (FileNotFoundError name), w)
           | Some p =>
               match lookup (fs w) p with
               | Some _ => (Raise (FileExistsError name), w)
               | None =>
                   if blocked (fs w) p then (Raise (NotADirectoryError name), w)
                   else (Ok tt,
                         World (fun q => if on_the_way q p
                                         then match fs w q with
                                              | None => Some Dir
                                              | n => n
                                              end
                                         else fs w q)
                               (stdout w))
               end
           end.

(** [shutil.copyfile(src, dst)]: the two names must not be one file; the
    source is opened, then the destination, and the bytes are copied. *)
Definition shutil_copyfile (src dst : string) : M unit :=
  fun w =>
    let same := match resolve src, resolve dst with
                | Some p, Some q =>
                    path_eqb p q && match lookup (fs w) p with Some _ => true | None => false end
                | _, _ => false
                end in
    if same then (Raise (SameFileError src dst), w)
    else (open_read src ;; open_write dst ;;
          data <- read_open src ;; write dst data) w.

(** [shutil.copytree(src, dst)]: [dst] must not be there; it is made, and
    all that [src] holds is copied below it. *)
Definition shutil_copytree (src dst : string) : M unit :=
  fun w =>
    match resolve src with
    | None => (Raise (FileNotFoundError src), w)
    | Some p =>
        match lookup (fs w) p with
        | None => (Raise (missing (fs w) p src), w)
        | Some (File _) => (Raise (NotADirectoryError src), w)
        | Some Dir =>
            match os_makedirs dst w, resolve dst with
            | (Ok _, w'), Some q =>
                (Ok tt,
                 World (fun x => match strip_prefix q x with
                                 | Some (name :: rel) => fs w (p ++ name :: rel)%list
                                 | _ => fs w' x
                                 end)
                       (stdout w'))
            | (Ok _, w'), None => (Ok tt, w')
            | (Raise e, w'), _ => (Raise e, w')
            end
        end
    end.

(** The text of the regular file called [name]; there is none when the
    name is missing, is a directory, or lies below a regular file. *)
Definition content (w : world) (name : string) : option string :=
  match resolve name with
  | Some p => match lookup (fs w) p with
              | Some (File data) => Some data
              | _ => None
              end
  | None => None
  end.

(** The file system that holds the listed entries (the first entry of a
    path counts). *)
Fixpoint filesystem_of (entries : list (path * node)) : filesystem :=
  fun q => match entries with
           | [] => None
           | (p, n) :: rest => if path_eqb p q then Some n else filesystem_of rest q
           end.

End OS.

Import OS.
Local Open Scope monad_scope.

(** ** The script *)

Section Deploy.

(** [create_data.create_db], run before anything else. *)
Variable create_db : M unit.

(** [markdown.Markdown(extensions=['toc']).convert] *)
Variable markdown_convert : string -> outcome string.

(** [str(e)], as the f-strings of the messages print an exception. *)
Variable str_exn : exn -> string.

Definition except_Exception {A} (h : exn -> M A) : exn -> option (M A) :=
  fun e => Some (h e).

Definition except_FileNotFoundError {A} (h : exn -> M A) : exn -> option (M A) :=
  fun e => match e with
           | FileNotFoundError _ => Some (h e)
           | _ => None
           end.

Definition copyf (src tgt : string) : M unit :=
  try_except
    (print ("Copying " ++ src ++ " -> " ++ tgt) ;;
     shutil_copyfile src tgt)
    (except_FileNotFoundError
       (fun e => print ("Error copying " ++ src ++ ": " ++ str_exn e))).

Definition copytree (src tgt : string) : M unit :=
  try_except
    (print ("Copying directory " ++ src ++ " -> " ++ tgt) ;;
     shutil_copytree src tgt)
    (fun e => match e with
              | FileNotFoundError _ =>
                  Some (print ("Error copying directory " ++ src ++ ": " ++ str_exn e))
              | FileExistsError _ =>
                  Some (print ("Directory " ++ tgt ++ " already exists: " ++ str_exn e))
              | _ => None
              end).

Definition get_ver : M (option string) :=
  try_except
    (text <- read_file "Changelog.md" ;;
     let first := strip (readline text) in
     let ver := last_field (split ": v" first) in
     ret (Some ver))
    (except_Exception
       (fun e => print ("Error reading version: " ++ str_exn e) ;; ret None)).

Definition make_manual : M string :=
  try_except
    (text <- read_file "README.md" ;;
     html <- (fun w => (markdown_convert text, w)) ;;
     open_write "manual.html" ;;
     for_each ["header.html"; "footer.html"]
       (fun part => data <- read_file part ;; write "manual.html" data) ;;
     write "manual.html" html ;;
     ret html)
    (except_Exception
       (fun e => print ("Error creating manual: " ++ str_exn e) ;; ret "")).

(** The two files are opened by one [with] (line 61), the service worker
    first; it is read when both are open. *)
Definition embed_service_worker (version : string) : M unit :=
  try_except
    (open_read "sw.js" ;;
     open_write "sw_deploy.js" ;;
     text <- read_open "sw.js" ;;
     let content := replace "VERSION" version text in
     write "sw_deploy.js" content)
    (except_Exception
       (fun e => print ("Error embedding service worker: " ++ str_exn e))).

Definition png_encode (path : string) : M string :=
  try_except
    (png <- read_file path ;;
     let b64png := b64encode png in
     ret ("data:image/png;base64," ++ b64png))
    (except_Exception
       (fun e => print ("Error encoding PNG: " ++ str_exn e) ;; ret "")).

(** [script_pattern] (line 80): the start of the line, the opening of a
    script tag up to the quote of [src=], group 1 [.*], the closing quote
    and [></script>]. *)
Definition script_pattern : regex :=
  (Bol ;; Lit ("<script src=" ++ dquote) ;; Group 1 (Star dot)
   ;; Lit (dquote ++ "></script>"))%re.

(** [version_pattern] (line 81): [.*], the text [Settings (], group 1
    [version], the text [)], and [.*] again. *)
Definition version_pattern : regex :=
  (Star dot ;; Lit "Settings (" ;; Group 1 (Lit "version") ;; Lit ")"
   ;; Star dot)%re.

(** [urlpng_pattern] (line 82): the start, group 1 [.*], the text [url(],
    group 2 (name characters, then [.png]), the text [)], group 3 [.*],
    the end of the line. *)
Definition urlpng_pattern : regex :=
  (Bol ;; Group 1 (Star dot) ;; Lit "url("
   ;; Group 2 (Star png_name_char ;; Lit ".png") ;; Lit ")"
   ;; Group 3 (Star dot) ;; Eol)%re.

(** [urlpng2_pattern] (line 83): the start, group 1 ([.*], the text [<img],
    [.*]), the text [src=] and a quote, group 2 (path characters, then
    [.png]), a quote, group 3 [.*], the end of the line. *)
Definition urlpng2_pattern : regex :=
  (Bol ;; Group 1 (Star dot ;; Lit "<img" ;; Star dot) ;; Lit ("src=" ++ dquote)
   ;; Group 2 (Star png_path_char ;; Lit ".png") ;; Lit dquote
   ;; Group 3 (Star dot) ;; Eol)%re.

Definition template : string := "astrohopper.html".
Definition deploy_html : string := "astrohopper_deploy.html".

(** The body of the loop of [embed], for one line of the template. *)
Definition embed_line (manual version line : string) : M unit :=
  let m := rmatch script_pattern line in
  let v := rmatch version_pattern line in
  let u := rmatch urlpng_pattern line in
  let u2 := rmatch urlpng2_pattern line in
  match m with
  | Some m =>
      inline_content <- read_file (group m 1) ;;
      write deploy_html ("<script>" ++ nl) ;;
      write deploy_html inline_content ;;
      write deploy_html ("</script>" ++ nl)
  | None =>
      match v with
      | Some _ => write deploy_html (replace "version" version line)
      | None =>
          match (match u with Some _ => u | None => u2 end) with
          | Some mt =>
              let pat := fun a b c =>
                match u with
                | Some _ => a ++ "url(" ++ b ++ ")" ++ c ++ nl
                | None => a ++ "src=" ++ dquote ++ b ++ dquote ++ c ++ nl
                end in
              b64png <- png_encode (group mt 2) ;;
              let new_line := pat (group mt 1) b64png (group mt 3) in
              write deploy_html new_line
          | None =>
              if strip line =? "MANUAL" then write deploy_html manual
              else write deploy_html line
          end
      end
  end.

(** The template and the page are opened by one [with] (line 86), the
    template first; the loop then takes the lines of the template.  No step
    of the loop writes to the template, so its lines are those it holds when
    the page has been opened. *)
Definition embed (manual version : string) : M unit :=
  try_except
    (open_read template ;;
     open_write deploy_html ;;
     text <- read_open template ;;
     for_each (lines text) (embed_line manual version))
    (except_Exception
       (fun e => print ("Error embedding: " ++ str_exn e))).

Definition files_to_copy : list string :=
  ["astrohopper_deploy.html"; "sw_deploy.js"; "LICENSE"; "COPYING.md";
   "manual.html"; "manifest.json"].

Definition deploy_files (target : string) : M unit :=
  (there <- os_path_exists target ;;
   if negb there then os_makedirs target else ret tt) ;;
  for_each files_to_copy
    (fun file_name =>
       try_except
         (copyf file_name (os_path_join target file_name))
         (except_Exception
            (fun e => print ("Error copying " ++ file_name ++ ": " ++ str_exn e)))) ;;
  try_except
    (copytree "icons" (os_path_join target "icons"))
    (except_Exception
       (fun e => print ("Error copying images directory: " ++ str_exn e))).

(** [not ver] *)
Definition not_ver (ver : option string) : bool :=
  match ver with
  | None => true
  | Some s => s =? ""
  end.

Definition main (argv : list string) : M unit :=
  create_db ;;
  ver <- get_ver ;;
  if not_ver ver then
    print "Version could not be determined."
  else
    let ver := match ver with Some s => s | None => "" end in
    man <- make_manual ;;
    embed man ver ;;
    embed_service_worker ver ;;
    let target_dir := match argv with
                      | _ :: dir :: _ => dir
                      | _ => "_deploy"
                      end in
    deploy_files target_dir.

End Deploy.

(** ** Notions of the specification of [embed] *)

(** Where the page is written. *)
Definition deploy_path : path := ["astrohopper_deploy.html"].

(** What one line of the template gives in the page: an inlined block for a
    script line, the manual for a [MANUAL] line, the line itself when nothing
    matches, and one line of text for a version line or a PNG line. *)
Definition chunk_for (manual line chunk : string) : Prop :=
  match rmatch script_pattern line, rmatch version_pattern line,
        rmatch urlpng_pattern line, rmatch urlpng2_pattern line with
  | Some _, _, _, _ =>
      exists code, chunk = ("<script>" ++ nl) ++ code ++ ("</script>" ++ nl)
  | None, None, None, None =>
      if strip line =? "MANUAL" then chunk = manual else chunk = line
  | _, _, _, _ => single_line chunk
  end.

(** A name of one file or directory: not empty, not [.] or [..], and
    without a slash. *)
Definition plain_name (f : string) : bool :=
  negb (f =? "") && negb (f =? ".") && negb (f =? "..")
  && all (fun c => negb (c =? "/")%char) f.

(** A relative path of plain names, as [_deploy] or [out/site]: it does
    not start or end with a slash, and it holds no empty name, [.] or [..]. *)
Definition plain_path (name : string) : bool :=
  forallb plain_name (components name).

(** The script of a script line can be read, and is not the page that is
    being written. *)
Definition script_readable (w : world) (line : string) : Prop :=
  match rmatch script_pattern line with
  | Some caps => resolve (group caps 1) <> Some deploy_path
                 /\ content w (group caps 1) <> None
  | None => True
  end.

(** All of a text but its last character. *)
Fixpoint but_last (s : string) : string :=
  match s with
  | "" => ""
  | String c "" => ""
  | String c s' => String c (but_last s')
  end.

(** [c in s] for one character. *)
Fixpoint mem (c : ascii) (s : string) : bool :=
  match s with
  | "" => false
  | String x s' => (x =? c)%char || mem c s'
  end.

(** The pattern has no group in it. *)
Fixpoint group_free (r : regex) : bool :=
  match r with
  | Group _ _ => false
  | Seq r1 r2 => group_free r1 && group_free r2
  | _ => true
  end.

(** What a pattern matches, captures and anchors left aside. *)
Fixpoint denotes (r : regex) (a : string) : Prop :=
  match r with
  | Lit l => a = l
  | Star f => all f a = true
  | Group _ r' => denotes r' a
  | Seq r1 r2 => exists a1 a2, a = a1 ++ a2 /\ denotes r1 a1 /\ denotes r2 a2
  | Bol | Eol => a = ""
  end.

(** ** Sample worlds, for the examples *)

Module Sample.

(** A rendering of exceptions, in the manner of [str(e)]. *)
Definition str_exn (e : exn) : string :=
  match e with
  | FileNotFoundError name => "[Errno 2] No such file or directory: " ++ name
  | FileExistsError name => "[Errno 17] File exists: " ++ name
  | IsADirectoryError name => "[Errno 21] Is a directory: " ++ name
  | NotADirectoryError name => "[Errno 20] Not a directory: " ++ name
  | SameFileError src dst => src ++ " and " ++ dst ++ " are the same file"
  | Error message => message
  end.

Definition create_db : M unit := ret tt.

Definition markdown_convert (text : string) : outcome string :=
  Ok ("<p>" ++ text ++ "</p>").

(** A world with the listed entries and nothing printed yet. *)
Definition world_of (entries : list (path * node)) : world :=
  World (filesystem_of entries) [].

Definition script_line : string :=
  "<script src=" ++ dquote ++ "app.js" ++ dquote ++ "></script>" ++ nl.

(** A project directory that holds a changelog with the given text and
    nothing else. *)
Definition with_changelog (text : string) : world :=
  world_of [(["Changelog.md"], File text)].

(** A project directory without a changelog. *)
Definition no_changelog : world := world_of [(["README.md"], File "# Manual")].

(** Lines of a template. *)
Definition version_line : string := "<h2>Settings (version)</h2>" ++ nl.
Definition png_line : string := "body { background: url(bg.png) }" ++ nl.
Definition manual_line : string := "MANUAL" ++ nl.
Definition plain_line : string := "<p>plain</p>" ++ nl.

(** A script line that also holds the marker of the version. *)
Definition script_line_with_marker : string :=
  "<script src=" ++ dquote ++ "app.js" ++ dquote
  ++ "></script><!-- Settings (version) -->" ++ nl.

(** A manual of two lines. *)
Definition manual : string := "<h1>Manual</h1>" ++ nl ++ "<p>Text</p>" ++ nl.

(** A project directory with a template of the given text, the script
    [app.js] and the image [bg.png]. *)
Definition with_template (text : string) : world :=
  world_of [([template], File text);
            (["app.js"], File "x=1;");
            (["bg.png"], File "PNG")].

(** The same without the script and the image. *)
Definition bare_template (text : string) : world :=
  world_of [([template], File text)].

(** A project directory in which the page is being written and holds
    [old]. *)
Definition page_open (old : string) : world :=
  world_of [(deploy_path, File old); (["app.js"], File "x=1;")].

(** A project directory ready to be deployed, but for [COPYING.md], which
    is missing. *)
Definition to_deploy : world :=
  world_of [(["astrohopper_deploy.html"], File "<html>");
            (["sw_deploy.js"], File "sw");
            (["LICENSE"], File "GPL");
            (["manual.html"], File "<h1>");
            (["manifest.json"], File "{}");
            (["icons"], Dir);
            (["icons"; "icon.png"], File "PNG")].

(** A project directory with the three sources of the manual. *)
Definition manual_sources : world :=
  world_of [(["README.md"], File "# Manual");
            (["header.html"], File "<html><body>");
            (["footer.html"], File "</body></html>")].

End Sample.

(** ** More sample worlds *)

Module Project.

(** A project directory with a service worker. *)
Definition with_service_worker : world :=
  Sample.world_of [(["sw.js"], File "const CACHE = 'hopper-VERSION';")].

(** A project directory with a readme and a header, but no footer; an old
    manual is there. *)
Definition without_footer : world :=
  Sample.world_of [(["README.md"], File "# Manual");
                   (["header.html"], File "<html><body>");
                   (["manual.html"], File "old manual")].

(** A project directory with a readme only; an old manual is there. *)
Definition readme_only : world :=
  Sample.world_of [(["README.md"], File "# Manual");
                   (["manual.html"], File "old manual")].

(** A project directory with an old page and no template. *)
Definition without_template : world :=
  Sample.world_of [(deploy_path, File "old page")].

(** A project that was deployed before: the icons are in the target. *)
Definition deployed_before : world :=
  Sample.world_of [(["icons"], Dir);
                   (["icons"; "icon.png"], File "PNG");
                   (["_deploy"], Dir);
                   (["_deploy"; "icons"], Dir)].

(** A project that is deployed a second time: the icon has changed since,
    the target holds the old one, and [COPYING.md] is missing. *)
Definition second_deployment : world :=
  Sample.world_of [(["astrohopper_deploy.html"], File "<html>");
                   (["LICENSE"], File "GPL");
                   (["icons"], Dir);
                   (["icons"; "icon.png"], File "new icon");
                   (["_deploy"], Dir);
                   (["_deploy"; "LICENSE"], File "old licence");
                   (["_deploy"; "icons"], Dir);
                   (["_deploy"; "icons"; "icon.png"], File "old icon")].

(** A project directory in which [LICENSE] is a regular file. *)
Definition with_license : world :=
  Sample.world_of [(["LICENSE"], File "GPL")].

(** A project with a changelog and a page template, but no readme. *)
Definition without_readme : world :=
  Sample.world_of [(["Changelog.md"], File ("Changes: v1.0" ++ nl));
                   ([template], File Sample.manual_line)].

End Project.

(** ** Notions for the further properties *)

(** The computation changes the file system at [p] at most. *)
Definition touches_only {A} (p : path) (m : M A) : Prop :=
  forall w r w', m w = (r, w') ->
    forall q, q <> p -> lookup (fs w') q = lookup (fs w) q.

(** The computation does not raise. *)
Definition returns {A} (m : M A) : Prop :=
  forall w, exists a w', m w = (Ok a, w').

(** [sys.argv[1] if len(sys.argv) > 1 else '_deploy'] *)
Definition target_dir (argv : list string) : string :=
  match argv with
  | _ :: dir :: _ => dir
  | _ => "_deploy"
  end.

(** No classifier of [embed] takes the line: it matches none of the four
    patterns and is no [MANUAL] line. *)
Definition passes_through (line : string) : bool :=
  match rmatch script_pattern line, rmatch version_pattern line,
        rmatch urlpng_pattern line, rmatch urlpng2_pattern line with
  | None, None, None, None => negb (strip line =? "MANUAL")
  | _, _, _, _ => false
  end.

(** ** Properties of the text functions *)

Lemma append_assoc (a b c : string) : (a ++ b) ++ c = a ++ (b ++ c).
Proof. induction a as [|x a IH]; simpl; [reflexivity | now rewrite IH]. Qed.

Lemma append_nil_r (a : string) : a ++ "" = a.
Proof. induction a as [|x a IH]; simpl; [reflexivity | now rewrite IH]. Qed.

Lemma length_append (a b : string) :
  String.length (a ++ b) = String.length a + String.length b.
Proof. induction a as [|x a IH]; simpl; [reflexivity | now rewrite IH]. Qed.

Lemma all_app_string (f : ascii -> bool) (a b : string) :
  all f (a ++ b) = all f a && all f b.
Proof.
  induction a as [|x a IH]; [reflexivity|].
  cbn [append all]. now rewrite IH, andb_assoc.
Qed.

Lemma drop_app_length_string (l t : string) :
  drop (String.length l) (l ++ t) = t.
Proof. induction l as [|x l IH]; [reflexivity | exact IH]. Qed.

Example split_example :
  split ": v" "a: v1: v2" = ["a"; "1"; "2"] /\ split ": v" "x: v" = ["x"; ""]
  /\ split ": v" "plain" = ["plain"].
Proof. repeat split. Qed.

Example replace_example :
  replace "version" "2.3.1" "Settings (version), subversion"
  = "Settings (2.3.1), sub2.3.1".
Proof. reflexivity. Qed.

Example strip_example : strip ("  a b " ++ nl) = "a b".
Proof. reflexivity. Qed.

Example lines_example :
  lines ("a" ++ nl ++ nl ++ "bc") = ["a" ++ nl; nl; "bc"].
Proof. reflexivity. Qed.

Example b64encode_example :
  b64encode "Man" = "TWFu" /\ b64encode "Ma" = "TWE=" /\ b64encode "M" = "TQ=="
  /\ b64encode "light work." = "bGlnaHQgd29yay4=".
Proof. repeat split. Qed.

(** *** [split] on the separator of the changelog *)

Lemma startswith_iff (p s : string) :
  startswith p s = true <-> exists t, s = p ++ t.
Proof.
  revert s. induction p as [|a p IH]; intros s.
  - split; [intros _; now exists s | reflexivity].
  - destruct s as [|b s]; cbn [startswith].
    + split; [intros H; discriminate H | intros [t H]; discriminate H].
    + rewrite andb_true_iff, Ascii.eqb_eq, IH. split.
      * intros [-> [t ->]]. now exists t.
      * intros [t H]. cbn in H. injection H as -> ->. split; [reflexivity | now exists t].
Qed.

Lemma startswith_sep_inv (s : string) :
  startswith ": v" s = true -> exists t, s = ": v" ++ t.
Proof. apply startswith_iff. Qed.

Lemma after_last_cons (sep : string) (c : ascii) (s : string) :
  after_last sep (String c s)
  = match after_last sep s with
    | Some x => Some x
    | None => if startswith sep (String c s)
              then Some (drop (String.length sep) (String c s)) else None
    end.
Proof. reflexivity. Qed.

Lemma split_cons (sep : string) (c : ascii) (s : string) :
  split sep (String c s)
  = if startswith sep (String c s)
    then "" :: split_go sep (String.length sep - 1) s
    else cons_first c (split sep s).
Proof. reflexivity. Qed.

(** The fields of a text: the whole text when the separator is not in it,
    and otherwise at least two fields, the last being the text after the last
    separator. *)
Lemma split_fields (n : nat) :
  forall s, String.length s <= n ->
    (after_last ": v" s = None -> split ": v" s = [s]) /\
    (forall x, after_last ": v" s = Some x ->
               exists f fs, split ": v" s = f :: (fs ++ [x])%list).
Proof.
  induction n as [|n IH]; intros s Hn.
  - destruct s; [|simpl in Hn; lia]. split; [reflexivity | discriminate].
  - destruct s as [|c s']; [split; [reflexivity | discriminate]|].
    simpl in Hn.
    destruct (startswith ": v" (String c s')) eqn:Hp.
    + destruct (startswith_sep_inv _ Hp) as [t Ht]. rewrite Ht.
      assert (Hlen : String.length t <= n).
      { apply (f_equal String.length) in Ht. simpl in Ht. lia. }
      destruct (IH t Hlen) as [IHn IHs].
      assert (Ha : after_last ": v" (": v" ++ t)
                   = match after_last ": v" t with Some x => Some x | None => Some t end).
      { cbn. destruct (after_last ": v" t); reflexivity. }
      assert (Hs : split ": v" (": v" ++ t) = "" :: split ": v" t) by reflexivity.
      rewrite Ha, Hs. split.
      * destruct (after_last ": v" t); discriminate.
      * intros x Hx. destruct (after_last ": v" t) as [y|] eqn:Hy.
        -- injection Hx as ->. destruct (IHs x eq_refl) as (f & fs & ->).
           exists "", (f :: fs). reflexivity.
        -- injection Hx as ->. rewrite (IHn eq_refl). exists "", []. reflexivity.
    + assert (Hs' : String.length s' <= n) by lia.
      destruct (IH s' Hs') as [IHn IHs].
      rewrite after_last_cons, split_cons, Hp. split.
      * intros Hnone. destruct (after_last ": v" s'); [discriminate|].
        now rewrite (IHn eq_refl).
      * intros x Hx. destruct (after_last ": v" s') as [y|]; [|discriminate].
        injection Hx as ->. destruct (IHs x eq_refl) as (f & fs & ->).
        exists (String c f), fs. reflexivity.
Qed.

Lemma last_field_split (s : string) :
  last_field (split ": v" s)
  = match after_last ": v" s with Some x => x | None => s end.
Proof.
  destruct (split_fields (String.length s) s (le_n _)) as [Hn Hs].
  destruct (after_last ": v" s) as [x|].
  - destruct (Hs x eq_refl) as (f & fs & ->). unfold last_field.
    change (f :: (fs ++ [x])%list) with ((f :: fs) ++ [x])%list. apply last_last.
  - now rewrite (Hn eq_refl).
Qed.

(** *** [strip] *)

Lemma lstrip_suffix (s : string) : exists a, s = a ++ lstrip s.
Proof.
  induction s as [|c s [a IH]]; [now exists ""|]. cbn [lstrip].
  destruct (isspace c).
  - exists (String c a). cbn. now rewrite <- IH.
  - now exists "".
Qed.

Lemma rstrip_prefix (s : string) : exists z, s = rstrip s ++ z.
Proof.
  induction s as [|c s [z IH]]; [now exists ""|]. cbn [rstrip].
  destruct (rstrip s) as [|d r] eqn:Hr.
  - destruct (isspace c).
    + now exists (String c s).
    + exists s. reflexivity.
  - exists z. change (String c s = String c (String d r ++ z)).
    now f_equal.
Qed.

Lemma strip_inside (s : string) : exists a z, s = a ++ strip s ++ z.
Proof.
  destruct (lstrip_suffix s) as [a Ha]. unfold strip.
  destruct (rstrip_prefix (lstrip s)) as [z Hz].
  exists a, z. now rewrite <- Hz.
Qed.

(** Leading blanks are taken from what stands before a visible character
    only. *)
Lemma lstrip_app_visible (p : string) (c : ascii) (t : string) :
  isspace c = false -> lstrip (p ++ String c t) = lstrip p ++ String c t.
Proof.
  intros Hc. induction p as [|x p IH]; cbn [append lstrip].
  - now rewrite Hc.
  - now destruct (isspace x).
Qed.

Lemma rstrip_app (a b : string) :
  rstrip b <> "" -> rstrip (a ++ b) = a ++ rstrip b.
Proof.
  intros Hb. induction a as [|x a IH]; [reflexivity|].
  cbn [append rstrip]. rewrite IH.
  destruct (a ++ rstrip b) eqn:E; [|reflexivity].
  destruct a; [|discriminate E]. now elim Hb.
Qed.

(** A first line that ends with the separator still ends with it when it
    is stripped. *)
Lemma strip_ends_with_sep (p : string) :
  strip (p ++ ": v" ++ nl) = lstrip p ++ ": v"
  /\ strip (p ++ ": v") = lstrip p ++ ": v".
Proof.
  unfold strip.
  change (p ++ ": v" ++ nl) with (p ++ String ":" (" v" ++ nl)).
  change (p ++ ": v") with (p ++ String ":" " v").
  rewrite !lstrip_app_visible by reflexivity. split.
  - now rewrite rstrip_app.
  - now rewrite rstrip_app.
Qed.

(** *** Occurrences of a separator *)

Lemma startswith_app_r (p s z : string) :
  startswith p s = true -> startswith p (s ++ z) = true.
Proof.
  rewrite !startswith_iff. intros [t ->]. exists (t ++ z). apply append_assoc.
Qed.

Lemma occurs_app_r (sep s z : string) :
  occurs sep s = true -> occurs sep (s ++ z) = true.
Proof.
  induction s as [|c s IH]; cbn [occurs append].
  - intros H. destruct sep; [|discriminate H]. now destruct z.
  - rewrite !orb_true_iff. intros [H|H]; [left | right; auto].
    now apply (startswith_app_r sep (String c s) z).
Qed.

Lemma occurs_app_l (sep a s : string) :
  occurs sep s = true -> occurs sep (a ++ s) = true.
Proof.
  intros H. induction a as [|c a IH]; [exact H|].
  cbn [append occurs]. rewrite IH. apply orb_true_r.
Qed.

Lemma occurs_strip (sep s : string) :
  occurs sep s = false -> occurs sep (strip s) = false.
Proof.
  intros H. destruct (strip_inside s) as (a & z & E).
  destruct (occurs sep (strip s)) eqn:Ho; [|reflexivity].
  rewrite E in H. rewrite occurs_app_l in H; [discriminate H|].
  now apply occurs_app_r.
Qed.

Lemma after_last_none (sep s : string) :
  sep <> "" -> occurs sep s = false -> after_last sep s = None.
Proof.
  intros Hsep. induction s as [|c s IH]; [reflexivity|].
  cbn [occurs]. rewrite orb_false_iff. intros [H1 H2].
  now rewrite after_last_cons, IH, H1.
Qed.

Lemma after_last_app_sep (q : string) : after_last ": v" (q ++ ": v") = Some "".
Proof.
  induction q as [|c q IH]; [reflexivity|].
  cbn [append]. now rewrite after_last_cons, IH.
Qed.

(** *** The version is one line *)

Lemma readline_shape (text : string) :
  exists body, no_newline body = true
               /\ (readline text = body ++ nl \/ readline text = body).
Proof.
  induction text as [|c text (body & Hb & IH)]; [now exists ""; split; [|right]|].
  cbn [readline]. destruct (c =? newline)%char eqn:Hc.
  - exists "". split; [reflexivity|]. left. apply Ascii.eqb_eq in Hc. now subst.
  - exists (String c body). split.
    + unfold no_newline, not_newline. cbn [all]. rewrite Hc. exact Hb.
    + destruct IH as [-> | ->]; [now left | now right].
Qed.

Lemma rstrip_app_nl (s : string) : rstrip (s ++ nl) = rstrip s.
Proof.
  induction s as [|c s IH]; [reflexivity|]. cbn [append rstrip]. now rewrite IH.
Qed.

Lemma lstrip_app_nl (s : string) :
  lstrip (s ++ nl) = lstrip s ++ nl \/ (lstrip (s ++ nl) = "" /\ lstrip s = "").
Proof.
  induction s as [|c s IH]; [now right|]. cbn [append lstrip].
  destruct (isspace c); [exact IH | now left].
Qed.

Lemma strip_app_nl (s : string) : strip (s ++ nl) = strip s.
Proof.
  unfold strip. destruct (lstrip_app_nl s) as [-> | [-> ->]];
    [apply rstrip_app_nl | reflexivity].
Qed.

Lemma no_newline_suffix (a s : string) :
  no_newline (a ++ s) = true -> no_newline s = true.
Proof. unfold no_newline. rewrite all_app_string. now intros [_ H]%andb_true_iff. Qed.

Lemma no_newline_prefix (s z : string) :
  no_newline (s ++ z) = true -> no_newline s = true.
Proof. unfold no_newline. rewrite all_app_string. now intros [H _]%andb_true_iff. Qed.

Lemma no_newline_strip (s : string) :
  no_newline s = true -> no_newline (strip s) = true.
Proof.
  intros H. destruct (strip_inside s) as (a & z & E). rewrite E in H.
  apply no_newline_suffix in H. now apply no_newline_prefix in H.
Qed.

Lemma after_last_suffix (sep s x : string) :
  after_last sep s = Some x -> exists a, s = a ++ x.
Proof.
  induction s as [|c s IH]; [discriminate|]. rewrite after_last_cons.
  destruct (after_last sep s) as [y|].
  - intros [= ->]. destruct (IH eq_refl) as [a ->]. now exists (String c a).
  - destruct (startswith sep (String c s)) eqn:Hp; [|discriminate].
    intros [= <-]. apply startswith_iff in Hp as [t ->]. exists sep.
    now rewrite drop_app_length_string.
Qed.

(** ** [get_ver] and the halt of [main] *)

Section Version.

Variable create_db : M unit.
Variable markdown_convert : string -> outcome string.
Variable str_exn : exn -> string.

Lemma read_file_content (w : world) (name data : string) :
  content w name = Some data -> read_file name w = (Ok data, w).
Proof.
  unfold content, read_file. destruct (resolve name); [|discriminate].
  destruct (lookup (fs w) p) as [[d|]|]; try discriminate.
  now intros [= ->].
Qed.

Lemma read_file_absent (w : world) (name : string) :
  content w name = None -> exists e, read_file name w = (Raise e, w).
Proof.
  unfold content, read_file. destruct (resolve name); [|eauto].
  destruct (lookup (fs w) p) as [[d|]|]; try discriminate; eauto.
Qed.

Lemma read_file_world (w w' : world) (name : string) (r : outcome string) :
  read_file name w = (r, w') -> w' = w.
Proof.
  unfold read_file. destruct (resolve name); [|now intros [= _ <-]].
  destruct (lookup (fs w) p) as [[d|]|]; now intros [= _ <-].
Qed.

Lemma get_ver_readable (w : world) (text : string) :
  content w "Changelog.md" = Some text ->
  get_ver str_exn w
  = (Ok (Some (last_field (split ": v" (strip (readline text))))), w).
Proof.
  intros H. unfold get_ver, try_except, bind.
  now rewrite (read_file_content _ _ _ H).
Qed.

Lemma get_ver_unreadable (w : world) :
  content w "Changelog.md" = None ->
  exists e, get_ver str_exn w
            = (Ok None, printed w ("Error reading version: " ++ str_exn e)).
Proof.
  intros H. destruct (read_file_absent _ _ H) as [e He]. exists e.
  unfold get_ver, try_except, bind. now rewrite He.
Qed.

(** [get_ver] gives no version only when the changelog could not be read,
    and then it has printed one line and done nothing else. *)
Lemma get_ver_None_inv (w w' : world) :
  get_ver str_exn w = (Ok None, w') ->
  content w "Changelog.md" = None /\
  exists e, w' = printed w ("Error reading version: " ++ str_exn e).
Proof.
  destruct (content w "Changelog.md") as [text|] eqn:Hc.
  - rewrite (get_ver_readable _ _ Hc). discriminate.
  - destruct (get_ver_unreadable _ Hc) as [e ->]. intros [= <-].
    split; [reflexivity | now exists e].
Qed.

(** A version that [get_ver] returns holds no newline. *)
Lemma get_ver_no_newline (w w' : world) (ver : string) :
  get_ver str_exn w = (Ok (Some ver), w') -> no_newline ver = true.
Proof.
  destruct (content w "Changelog.md") as [text|] eqn:Hc.
  - rewrite (get_ver_readable _ _ Hc). intros [= <- _].
    assert (Hs : no_newline (strip (readline text)) = true).
    { destruct (readline_shape text) as (body & Hb & [-> | ->]).
      - rewrite strip_app_nl. now apply no_newline_strip.
      - now apply no_newline_strip. }
    rewrite last_field_split.
    destruct (after_last ": v" (strip (readline text))) as [x|] eqn:E; [|exact Hs].
    apply after_last_suffix in E as [a E]. rewrite E in Hs.
    now apply no_newline_suffix in Hs.
  - destruct (get_ver_unreadable _ Hc) as [e ->]. discriminate.
Qed.

(** C5 (as amended): when the changelog can be read, [get_ver] returns the
    text after the last occurrence of the separator [: v] in the first line
    taken without its leading and trailing white space (the end of the line
    and blanks after the version are no part of the result). *)
Theorem get_ver_after_last_separator (w : world) (text ver : string) :
  content w "Changelog.md" = Some text ->
  after_last ": v" (strip (readline text)) = Some ver ->
  get_ver str_exn w = (Ok (Some ver), w).
Proof.
  intros Hc Hv. rewrite (get_ver_readable _ _ Hc).
  rewrite last_field_split. now rewrite Hv.
Qed.

(** C6 (as amended): [get_ver] returns no value when the changelog cannot
    be read, and then prints the error; when the first line does not hold
    the separator [: v], it returns a string all the same, the whole first
    line without its leading and trailing white space. *)
Theorem get_ver_unreadable_or_malformed (w : world) :
  (content w "Changelog.md" = None ->
   exists e, get_ver str_exn w
             = (Ok None, printed w ("Error reading version: " ++ str_exn e)))
  /\ (forall text, content w "Changelog.md" = Some text ->
        occurs ": v" (readline text) = false ->
        get_ver str_exn w = (Ok (Some (strip (readline text))), w)).
Proof.
  split; [apply get_ver_unreadable|].
  intros text Hc Ho. rewrite (get_ver_readable _ _ Hc), last_field_split.
  rewrite after_last_none; [reflexivity | discriminate | now apply occurs_strip].
Qed.

(** C7: when [get_ver] returns no value, [main] prints its message and
    returns: the file system is as [create_db] left it (no manual, no page,
    no service worker, no deployment), and the console holds, after the
    error of [get_ver], the one line of [main]. *)
Theorem main_halts_without_version (argv : list string) (w w1 w2 : world) :
  create_db w = (Ok tt, w1) ->
  get_ver str_exn w1 = (Ok None, w2) ->
  main create_db markdown_convert str_exn argv w
  = (Ok tt, printed w2 "Version could not be determined.")
  /\ exists e, w2 = printed w1 ("Error reading version: " ++ str_exn e).
Proof.
  intros Hdb Hver. destruct (get_ver_None_inv _ _ Hver) as [_ [e ->]].
  split; [|now exists e].
  unfold main, bind. rewrite Hdb, Hver. reflexivity.
Qed.

(** C10: when the first line of the changelog ends with the separator,
    [get_ver] returns the empty string, and [main] halts on it as on a
    missing version: it prints its message and runs no later step. *)
Theorem main_halts_on_empty_version
    (argv : list string) (w w1 : world) (text p : string) :
  create_db w = (Ok tt, w1) ->
  content w1 "Changelog.md" = Some text ->
  readline text = p ++ ": v" ++ nl \/ readline text = p ++ ": v" ->
  get_ver str_exn w1 = (Ok (Some ""), w1)
  /\ main create_db markdown_convert str_exn argv w
     = (Ok tt, printed w1 "Version could not be determined.").
Proof.
  intros Hdb Hc Hline.
  assert (Hver : get_ver str_exn w1 = (Ok (Some ""), w1)).
  { rewrite (get_ver_readable _ _ Hc), last_field_split.
    destruct (strip_ends_with_sep p) as [H1 H2].
    destruct Hline as [-> | ->]; rewrite ?H1, ?H2;
      now rewrite after_last_app_sep. }
  split; [exact Hver|].
  unfold main, bind. rewrite Hdb, Hver. reflexivity.
Qed.

End Version.

(** C5, at a changelog of two lines. *)
Lemma get_ver_after_last_separator_witness :
  content (Sample.with_changelog ("Release notes: v2.3.1" ++ nl ++ "Fixes"))
    "Changelog.md" = Some ("Release notes: v2.3.1" ++ nl ++ "Fixes")
  /\ get_ver Sample.str_exn
       (Sample.with_changelog ("Release notes: v2.3.1" ++ nl ++ "Fixes"))
     = (Ok (Some "2.3.1"),
        Sample.with_changelog ("Release notes: v2.3.1" ++ nl ++ "Fixes")).
Proof.
  split; [reflexivity|].
  apply (get_ver_after_last_separator Sample.str_exn _
           ("Release notes: v2.3.1" ++ nl ++ "Fixes")); reflexivity.
Defined.

(** C5 as it is written fails when blanks follow the version: the first
    line of this changelog is [Release notes: v2.3.1] and one blank, the text
    after its last separator is [2.3.1] and the blank, and [get_ver] returns
    [2.3.1]. *)
Lemma get_ver_trailing_blank_counterexample :
  readline ("Release notes: v2.3.1 " ++ nl) = "Release notes: v2.3.1 " ++ nl
  /\ after_last ": v" "Release notes: v2.3.1 " = Some "2.3.1 "
  /\ fst (get_ver Sample.str_exn
            (Sample.with_changelog ("Release notes: v2.3.1 " ++ nl)))
     = Ok (Some "2.3.1")
  /\ fst (get_ver Sample.str_exn
            (Sample.with_changelog ("Release notes: v2.3.1 " ++ nl)))
     <> Ok (Some "2.3.1 ").
Proof. repeat split. discriminate. Qed.

(** C6, at a project without a changelog and at a changelog whose first
    line has no separator. *)
Lemma get_ver_unreadable_or_malformed_witness :
  (exists e, get_ver Sample.str_exn Sample.no_changelog
             = (Ok None,
                printed Sample.no_changelog
                  ("Error reading version: " ++ Sample.str_exn e)))
  /\ get_ver Sample.str_exn (Sample.with_changelog ("Changelog" ++ nl))
     = (Ok (Some "Changelog"), Sample.with_changelog ("Changelog" ++ nl)).
Proof.
  destruct (get_ver_unreadable_or_malformed Sample.str_exn Sample.no_changelog)
    as [H _].
  destruct (get_ver_unreadable_or_malformed Sample.str_exn
              (Sample.with_changelog ("Changelog" ++ nl))) as [_ H'].
  split.
  - apply H. reflexivity.
  - apply (H' ("Changelog" ++ nl)); reflexivity.
Defined.

(** C6 as it is written fails on a first line without the separator:
    [get_ver] returns the line, not the absent value. *)
Lemma get_ver_malformed_counterexample :
  occurs ": v" (readline ("Changelog" ++ nl)) = false
  /\ fst (get_ver Sample.str_exn (Sample.with_changelog ("Changelog" ++ nl)))
     = Ok (Some "Changelog")
  /\ fst (get_ver Sample.str_exn (Sample.with_changelog ("Changelog" ++ nl)))
     <> Ok None.
Proof. repeat split. discriminate. Qed.

(** C7, at a project without a changelog. *)
Lemma main_halts_without_version_witness :
  get_ver Sample.str_exn Sample.no_changelog
  = (Ok None,
     printed Sample.no_changelog
       "Error reading version: [Errno 2] No such file or directory: Changelog.md")
  /\ main Sample.create_db Sample.markdown_convert Sample.str_exn
       ["deploy.py"] Sample.no_changelog
     = (Ok tt,
        printed
          (printed Sample.no_changelog
             "Error reading version: [Errno 2] No such file or directory: Changelog.md")
          "Version could not be determined.").
Proof.
  split; [reflexivity|].
  apply (main_halts_without_version Sample.create_db Sample.markdown_convert
           Sample.str_exn ["deploy.py"] Sample.no_changelog Sample.no_changelog);
    reflexivity.
Defined.

(** C10, at a changelog whose first line is [Unreleased: v]. *)
Lemma main_halts_on_empty_version_witness :
  readline ("Unreleased: v" ++ nl ++ "Notes") = "Unreleased" ++ ": v" ++ nl
  /\ get_ver Sample.str_exn (Sample.with_changelog ("Unreleased: v" ++ nl ++ "Notes"))
     = (Ok (Some ""), Sample.with_changelog ("Unreleased: v" ++ nl ++ "Notes"))
  /\ main Sample.create_db Sample.markdown_convert Sample.str_exn
       ["deploy.py"; "site"]
       (Sample.with_changelog ("Unreleased: v" ++ nl ++ "Notes"))
     = (Ok tt,
        printed (Sample.with_changelog ("Unreleased: v" ++ nl ++ "Notes"))
          "Version could not be determined.").
Proof.
  split; [reflexivity|].
  apply (main_halts_on_empty_version Sample.create_db Sample.markdown_convert
           Sample.str_exn ["deploy.py"; "site"] _ _
           ("Unreleased: v" ++ nl ++ "Notes") "Unreleased").
  - reflexivity.
  - reflexivity.
  - left. reflexivity.
Defined.

(** ** Files: what reading and writing do to the world *)

Lemma path_eqb_eq (p q : path) : path_eqb p q = true <-> p = q.
Proof.
  unfold path_eqb. destruct (list_eq_dec string_dec p q); split; auto; discriminate.
Qed.

Lemma path_eqb_refl (p : path) : path_eqb p p = true.
Proof. now apply path_eqb_eq. Qed.

Lemma path_eqb_neq (p q : path) : p <> q -> path_eqb p q = false.
Proof.
  intros H. destruct (path_eqb p q) eqn:E; [|reflexivity].
  now apply path_eqb_eq in E.
Qed.

Lemma lookup_update_same (f : filesystem) (p : path) (n : node) :
  p <> [] -> lookup (update f p n) p = Some n.
Proof.
  intros Hp. destruct p; [now elim Hp|].
  unfold lookup, update. now rewrite path_eqb_refl.
Qed.

Lemma lookup_update_other (f : filesystem) (p q : path) (n : node) :
  q <> p -> lookup (update f p n) q = lookup f q.
Proof.
  intros H. destruct q; [reflexivity|].
  unfold lookup, update. now rewrite path_eqb_neq.
Qed.

Lemma read_file_lookup (name : string) (p : path) (w : world) (data : string) :
  resolve name = Some p -> lookup (fs w) p = Some (File data) ->
  read_file name w = (Ok data, w).
Proof. intros Hr Hl. unfold read_file. now rewrite Hr, Hl. Qed.

Lemma open_write_file (name : string) (p : path) (w : world) :
  resolve name = Some p -> lookup (fs w) p <> Some Dir ->
  lookup (fs w) (removelast p) = Some Dir ->
  open_write name w = (Ok tt, World (update (fs w) p (File "")) (stdout w)).
Proof.
  intros Hr Hl Hd. unfold open_write. rewrite Hr, Hd.
  destruct (lookup (fs w) p) as [[d|]|]; try reflexivity. now elim Hl.
Qed.

Lemma write_file (name : string) (p : path) (w : world) (old data : string) :
  resolve name = Some p -> lookup (fs w) p = Some (File old) ->
  write name data w
  = (Ok tt, World (update (fs w) p (File (old ++ data))) (stdout w)).
Proof. intros Hr Hl. unfold write. now rewrite Hr, Hl. Qed.

Lemma open_read_world (w w' : world) (name : string) (r : outcome unit) :
  open_read name w = (r, w') -> w' = w.
Proof.
  unfold open_read. destruct (resolve name); [|now intros [= _ <-]].
  destruct (lookup (fs w) p) as [[d|]|]; now intros [= _ <-].
Qed.

(** Two files opened together, the first to be read and the second to be
    written: when they are not the same file, all goes as if the first were
    read before the second is opened. *)
Lemma opened_then_read {A} (src dst : string) (k : string -> M A) (w : world) :
  (forall p, resolve src = Some p -> resolve dst = Some p ->
             lookup (fs w) p = None) ->
  (open_read src ;; open_write dst ;; text <- read_open src ;; k text) w
  = (text <- read_file src ;; open_write dst ;; k text) w.
Proof.
  intros Hne. unfold bind, open_read, read_file.
  destruct (resolve src) as [p|] eqn:Hs; [|reflexivity].
  specialize (Hne p eq_refl).
  destruct (lookup (fs w) p) as [[data|]|] eqn:Hl; try reflexivity.
  destruct (open_write dst w) as [[[]|e] w1] eqn:Ho; [|reflexivity].
  unfold read_open. rewrite Hs.
  assert (Hsame : lookup (fs w1) p = lookup (fs w) p); [|now rewrite Hsame, Hl].
  unfold open_write in Ho. destruct (resolve dst) as [q|]; [|discriminate Ho].
  assert (Hpq : p <> q) by (intros ->; now specialize (Hne eq_refl)).
  destruct (lookup (fs w) q) as [[old|]|];
    try discriminate Ho;
    destruct (lookup (fs w) (removelast q)) as [[x|]|];
    try discriminate Ho;
    injection Ho as <-; cbn [fs]; now apply lookup_update_other.
Qed.

(** [shutil.copyfile] goes as if the source were read before the
    destination is opened. *)
Lemma shutil_copyfile_eq (src dst : string) (w : world) :
  shutil_copyfile src dst w
  = if match resolve src, resolve dst with
       | Some p, Some q =>
           path_eqb p q && match lookup (fs w) p with Some _ => true | None => false end
       | _, _ => false
       end
    then (Raise (SameFileError src dst), w)
    else (data <- read_file src ;; open_write dst ;; write dst data) w.
Proof.
  unfold shutil_copyfile. cbv zeta.
  destruct (resolve src) as [p|] eqn:Hs.
  - destruct (resolve dst) as [q|] eqn:Hd.
    + destruct (path_eqb p q) eqn:Eq; cbn [andb].
      * destruct (lookup (fs w) p) as [n|] eqn:Hl; [reflexivity|].
        apply opened_then_read. intros p' Hp' _. rewrite Hs in Hp'.
        now injection Hp' as <-.
      * apply opened_then_read. intros p' Hp' Hq'. rewrite Hs in Hp'.
        rewrite Hd in Hq'. injection Hp' as <-. injection Hq' as <-.
        now rewrite path_eqb_refl in Eq.
    + apply opened_then_read. intros p' _ Hq'. now rewrite Hd in Hq'.
  - apply opened_then_read. intros p' Hp'. now rewrite Hs in Hp'.
Qed.

(** ** [make_manual] *)

Section Manual.

Variable markdown_convert : string -> outcome string.
Variable str_exn : exn -> string.

(** What [make_manual] writes and returns when its three sources can be
    read and the manual can be written: the file holds the header, then the
    footer, then the converted text. *)
Lemma make_manual_writes (w : world) (text html header footer : string) :
  lookup (fs w) ["README.md"] = Some (File text) ->
  markdown_convert text = Ok html ->
  lookup (fs w) ["header.html"] = Some (File header) ->
  lookup (fs w) ["footer.html"] = Some (File footer) ->
  lookup (fs w) ["manual.html"] <> Some Dir ->
  exists w', make_manual markdown_convert str_exn w = (Ok html, w')
             /\ content w' "manual.html" = Some (header ++ footer ++ html)
             /\ stdout w' = stdout w.
Proof.
  intros Hreadme Hconv Hheader Hfooter Hmanual.
  unfold make_manual, try_except. cbn [for_each]. unfold bind.
  rewrite (read_file_lookup "README.md" ["README.md"] w text eq_refl Hreadme).
  cbv beta iota. rewrite Hconv.
  rewrite (open_write_file "manual.html" ["manual.html"] w eq_refl Hmanual eq_refl).
  cbv beta iota.
  set (w1 := World (update (fs w) ["manual.html"] (File "")) (stdout w)).
  assert (H1 : lookup (fs w1) ["header.html"] = Some (File header)).
  { unfold w1; cbn [fs]. rewrite lookup_update_other; [exact Hheader | discriminate]. }
  rewrite (read_file_lookup "header.html" ["header.html"] w1 header eq_refl H1).
  assert (M1 : lookup (fs w1) ["manual.html"] = Some (File "")).
  { unfold w1; cbn [fs]. apply lookup_update_same. discriminate. }
  cbv beta iota.
  rewrite (write_file "manual.html" ["manual.html"] w1 "" header eq_refl M1).
  cbv beta iota.
  set (w2 := World (update (fs w1) ["manual.html"] (File ("" ++ header))) (stdout w1)).
  assert (H2 : lookup (fs w2) ["footer.html"] = Some (File footer)).
  { unfold w2, w1; cbn [fs]. rewrite !lookup_update_other; [exact Hfooter | discriminate..]. }
  rewrite (read_file_lookup "footer.html" ["footer.html"] w2 footer eq_refl H2).
  assert (M2 : lookup (fs w2) ["manual.html"] = Some (File ("" ++ header))).
  { unfold w2; cbn [fs]. apply lookup_update_same. discriminate. }
  cbv beta iota.
  rewrite (write_file "manual.html" ["manual.html"] w2 _ footer eq_refl M2).
  cbv beta iota.
  set (w3 := World (update (fs w2) ["manual.html"] (File (("" ++ header) ++ footer)))
                (stdout w2)).
  unfold ret. cbv beta iota.
  assert (M3 : lookup (fs w3) ["manual.html"] = Some (File (("" ++ header) ++ footer))).
  { unfold w3; cbn [fs]. apply lookup_update_same. discriminate. }
  rewrite (write_file "manual.html" ["manual.html"] w3 _ html eq_refl M3).
  cbv beta iota.
  eexists. split; [reflexivity|]. split; [|reflexivity].
  unfold content. change (resolve "manual.html") with (Some ["manual.html"]).
  cbn [fs]. rewrite lookup_update_same by discriminate.
  cbn [append]. now rewrite append_assoc.
Qed.

End Manual.

(** C8: the code departs from the claim.  On this project the manual
    written is the header, the footer and then the body, not the body
    between the two; the value returned is the body alone, as claimed. *)
Theorem make_manual_footer_before_body :
  fst (make_manual Sample.markdown_convert Sample.str_exn Sample.manual_sources)
  = Ok "<p># Manual</p>"
  /\ content
       (snd (make_manual Sample.markdown_convert Sample.str_exn Sample.manual_sources))
       "manual.html"
     = Some ("<html><body>" ++ "</body></html>" ++ "<p># Manual</p>")
  /\ content
       (snd (make_manual Sample.markdown_convert Sample.str_exn Sample.manual_sources))
       "manual.html"
     <> Some ("<html><body>" ++ "<p># Manual</p>" ++ "</body></html>").
Proof. repeat split. discriminate. Qed.

(** ** Properties of the matcher *)

Lemma take_app_length (a rest : string) :
  take (String.length (a ++ rest) - String.length rest) (a ++ rest) = a.
Proof.
  rewrite length_append. replace (_ + _ - _) with (String.length a) by lia.
  induction a as [|x a IH]; cbn [String.length take append].
  - now destruct rest.
  - now rewrite IH.
Qed.

(** A star that matches has taken a run of the class and handed the rest
    on. *)
Lemma star_sound (f : ascii -> bool) (k : string -> option captures)
    (s : string) (res : captures) :
  star f k s = Some res ->
  exists a rest, s = a ++ rest /\ all f a = true /\ k rest = Some res.
Proof.
  induction s as [|c s IH]; cbn [star].
  - intros H. now exists "", "".
  - destruct (f c) eqn:Hf.
    + destruct (star f k s) as [r|] eqn:Hs.
      * intros [= ->]. destruct (IH eq_refl) as (a & rest & -> & Ha & Hk).
        exists (String c a), rest. cbn [append all]. now rewrite Hf, Ha.
      * intros H. now exists "", (String c s).
    + intros H. now exists "", (String c s).
Qed.

(** A star matches as soon as the rest of the pattern matches after some
    run of the class. *)
Lemma star_complete (f : ascii -> bool) (k : string -> option captures)
    (a rest : string) :
  all f a = true -> k rest <> None -> star f k (a ++ rest) <> None.
Proof.
  intros Ha Hk. induction a as [|c a IH]; cbn [append].
  - destruct rest as [|c rest]; cbn [star]; [exact Hk|].
    destruct (f c); [|exact Hk]. destruct (star f k rest); [discriminate | exact Hk].
  - cbn [all] in Ha. apply andb_true_iff in Ha as [Hc Ha].
    cbn [star]. rewrite Hc. specialize (IH Ha).
    destruct (star f k (a ++ rest)); [discriminate | now elim IH].
Qed.

(** What a pattern without groups accepts is a text it denotes, followed by
    a rest that the continuation accepts with the same captures. *)
Lemma exec_sound (r : regex) :
  group_free r = true ->
  forall input k s caps res,
    exec r input k s caps = Some res ->
    exists a rest, s = a ++ rest /\ denotes r a /\ k rest caps = Some res.
Proof.
  induction r as [l|f|n r IH|r1 IH1 r2 IH2| |]; intros G input k s caps res;
    cbn [exec].
  - destruct (startswith l s) eqn:Hl; [|discriminate].
    apply startswith_iff in Hl as [t ->]. rewrite drop_app_length_string.
    intros H. now exists l, t.
  - intros H. apply star_sound in H as (a & rest & -> & Ha & Hk).
    now exists a, rest.
  - discriminate G.
  - cbn [group_free] in G. apply andb_true_iff in G as [G1 G2].
    intros H. apply (IH1 G1) in H as (a1 & rest1 & -> & Ha1 & H).
    apply (IH2 G2) in H as (a2 & rest & -> & Ha2 & Hk).
    exists (a1 ++ a2), rest. rewrite append_assoc.
    split; [reflexivity|]. split; [|exact Hk]. now exists a1, a2.
  - destruct (String.length s =? String.length input)%nat; [|discriminate].
    intros H. now exists "", s.
  - destruct ((s =? "") || (s =? nl)); [|discriminate].
    intros H. now exists "", s.
Qed.

(** A group that matches has recorded the text its pattern took. *)
Lemma exec_group (n : nat) (r : regex) input k s caps res :
  group_free r = true ->
  exec (Group n r) input k s caps = Some res ->
  exists a rest, s = a ++ rest /\ denotes r a
                 /\ k rest ((n, a) :: caps) = Some res.
Proof.
  intros G. cbn [exec]. intros H.
  apply (exec_sound r G) in H as (a & rest & -> & Ha & Hk).
  rewrite take_app_length in Hk. now exists a, rest.
Qed.

Lemma exec_lit (l : string) input k s caps res :
  exec (Lit l) input k s caps = Some res ->
  exists rest, s = l ++ rest /\ k rest caps = Some res.
Proof.
  cbn [exec]. destruct (startswith l s) eqn:Hl; [|discriminate].
  apply startswith_iff in Hl as [t ->]. rewrite drop_app_length_string.
  intros H. now exists t.
Qed.

Lemma exec_bol input k s caps res :
  exec Bol input k s caps = Some res -> k s caps = Some res.
Proof.
  cbn [exec]. now destruct (String.length s =? String.length input)%nat.
Qed.

Lemma exec_eol input k s caps res :
  exec Eol input k s caps = Some res ->
  (s = "" \/ s = nl) /\ k s caps = Some res.
Proof.
  cbn [exec]. destruct (String.eqb_spec s "") as [->|_]; cbn [orb].
  - intros H. split; [now left | exact H].
  - destruct (String.eqb_spec s nl) as [->|_]; [|discriminate].
    intros H. split; [now right | exact H].
Qed.

Lemma exec_seq (r1 r2 : regex) input k s caps :
  exec (Seq r1 r2) input k s caps = exec r1 input (exec r2 input k) s caps.
Proof. reflexivity. Qed.

(** One step through a pattern that has matched. *)
Ltac next_bol H := rewrite exec_seq in H; apply exec_bol in H.
Ltac next_lit H rest := rewrite ?exec_seq in H; apply exec_lit in H as (rest & ? & H).
Ltac next_group H g rest D :=
  rewrite ?exec_seq in H;
  apply exec_group in H as (g & rest & ? & D & H); [|reflexivity].

(** The groups before and after the reference of a PNG line hold no
    newline. *)
Lemma urlpng_groups (line : string) (caps : captures) :
  rmatch urlpng_pattern line = Some caps ->
  no_newline (group caps 1) = true /\ no_newline (group caps 3) = true.
Proof.
  unfold rmatch, urlpng_pattern. intros H.
  next_bol H. next_group H g1 r1 D1. next_lit H r2.
  next_group H g2 r3 D2. next_lit H r4. next_group H g3 r5 D3.
  apply exec_eol in H as [_ [= <-]].
  cbn in D1, D3. cbn. split; assumption.
Qed.

Lemma urlpng2_groups (line : string) (caps : captures) :
  rmatch urlpng2_pattern line = Some caps ->
  no_newline (group caps 1) = true /\ no_newline (group caps 3) = true.
Proof.
  unfold rmatch, urlpng2_pattern. intros H.
  next_bol H. next_group H g1 r1 D1. next_lit H r2.
  next_group H g2 r3 D2. next_lit H r4. next_group H g3 r5 D3.
  apply exec_eol in H as [_ [= <-]].
  cbn in D3. cbn [group Nat.eqb]. split; [|assumption].
  destruct D1 as (a1 & a2 & -> & Da1 & b1 & b2 & -> & -> & Db2).
  cbn in Da1, Db2. unfold no_newline. rewrite !all_app_string.
  fold (no_newline a1) (no_newline b2). unfold dot in *.
  fold (no_newline a1) in Da1. fold (no_newline b2) in Db2.
  now rewrite Da1, Db2.
Qed.

(** A line that holds the marker of the version, with no newline before
    it, matches the pattern of the version. *)
Lemma version_pattern_matches (a b : string) :
  no_newline a = true ->
  rmatch version_pattern (a ++ "Settings (version)" ++ b) <> None.
Proof.
  intros Ha. unfold rmatch, version_pattern. rewrite exec_seq.
  cbn [exec]. apply star_complete; [exact Ha|].
  assert (S : forall k s, (forall t, k t <> None) -> star dot k s <> None).
  { intros k s Hk. induction s as [|c s IH]; cbn [star]; [apply Hk|].
    destruct (dot c); [|apply Hk]. destruct (star dot k s); [discriminate | apply Hk]. }
  cbn. apply S. discriminate.
Qed.

(** A line that matches the pattern of the version holds a capital S. *)
Lemma version_pattern_mem (line : string) (caps : captures) :
  rmatch version_pattern line = Some caps -> mem "S" line = true.
Proof.
  unfold rmatch, version_pattern. intros H. rewrite exec_seq in H.
  apply exec_sound in H as (a & rest & -> & _ & H); [|reflexivity].
  next_lit H r1. subst rest.
  clear. induction a as [|x a IH]; [reflexivity|].
  change (mem "S" (String x (a ++ "Settings (" ++ r1)) = true).
  cbn [mem]. rewrite IH. apply orb_true_r.
Qed.

(** ** Lines of text *)

Lemma no_newline_app (a b : string) :
  no_newline (a ++ b) = no_newline a && no_newline b.
Proof. apply all_app_string. Qed.

Lemma b64char_visible (i : N) : (i < 64)%N -> not_newline (b64char i) = true.
Proof.
  intros Hi.
  assert (H : forallb (fun n => not_newline (b64char (N.of_nat n))) (seq 0 64) = true)
    by (vm_compute; reflexivity).
  rewrite forallb_forall in H. specialize (H (N.to_nat i)).
  rewrite N2Nat.id in H. apply H. apply in_seq. lia.
Qed.

Lemma sextet_visible (n k : N) : not_newline (sextet n k) = true.
Proof. apply b64char_visible. apply N.mod_lt. discriminate. Qed.

Lemma b64encode_no_newline (bytes : string) : no_newline (b64encode bytes) = true.
Proof.
  assert (H : forall n s, String.length s <= n -> no_newline (b64encode s) = true).
  { induction n as [|n IH]; intros s Hs.
    - destruct s; [reflexivity | cbn in Hs; lia].
    - destruct s as [|a [|b [|c rest]]]; cbn [b64encode]; unfold no_newline;
        cbn [all]; rewrite ?sextet_visible; try reflexivity.
      apply IH. cbn in Hs. lia. }
  now apply (H (String.length bytes)).
Qed.

Lemma startswith_app_nl (old s : string) :
  old <> "" -> no_newline old = true ->
  startswith old (s ++ nl) = startswith old s.
Proof.
  intros _ Hn. revert s. induction old as [|o old IH]; intros s; [reflexivity|].
  unfold no_newline in Hn. cbn [all] in Hn. apply andb_true_iff in Hn as [Ho Hn].
  destruct s as [|x s].
  - unfold nl. cbn [append startswith]. unfold not_newline in Ho.
    destruct (o =? newline)%char; [discriminate Ho | reflexivity].
  - cbn [append startswith]. now rewrite IH.
Qed.

Lemma startswith_length (p s : string) :
  startswith p s = true -> String.length p <= String.length s.
Proof.
  intros H. apply startswith_iff in H as [t ->]. rewrite length_append. lia.
Qed.

Lemma replace_go_app_nl (old new : string) :
  old <> "" -> no_newline old = true ->
  forall body k, k <= String.length body ->
    replace_go old new k (body ++ nl) = replace_go old new k body ++ nl.
Proof.
  intros Hne Hold. induction body as [|x body IH]; intros k Hk.
  - assert (k = 0) as -> by (cbn in Hk; lia). cbn [append].
    change (replace_go old new 0 nl)
      with (if startswith old nl then new ++ replace_go old new (String.length old - 1) ""
            else nl).
    change nl with ("" ++ nl) at 1. rewrite startswith_app_nl by assumption.
    destruct old; [now elim Hne | reflexivity].
  - cbn [append replace_go]. destruct k as [|k].
    + change (String x (body ++ nl)) with (String x body ++ nl).
      rewrite startswith_app_nl by assumption.
      destruct (startswith old (String x body)) eqn:Hs.
      * apply startswith_length in Hs. cbn in Hs.
        rewrite IH by lia. now rewrite append_assoc.
      * rewrite IH by lia. reflexivity.
    + apply IH. cbn in Hk. lia.
Qed.

Lemma replace_go_no_newline (old new : string) :
  no_newline new = true ->
  forall s k, no_newline s = true -> no_newline (replace_go old new k s) = true.
Proof.
  intros Hnew. induction s as [|x s IH]; intros k Hs; [reflexivity|].
  unfold no_newline in Hs. cbn [all] in Hs. apply andb_true_iff in Hs as [Hx Hs].
  cbn [replace_go]. destruct k as [|k]; [|now apply IH].
  destruct (startswith old (String x s)).
  - rewrite no_newline_app, Hnew. now apply IH.
  - unfold no_newline. cbn [all]. rewrite Hx. now apply IH.
Qed.

Lemma mem_app (c : ascii) (a b : string) : mem c (a ++ b) = mem c a || mem c b.
Proof.
  induction a as [|x a IH]; [reflexivity|].
  cbn [append mem]. now rewrite IH, orb_assoc.
Qed.

(** A character that is not in [old] is kept by the replacement. *)
Lemma replace_go_mem (c : ascii) (old new : string) :
  old <> "" -> mem c old = false ->
  forall s k, mem c (take k s) = false -> mem c s = true ->
              mem c (replace_go old new k s) = true.
Proof.
  intros Hne Hold. induction s as [|x s IH]; intros k Hk Hs; [discriminate Hs|].
  cbn [replace_go]. destruct k as [|k].
  - destruct (startswith old (String x s)) eqn:Hp.
    + apply startswith_iff in Hp as [t Ht].
      destruct old as [|o old]; [now elim Hne|].
      cbn [append] in Ht. injection Ht as -> ->.
      cbn [mem] in Hold. apply orb_false_iff in Hold as [Ho Hold].
      cbn [mem] in Hs. rewrite Ho in Hs. cbn [orb] in Hs.
      rewrite mem_app. apply orb_true_iff. right.
      apply IH; [|exact Hs].
      replace (String.length (String o old) - 1) with (String.length old)
        by (cbn [String.length]; lia).
      replace (take (String.length old) (old ++ t)) with old; [exact Hold|].
      clear. induction old as [|y old IH]; cbn [String.length take append].
      * now destruct t.
      * now rewrite <- IH.
    + cbn [mem] in *. destruct (x =? c)%char; [reflexivity|].
      cbn [orb] in *. apply IH; [now destruct s | exact Hs].
  - cbn [take mem] in Hk. apply orb_false_iff in Hk as [Hx Hk].
    cbn [mem] in Hs. rewrite Hx in Hs. now apply IH.
Qed.

Lemma mem_nonempty (c : ascii) (s : string) : mem c s = true -> s <> "".
Proof. now destruct s. Qed.

(** Replacing in one line a word that has no newline by a text that has
    none leaves one line, as long as something is left. *)
Lemma replace_single_line (old new s : string) :
  old <> "" -> no_newline old = true -> no_newline new = true ->
  single_line s -> replace old new s <> "" ->
  single_line (replace old new s).
Proof.
  intros Hne Hold Hnew (body & Hbody & [-> | [-> _]]) Hres.
  - exists (replace old new body). split.
    + now apply replace_go_no_newline.
    + left. unfold replace. apply replace_go_app_nl; auto with arith.
  - exists (replace old new body). split.
    + now apply replace_go_no_newline.
    + right. split; [reflexivity | exact Hres].
Qed.

Lemma cons_single_line (c : ascii) (l : string) :
  not_newline c = true -> single_line l -> single_line (String c l).
Proof.
  intros Hc (body & Hbody & H). exists (String c body). split.
  - unfold no_newline. cbn [all]. now rewrite Hc.
  - destruct H as [-> | [-> _]]; [now left | right; split; [reflexivity | discriminate]].
Qed.

(** The lines of a text are single lines. *)
Lemma lines_single_line (text : string) : Forall single_line (lines text).
Proof.
  induction text as [|c text IH]; [constructor|].
  cbn [lines]. destruct (c =? newline)%char eqn:Hc.
  - constructor; [|exact IH]. exists "". split; [reflexivity|].
    left. apply Ascii.eqb_eq in Hc. now subst.
  - assert (Hv : not_newline c = true) by (unfold not_newline; now rewrite Hc).
    destruct (lines text) as [|l ls]; cbn [cons_first].
    + constructor; [|constructor]. exists (String c ""). split.
      * unfold no_newline. cbn [all]. now rewrite Hv.
      * right. split; [reflexivity | discriminate].
    + inversion IH as [|? ? Hl Hls]; subst.
      constructor; [now apply cons_single_line | exact Hls].
Qed.

(** The lines of a text, put end to end, are the text: nothing is lost and
    the order is kept. *)
Lemma concat_lines (text : string) : String.concat "" (lines text) = text.
Proof.
  assert (C : forall c ls, String.concat "" (cons_first c ls)
                           = String c (String.concat "" ls)).
  { intros c [|l [|l' ls]]; reflexivity. }
  induction text as [|c text IH]; [reflexivity|].
  cbn [lines]. destruct (c =? newline)%char.
  - destruct (lines text) as [|l ls] eqn:E.
    + cbn. now rewrite <- IH.
    + change (String.concat "" (String c "" :: l :: ls))
        with (String c "" ++ "" ++ String.concat "" (l :: ls)).
      now rewrite IH.
  - now rewrite C, IH.
Qed.

(** ** [embed] *)

Section Embed.

Variable str_exn : exn -> string.

Lemma content_lookup (w : world) (name data : string) :
  content w name = Some data <->
  exists p, resolve name = Some p /\ lookup (fs w) p = Some (File data).
Proof.
  unfold content. split.
  - destruct (resolve name) as [p|]; [|discriminate].
    destruct (lookup (fs w) p) as [[d|]|] eqn:E; try discriminate.
    intros [= ->]. now exists p.
  - intros (p & -> & ->). reflexivity.
Qed.

(** A write to the page puts the text at its end and leaves all else. *)
Lemma write_deploy (w : world) (old data : string) :
  lookup (fs w) deploy_path = Some (File old) ->
  exists w', write deploy_html data w = (Ok tt, w')
             /\ lookup (fs w') deploy_path = Some (File (old ++ data))
             /\ (forall q, q <> deploy_path -> lookup (fs w') q = lookup (fs w) q)
             /\ stdout w' = stdout w.
Proof.
  intros H. rewrite (write_file deploy_html deploy_path w old data eq_refl H).
  eexists. split; [reflexivity|]. cbn [fs stdout]. split; [|split].
  - apply lookup_update_same. discriminate.
  - intros q Hq. now apply lookup_update_other.
  - reflexivity.
Qed.

(** [png_encode] never raises: it returns the data URI of the file, or
    prints the error and returns the empty string; the files are left as they
    are, and what it returns holds no newline. *)
Lemma png_encode_returns (name : string) (w : world) :
  exists s w', png_encode str_exn name w = (Ok s, w')
               /\ fs w' = fs w /\ no_newline s = true
               /\ ((exists png, content w name = Some png
                                /\ s = "data:image/png;base64," ++ b64encode png
                                /\ w' = w)
                   \/ (content w name = None /\ s = ""
                       /\ exists e, w' = printed w ("Error encoding PNG: " ++ str_exn e))).
Proof.
  unfold png_encode, try_except, bind.
  destruct (content w name) as [png|] eqn:Hc.
  - rewrite (read_file_content _ _ _ Hc). cbv beta iota. unfold ret.
    exists ("data:image/png;base64," ++ b64encode png), w.
    split; [reflexivity|]. split; [reflexivity|]. split.
    + rewrite no_newline_app, b64encode_no_newline. reflexivity.
    + left. now exists png.
  - destruct (read_file_absent _ _ Hc) as [e ->]. cbv beta iota.
    exists "", (printed w ("Error encoding PNG: " ++ str_exn e)).
    split; [reflexivity|]. split; [reflexivity|]. split; [reflexivity|].
    right. split; [reflexivity|]. split; [reflexivity|]. now exists e.
Qed.

(** One line of the template: either its chunk is put at the end of the
    page, or it is a script line whose file cannot be read, and then the
    exception leaves the world as it was. *)
Lemma embed_line_cases (manual version line : string) (w : world) (old : string) :
  lookup (fs w) deploy_path = Some (File old) ->
  (exists w' chunk,
      embed_line str_exn manual version line w = (Ok tt, w')
      /\ lookup (fs w') deploy_path = Some (File (old ++ chunk))
      /\ (forall q, q <> deploy_path -> lookup (fs w') q = lookup (fs w) q)
      /\ (no_newline version = true -> single_line line ->
          chunk_for manual line chunk))
  \/ (exists caps e,
         rmatch script_pattern line = Some caps
         /\ read_file (group caps 1) w = (Raise e, w)
         /\ embed_line str_exn manual version line w = (Raise e, w)).
Proof.
  intros Hold. unfold embed_line, chunk_for.
  destruct (rmatch script_pattern line) as [m|] eqn:Hm.
  - (* script line *)
    destruct (read_file (group m 1) w) as [[code|e] w1] eqn:Hr;
      pose proof (read_file_world _ _ _ _ Hr) as ->.
    + left. unfold bind. rewrite Hr. cbv beta iota.
      destruct (write_deploy w old ("<script>" ++ nl) Hold) as (w1 & -> & H1 & F1 & _).
      cbv beta iota.
      destruct (write_deploy w1 _ code H1) as (w2 & -> & H2 & F2 & _).
      cbv beta iota.
      destruct (write_deploy w2 _ ("</script>" ++ nl) H2) as (w3 & -> & H3 & F3 & _).
      exists w3, (("<script>" ++ nl) ++ code ++ ("</script>" ++ nl)).
      split; [reflexivity|]. split; [|split].
      * rewrite H3. now rewrite !append_assoc.
      * intros q Hq. now rewrite F3, F2, F1.
      * intros _ _. now exists code.
    + right. exists m, e. split; [reflexivity|]. split; [exact Hr|].
      unfold bind. now rewrite Hr.
  - destruct (rmatch version_pattern line) as [v|] eqn:Hv.
    + (* version line *)
      left.
      destruct (write_deploy w old (replace "version" version line) Hold)
        as (w1 & -> & H1 & F1 & _).
      exists w1, (replace "version" version line).
      split; [reflexivity|]. split; [exact H1|]. split; [exact F1|].
      intros Hver Hline.
      apply replace_single_line; try assumption; try reflexivity; try discriminate.
      apply (mem_nonempty "S"). apply replace_go_mem; try reflexivity.
      * discriminate.
      * exact (version_pattern_mem _ _ Hv).
    + destruct (rmatch urlpng_pattern line) as [u|] eqn:Hu.
      * (* PNG in a CSS url *)
        left. unfold bind.
        destruct (png_encode_returns (group u 2) w) as (s & w1 & -> & Hfs & Hs & _).
        cbv beta iota.
        assert (Hold1 : lookup (fs w1) deploy_path = Some (File old))
          by now rewrite Hfs.
        destruct (write_deploy w1 old
                    (group u 1 ++ "url(" ++ s ++ ")" ++ group u 3 ++ nl) Hold1)
          as (w2 & -> & H2 & F2 & _).
        exists w2. eexists. split; [reflexivity|]. split; [exact H2|]. split.
        -- intros q Hq. rewrite F2 by exact Hq. now rewrite Hfs.
        -- intros _ _. destruct (urlpng_groups _ _ Hu) as [G1 G3].
           exists (group u 1 ++ "url(" ++ s ++ ")" ++ group u 3). split.
           ++ rewrite !no_newline_app, G1, Hs, G3. reflexivity.
           ++ left. now rewrite !append_assoc.
      * destruct (rmatch urlpng2_pattern line) as [u2|] eqn:Hu2.
        -- (* PNG in the src of an image *)
           left. unfold bind.
           destruct (png_encode_returns (group u2 2) w) as (s & w1 & -> & Hfs & Hs & _).
           cbv beta iota.
           assert (Hold1 : lookup (fs w1) deploy_path = Some (File old))
             by now rewrite Hfs.
           destruct (write_deploy w1 old
                       (group u2 1 ++ "src=" ++ dquote ++ s ++ dquote
                        ++ group u2 3 ++ nl) Hold1)
             as (w2 & -> & H2 & F2 & _).
           exists w2. eexists. split; [reflexivity|]. split; [exact H2|]. split.
           ++ intros q Hq. rewrite F2 by exact Hq. now rewrite Hfs.
           ++ intros _ _. destruct (urlpng2_groups _ _ Hu2) as [G1 G3].
              exists (group u2 1 ++ "src=" ++ dquote ++ s ++ dquote ++ group u2 3).
              split.
              ** rewrite !no_newline_app, G1, Hs, G3. reflexivity.
              ** left. now rewrite !append_assoc.
        -- (* the manual, or the line as it is *)
           left. destruct (strip line =? "MANUAL").
           ++ destruct (write_deploy w old manual Hold) as (w1 & -> & H1 & F1 & _).
              now exists w1, manual.
           ++ destruct (write_deploy w old line Hold) as (w1 & -> & H1 & F1 & _).
              now exists w1, line.
Qed.

Lemma embed_line_script_raise (manual version line : string) (w : world)
    (caps : captures) (e : exn) :
  rmatch script_pattern line = Some caps ->
  read_file (group caps 1) w = (Raise e, w) ->
  embed_line str_exn manual version line w = (Raise e, w).
Proof.
  intros Hm Hr. unfold embed_line, bind. now rewrite Hm, Hr.
Qed.

Lemma concat_cons (x : string) (xs : list string) :
  String.concat "" (x :: xs) = x ++ String.concat "" xs.
Proof. destruct xs; [cbn; now rewrite append_nil_r | reflexivity]. Qed.

Lemma for_each_app {A} (xs ys : list A) (body : A -> M unit) (w : world) :
  for_each (xs ++ ys) body w
  = match for_each xs body w with
    | (Ok _, w') => for_each ys body w'
    | (Raise e, w') => (Raise e, w')
    end.
Proof.
  revert w. induction xs as [|x xs IH]; intros w; [reflexivity|].
  cbn [for_each app]. unfold bind.
  destruct (body x w) as [[[]|e] w1]; [apply IH | reflexivity].
Qed.

Lemma script_readable_frame (w w0 : world) (line : string) :
  (forall q, q <> deploy_path -> lookup (fs w0) q = lookup (fs w) q) ->
  script_readable w line -> script_readable w0 line.
Proof.
  intros F. unfold script_readable.
  destruct (rmatch script_pattern line) as [caps|]; [|trivial].
  intros [Hp Hc]. split; [exact Hp|].
  destruct (content w (group caps 1)) as [d|] eqn:E; [|now elim Hc].
  apply content_lookup in E as (p & Hres & Hlook).
  assert (Hc0 : content w0 (group caps 1) = Some d).
  { apply content_lookup. exists p. split; [exact Hres|].
    rewrite F; [exact Hlook|]. intros ->. now elim Hp. }
  now rewrite Hc0.
Qed.

(** The loop of [embed] over lines whose scripts can be read: every line
    puts its chunk at the end of the page, in the order of the lines. *)
Lemma embed_loop (manual version : string) (ls : list string) :
  forall (w : world) (old : string),
    lookup (fs w) deploy_path = Some (File old) ->
    Forall (script_readable w) ls ->
    exists w' chunks,
      for_each ls (embed_line str_exn manual version) w = (Ok tt, w')
      /\ Forall2 (fun line chunk =>
                    no_newline version = true -> single_line line ->
                    chunk_for manual line chunk) ls chunks
      /\ lookup (fs w') deploy_path = Some (File (old ++ String.concat "" chunks))
      /\ (forall q, q <> deploy_path -> lookup (fs w') q = lookup (fs w) q).
Proof.
  induction ls as [|l ls IH]; intros w old Hold Hread.
  - exists w, []. split; [reflexivity|]. split; [constructor|].
    split; [now rewrite append_nil_r | reflexivity].
  - inversion Hread as [|? ? Hl Hls]; subst.
    destruct (embed_line_cases manual version l w old Hold)
      as [(w1 & chunk & Hrun & H1 & F1 & Hchunk) | (caps & e & Hm & Hr & _)].
    + assert (Hls1 : Forall (script_readable w1) ls).
      { eapply Forall_impl; [|exact Hls]. intros line.
        now apply script_readable_frame. }
      destruct (IH w1 (old ++ chunk) H1 Hls1) as (w' & chunks & Hrest & Hall & H' & F').
      exists w', (chunk :: chunks). split; [|split; [|split]].
      * cbn [for_each]. unfold bind. now rewrite Hrun.
      * now constructor.
      * now rewrite concat_cons, <- append_assoc.
      * intros q Hq. now rewrite F', F1.
    + exfalso. unfold script_readable in Hl. rewrite Hm in Hl.
      destruct Hl as [Hp Hc].
      destruct (content w (group caps 1)) as [d|] eqn:E; [|now elim Hc].
      rewrite (read_file_content _ _ _ E) in Hr. discriminate Hr.
Qed.

(** The page is opened empty, and all else is left. *)
Lemma open_deploy (w : world) :
  lookup (fs w) deploy_path <> Some Dir ->
  exists w0, open_write deploy_html w = (Ok tt, w0)
             /\ lookup (fs w0) deploy_path = Some (File "")
             /\ (forall q, q <> deploy_path -> lookup (fs w0) q = lookup (fs w) q)
             /\ stdout w0 = stdout w.
Proof.
  intros Hd.
  rewrite (open_write_file deploy_html deploy_path w eq_refl Hd eq_refl).
  eexists. split; [reflexivity|]. cbn [fs stdout]. split; [|split].
  - apply lookup_update_same. discriminate.
  - intros q Hq. now apply lookup_update_other.
  - reflexivity.
Qed.

Lemma content_deploy (w : world) (data : string) :
  content w deploy_html = Some data <->
  lookup (fs w) deploy_path = Some (File data).
Proof.
  rewrite content_lookup. split.
  - intros (p & [= <-] & H). exact H.
  - intros H. now exists deploy_path.
Qed.

Lemma Forall2_weaken {A B} (P R : A -> B -> Prop) (Q : A -> Prop)
    (xs : list A) (ys : list B) :
  (forall x y, Q x -> P x y -> R x y) ->
  Forall Q xs -> Forall2 P xs ys -> Forall2 R xs ys.
Proof.
  intros H HQ HP. induction HP as [|x y xs ys Hxy HP IH]; [constructor|].
  inversion HQ; subst. constructor; auto.
Qed.

Lemma but_last_app_nl (body : string) : but_last (body ++ nl) = body.
Proof.
  induction body as [|c body IH]; [reflexivity|].
  cbn [append but_last]. rewrite IH. now destruct body.
Qed.

Lemma no_newline_but_last (s : string) :
  no_newline s = true -> no_newline (but_last s) = true.
Proof.
  induction s as [|c s IH]; [reflexivity|]. unfold no_newline. cbn [all].
  intros H. apply andb_true_iff in H as [Hc Hs]. cbn [but_last].
  destruct s; [reflexivity|]. cbn [all]. rewrite Hc. now apply IH.
Qed.

(** A single line is not empty and holds no newline before its end. *)
Lemma single_line_inv (s : string) :
  single_line s -> s <> "" /\ no_newline (but_last s) = true.
Proof.
  intros (body & Hb & [-> | [-> Hne]]).
  - split; [now destruct body | now rewrite but_last_app_nl].
  - split; [exact Hne | now apply no_newline_but_last].
Qed.

End Embed.

(** ** The claims on [embed] *)

Section EmbedClaims.

Variable str_exn : exn -> string.

(** C1 (as amended): when the template, and the script of each of its
    script lines, can be read, [embed] writes to the page one chunk for each
    line of the template, in the order of the lines: the line itself when no
    classifier matches it, an inlined block for a script line, the manual as
    it is for a [MANUAL] line (not one line in general), and one line of text
    for a version line or a PNG line, the version holding no newline. *)
Theorem embed_one_chunk_per_line (manual version : string) (w : world) (text : string) :
  no_newline version = true ->
  content w template = Some text ->
  lookup (fs w) deploy_path <> Some Dir ->
  Forall (script_readable w) (lines text) ->
  exists w' chunks,
    embed str_exn manual version w = (Ok tt, w')
    /\ Forall2 (chunk_for manual) (lines text) chunks
    /\ content w' deploy_html = Some (String.concat "" chunks).
Proof.
  intros Hver Ht Hd Hread. unfold embed, try_except.
  rewrite opened_then_read by (intros p [= <-]; discriminate). unfold bind.
  rewrite (read_file_content _ _ _ Ht). cbv beta iota.
  destruct (open_deploy w Hd) as (w0 & -> & H0 & F0 & _). cbv beta iota.
  assert (Hread0 : Forall (script_readable w0) (lines text)).
  { eapply Forall_impl; [|exact Hread]. intros line.
    now apply script_readable_frame. }
  destruct (embed_loop str_exn manual version (lines text) w0 "" H0 Hread0)
    as (w' & chunks & -> & Hall & H' & _).
  exists w', chunks. split; [reflexivity|]. split.
  - eapply Forall2_weaken; [|apply lines_single_line | exact Hall].
    intros line chunk Hline H. now apply H.
  - now apply content_deploy.
Qed.

(** C2 (as amended): for the line of the external script tag of [app.js],
    with its newline or at the end of the template, [embed] writes the
    opening tag and a newline, then the content of [app.js], then the closing
    tag and a newline; it puts no newline between the content and the closing
    tag. *)
Theorem embed_inlines_script
    (manual version : string) (w : world) (old code eol : string) :
  eol = nl \/ eol = "" ->
  content w "app.js" = Some code ->
  content w deploy_html = Some old ->
  exists w',
    embed_line str_exn manual version
      ("<script src=" ++ dquote ++ "app.js" ++ dquote ++ "></script>" ++ eol) w
    = (Ok tt, w')
    /\ content w' deploy_html
       = Some (old ++ "<script>" ++ nl ++ code ++ "</script>" ++ nl)
    /\ stdout w' = stdout w.
Proof.
  intros Heol Hcode Hold. apply content_deploy in Hold.
  set (line := "<script src=" ++ dquote ++ "app.js" ++ dquote ++ "></script>" ++ eol).
  assert (Hm : rmatch script_pattern line = Some [(1, "app.js")]).
  { unfold line. destruct Heol as [-> | ->]; reflexivity. }
  unfold embed_line. rewrite Hm. cbv beta iota zeta.
  change (group [(1, "app.js")] 1) with "app.js".
  unfold bind. rewrite (read_file_content _ _ _ Hcode). cbv beta iota.
  destruct (write_deploy w old ("<script>" ++ nl) Hold) as (w1 & -> & H1 & _ & S1).
  cbv beta iota.
  destruct (write_deploy w1 _ code H1) as (w2 & -> & H2 & _ & S2).
  cbv beta iota.
  destruct (write_deploy w2 _ ("</script>" ++ nl) H2) as (w3 & -> & H3 & _ & S3).
  exists w3. split; [reflexivity|]. split.
  - apply content_deploy. rewrite H3. now rewrite !append_assoc.
  - now rewrite S3, S2, S1.
Qed.

(** C3 (as amended): a script file that cannot be read stops the pass at
    its line: the exception is caught at the top of [embed] and printed, and
    the page holds what the lines before have written.  A PNG file that
    cannot be read does not stop the pass: [png_encode] prints the error and
    returns the empty string, the line is written with an empty reference,
    and the pass goes on. *)
Theorem embed_failure_policy :
  (forall (manual version : string) (w : world) (text : string)
          (before : list string) (line : string) (rest : list string)
          (caps : captures),
      content w template = Some text ->
      lookup (fs w) deploy_path <> Some Dir ->
      lines text = (before ++ line :: rest)%list ->
      Forall (script_readable w) before ->
      rmatch script_pattern line = Some caps ->
      resolve (group caps 1) <> Some deploy_path ->
      content w (group caps 1) = None ->
      exists w0 w1 e,
        open_write deploy_html w = (Ok tt, w0)
        /\ for_each before (embed_line str_exn manual version) w0 = (Ok tt, w1)
        /\ embed str_exn manual version w
           = (Ok tt, printed w1 ("Error embedding: " ++ str_exn e)))
  /\ (forall (manual version line : string) (w : world) (old : string)
             (u : captures),
         rmatch script_pattern line = None ->
         rmatch version_pattern line = None ->
         rmatch urlpng_pattern line = Some u ->
         content w (group u 2) = None ->
         content w deploy_html = Some old ->
         exists w' e,
           embed_line str_exn manual version line w = (Ok tt, w')
           /\ content w' deploy_html
              = Some (old ++ group u 1 ++ "url()" ++ group u 3 ++ nl)
           /\ stdout w' = (stdout w ++ [("Error encoding PNG: " ++ str_exn e)%string])%list).
Proof.
  split.
  - intros manual version w text before line rest caps Ht Hd Hlines Hread Hm Hp Hc.
    destruct (open_deploy w Hd) as (w0 & Hopen & H0 & F0 & _).
    assert (Hread0 : Forall (script_readable w0) before).
    { eapply Forall_impl; [|exact Hread]. intros l. now apply script_readable_frame. }
    destruct (embed_loop str_exn manual version before w0 "" H0 Hread0)
      as (w1 & chunks & Hrun & _ & _ & F1).
    assert (Hc1 : content w1 (group caps 1) = None).
    { destruct (content w1 (group caps 1)) as [d|] eqn:E; [|reflexivity].
      apply content_lookup in E as (p & Hres & Hlook).
      assert (p <> deploy_path) by (intros ->; now elim Hp).
      rewrite F1, F0 in Hlook by assumption.
      assert (E : content w (group caps 1) = Some d)
        by (apply content_lookup; now exists p).
      rewrite E in Hc. discriminate Hc. }
    destruct (read_file_absent _ _ Hc1) as [e He].
    exists w0, w1, e. split; [exact Hopen|]. split; [exact Hrun|].
    unfold embed, try_except.
  rewrite opened_then_read by (intros p [= <-]; discriminate). unfold bind.
    rewrite (read_file_content _ _ _ Ht). cbv beta iota.
    rewrite Hopen. cbv beta iota. rewrite Hlines, for_each_app, Hrun.
    cbn [for_each]. unfold bind.
    now rewrite (embed_line_script_raise str_exn manual version line w1 caps e Hm He).
  - intros manual version line w old u Hm Hv Hu Hc Hold.
    apply content_deploy in Hold.
    unfold embed_line. rewrite Hm, Hv, Hu. cbv beta iota zeta. unfold bind.
    destruct (png_encode_returns str_exn (group u 2) w)
      as (s & w1 & -> & Hfs & _ & [(png & Hpng & _) | (_ & -> & e & ->)]).
    + rewrite Hpng in Hc. discriminate Hc.
    + cbv beta iota.
      assert (Hold1 : lookup (fs (printed w ("Error encoding PNG: " ++ str_exn e)))
                        deploy_path = Some (File old)) by exact Hold.
      destruct (write_deploy _ old (group u 1 ++ "url(" ++ "" ++ ")" ++ group u 3 ++ nl)
                  Hold1) as (w2 & -> & H2 & _ & S2).
      exists w2, e. split; [reflexivity|]. split.
      * now apply content_deploy.
      * exact S2.
Qed.

(** C4 (as amended): for every template line that matches the pattern of
    the version and is not a script line, [embed] writes the line with every
    occurrence of the word [version] replaced by the version. *)
Theorem embed_replaces_version
    (manual version line : string) (w : world) (old : string) :
  rmatch version_pattern line <> None ->
  rmatch script_pattern line = None ->
  content w deploy_html = Some old ->
  exists w',
    embed_line str_exn manual version line w = (Ok tt, w')
    /\ content w' deploy_html = Some (old ++ replace "version" version line)
    /\ stdout w' = stdout w.
Proof.
  intros Hv Hm Hold. apply content_deploy in Hold.
  unfold embed_line. rewrite Hm.
  destruct (rmatch version_pattern line) as [v|]; [|now elim Hv].
  destruct (write_deploy w old (replace "version" version line) Hold)
    as (w1 & -> & H1 & _ & S1).
  exists w1. split; [reflexivity|]. split; [now apply content_deploy | exact S1].
Qed.

End EmbedClaims.

(** A template with a line of each kind, and the page [embed] makes of
    it. *)
Example embed_sample_page :
  content
    (snd (embed Sample.str_exn Sample.manual "2.3.1"
            (Sample.with_template
               (Sample.script_line ++ Sample.version_line ++ Sample.png_line
                ++ Sample.manual_line ++ Sample.plain_line))))
    deploy_html
  = Some ("<script>" ++ nl ++ "x=1;</script>" ++ nl
          ++ "<h2>Settings (2.3.1)</h2>" ++ nl
          ++ "body { background: url(data:image/png;base64,UE5H) }" ++ nl
          ++ "<h1>Manual</h1>" ++ nl ++ "<p>Text</p>" ++ nl
          ++ "<p>plain</p>" ++ nl).
Proof. reflexivity. Qed.

(** C1, at the template with a line of each kind. *)
Lemma embed_one_chunk_per_line_witness :
  exists w' chunks,
    embed Sample.str_exn Sample.manual "2.3.1"
      (Sample.with_template
         (Sample.script_line ++ Sample.version_line ++ Sample.png_line
          ++ Sample.manual_line ++ Sample.plain_line))
    = (Ok tt, w')
    /\ Forall2 (chunk_for Sample.manual)
         (lines (Sample.script_line ++ Sample.version_line ++ Sample.png_line
                 ++ Sample.manual_line ++ Sample.plain_line))
         chunks
    /\ content w' deploy_html = Some (String.concat "" chunks).
Proof.
  apply (embed_one_chunk_per_line Sample.str_exn).
  - reflexivity.
  - reflexivity.
  - vm_compute. discriminate.
  - repeat (first [apply Forall_nil | apply Forall_cons]);
      vm_compute; try exact I; split; discriminate.
Defined.

(** C1 as it is written fails on a [MANUAL] line: this template has one
    line, which is no script line, and the page has the two lines of the
    manual. *)
Lemma embed_manual_line_counterexample :
  lines Sample.manual_line = [Sample.manual_line]
  /\ rmatch script_pattern Sample.manual_line = None
  /\ content
       (snd (embed Sample.str_exn Sample.manual "2.3.1"
               (Sample.bare_template Sample.manual_line)))
       deploy_html
     = Some ("<h1>Manual</h1>" ++ nl ++ "<p>Text</p>" ++ nl)
  /\ ~ single_line ("<h1>Manual</h1>" ++ nl ++ "<p>Text</p>" ++ nl).
Proof.
  repeat split. intros H. apply single_line_inv in H as [_ H].
  vm_compute in H. discriminate H.
Qed.

(** C2, at a page that holds one line already. *)
Lemma embed_inlines_script_witness :
  content (Sample.page_open ("<html>" ++ nl)) "app.js" = Some "x=1;"
  /\ exists w',
       embed_line Sample.str_exn Sample.manual "2.3.1"
         ("<script src=" ++ dquote ++ "app.js" ++ dquote ++ "></script>" ++ nl)
         (Sample.page_open ("<html>" ++ nl))
       = (Ok tt, w')
       /\ content w' deploy_html
          = Some (("<html>" ++ nl) ++ "<script>" ++ nl ++ "x=1;" ++ "</script>" ++ nl)
       /\ stdout w' = stdout (Sample.page_open ("<html>" ++ nl)).
Proof.
  split; [reflexivity|].
  apply (embed_inlines_script Sample.str_exn).
  - left. reflexivity.
  - reflexivity.
  - reflexivity.
Defined.

(** C2 as it is written fails when [app.js] does not end with a newline:
    the page holds the content and the closing tag on one line, with no
    newline between them. *)
Lemma embed_script_newline_counterexample :
  content (Sample.with_template Sample.script_line) "app.js" = Some "x=1;"
  /\ content
       (snd (embed Sample.str_exn Sample.manual "2.3.1"
               (Sample.with_template Sample.script_line)))
       deploy_html
     = Some ("<script>" ++ nl ++ "x=1;" ++ "</script>" ++ nl)
  /\ content
       (snd (embed Sample.str_exn Sample.manual "2.3.1"
               (Sample.with_template Sample.script_line)))
       deploy_html
     <> Some ("<script>" ++ nl ++ "x=1;" ++ nl ++ "</script>" ++ nl).
Proof. repeat split. discriminate. Qed.

(** C3, at a template whose second line names a script that is not there,
    and at a PNG line whose image is not there. *)
Lemma embed_failure_policy_witness :
  (exists w0 w1 e,
      open_write deploy_html
        (Sample.bare_template
           (Sample.plain_line ++ Sample.script_line ++ Sample.version_line))
      = (Ok tt, w0)
      /\ for_each [Sample.plain_line]
           (embed_line Sample.str_exn Sample.manual "2.3.1") w0 = (Ok tt, w1)
      /\ embed Sample.str_exn Sample.manual "2.3.1"
           (Sample.bare_template
              (Sample.plain_line ++ Sample.script_line ++ Sample.version_line))
         = (Ok tt, printed w1 ("Error embedding: " ++ Sample.str_exn e)))
  /\ (exists w' e,
         embed_line Sample.str_exn Sample.manual "2.3.1" Sample.png_line
           (Sample.page_open "")
         = (Ok tt, w')
         /\ content w' deploy_html
            = Some ("" ++ "body { background: " ++ "url()" ++ " }" ++ nl)
         /\ stdout w'
            = (stdout (Sample.page_open "")
               ++ [("Error encoding PNG: " ++ Sample.str_exn e)%string])%list).
Proof.
  destruct (embed_failure_policy Sample.str_exn) as [Hscript Hpng]. split.
  - apply (Hscript Sample.manual "2.3.1" _
             (Sample.plain_line ++ Sample.script_line ++ Sample.version_line)
             [Sample.plain_line] Sample.script_line [Sample.version_line]
             [(1, "app.js")]).
    + reflexivity.
    + vm_compute. discriminate.
    + reflexivity.
    + repeat constructor.
    + reflexivity.
    + vm_compute. discriminate.
    + reflexivity.
  - apply (Hpng Sample.manual "2.3.1" Sample.png_line (Sample.page_open "") ""
             [(3, " }"); (2, "bg.png"); (1, "body { background: ")]);
      reflexivity.
Defined.

(** C3 as it is written fails for a PNG file that is not there: the pass
    is not stopped at the line of the image, the line after it is written
    too, and the only message is the one of [png_encode]. *)
Lemma embed_missing_png_counterexample :
  content (Sample.bare_template (Sample.png_line ++ Sample.plain_line)) "bg.png"
  = None
  /\ content
       (snd (embed Sample.str_exn Sample.manual "2.3.1"
               (Sample.bare_template (Sample.png_line ++ Sample.plain_line))))
       deploy_html
     = Some ("body { background: url() }" ++ nl ++ "<p>plain</p>" ++ nl)
  /\ stdout
       (snd (embed Sample.str_exn Sample.manual "2.3.1"
               (Sample.bare_template (Sample.png_line ++ Sample.plain_line))))
     = ["Error encoding PNG: [Errno 2] No such file or directory: bg.png"].
Proof. repeat split. Qed.

(** C4, at a line with the marker of the version. *)
Lemma embed_replaces_version_witness :
  rmatch version_pattern Sample.version_line <> None
  /\ exists w',
       embed_line Sample.str_exn Sample.manual "2.3.1" Sample.version_line
         (Sample.page_open "")
       = (Ok tt, w')
       /\ content w' deploy_html
          = Some ("" ++ replace "version" "2.3.1" Sample.version_line)
       /\ stdout w' = stdout (Sample.page_open "").
Proof.
  split; [vm_compute; discriminate|].
  apply (embed_replaces_version Sample.str_exn).
  - vm_compute. discriminate.
  - reflexivity.
  - reflexivity.
Defined.

(** C4 as it is written fails on a line that matches the pattern of the
    version and the pattern of the script as well: the script is inlined, and
    the line with the version put in is not written. *)
Lemma embed_version_on_script_line_counterexample :
  rmatch version_pattern Sample.script_line_with_marker <> None
  /\ content
       (snd (embed_line Sample.str_exn Sample.manual "2.3.1"
               Sample.script_line_with_marker (Sample.page_open "")))
       deploy_html
     = Some ("<script>" ++ nl ++ "x=1;" ++ "</script>" ++ nl)
  /\ content
       (snd (embed_line Sample.str_exn Sample.manual "2.3.1"
               Sample.script_line_with_marker (Sample.page_open "")))
       deploy_html
     <> Some (replace "version" "2.3.1" Sample.script_line_with_marker).
Proof. repeat split; vm_compute; discriminate. Qed.

(** ** Paths *)

Lemma components_nonempty (s : string) : components s <> [].
Proof.
  destruct s as [|c s]; cbn [components]; [discriminate|].
  destruct (c =? "/")%char; [discriminate|].
  now destruct (components s).
Qed.

Lemma components_app_slash (a b : string) :
  components (a ++ String "/" b) = (components a ++ components b)%list.
Proof.
  induction a as [|c a IH]; cbn [append components].
  - reflexivity.
  - rewrite IH. destruct (c =? "/")%char; [reflexivity|].
    pose proof (components_nonempty a) as Hne.
    destruct (components a); [now elim Hne | reflexivity].
Qed.

Lemma components_plain (f : string) :
  all (fun c => negb (c =? "/")%char) f = true -> components f = [f].
Proof.
  induction f as [|c f IH]; [reflexivity|]. cbn [all components].
  intros H. apply andb_true_iff in H as [Hc Hf].
  destruct (c =? "/")%char; [discriminate Hc|]. now rewrite IH.
Qed.

Lemma fold_left_snoc {A B} (g : A -> B -> A) (xs : list B) (x : B) (a : A) :
  fold_left g (xs ++ [x]) a = g (fold_left g xs a) x.
Proof. now rewrite fold_left_app. Qed.

Lemma plain_name_inv (f : string) :
  plain_name f = true ->
  f <> "" /\ (forall here, step here f = (here ++ [f])%list)
  /\ components f = [f] /\ startswith "/" f = false.
Proof.
  unfold plain_name. rewrite !andb_true_iff, !negb_true_iff.
  intros [[[H1 H2] H3] H4]. split; [|split; [|split]].
  - intros ->. discriminate H1.
  - intros here. unfold step. now rewrite H1, H2, H3.
  - now apply components_plain.
  - destruct f as [|c f]; [reflexivity|]. cbn [all] in H4.
    apply andb_true_iff in H4 as [Hc _]. cbn [startswith].
    rewrite Ascii.eqb_sym. apply negb_true_iff in Hc. now rewrite Hc.
Qed.

Lemma ends_with_slash (a : string) :
  String.eqb (drop (String.length a - 1) a) "/" = true ->
  exists b, a = b ++ "/".
Proof.
  induction a as [|c a IH]; [discriminate|].
  destruct a as [|d a].
  - intros H. apply String.eqb_eq in H. cbn in H. exists "". now rewrite H.
  - intros H. destruct IH as [b Hb].
    + cbn [String.length] in *. rewrite !Nat.sub_succ, !Nat.sub_0_r in *.
      exact H.
    + exists (String c b). cbn [append]. now rewrite <- Hb.
Qed.

(** A plain name joined to a directory resolves to the name below what
    the directory resolves to. *)
Lemma resolve_join (target : string) (p : path) (f : string) :
  resolve target = Some p -> plain_name f = true ->
  resolve (os_path_join target f) = Some (p ++ [f])%list.
Proof.
  intros Hres Hf. destruct (plain_name_inv f Hf) as (Hne & Hstep & Hcomp & Hslash).
  unfold resolve in Hres. destruct (String.eqb_spec target "") as [->|Ht];
    [discriminate Hres|]. injection Hres as <-.
  unfold os_path_join. rewrite Hslash.
  destruct (String.eqb_spec target "") as [->|_]; [now elim Ht|]. cbn [orb].
  destruct (String.eqb (drop (String.length target - 1) target) "/") eqn:E.
  - destruct (ends_with_slash _ E) as [b ->]. rewrite append_assoc.
    change (b ++ "/" ++ f) with (b ++ String "/" f).
    change (b ++ "/") with (b ++ String "/" "").
    unfold resolve. rewrite !components_app_slash, Hcomp.
    destruct (String.eqb_spec (b ++ String "/" f) "") as [E0|_].
    { destruct b; discriminate E0. }
    cbn [components]. rewrite !fold_left_snoc, Hstep. reflexivity.
  - change (target ++ "/" ++ f) with (target ++ String "/" f).
    unfold resolve. rewrite components_app_slash, Hcomp.
    destruct (String.eqb_spec (target ++ String "/" f) "") as [E0|_].
    { destruct target; discriminate E0. }
    now rewrite fold_left_snoc, Hstep.
Qed.

Lemma resolve_plain (f : string) : plain_name f = true -> resolve f = Some [f].
Proof.
  intros Hf. destruct (plain_name_inv f Hf) as (Hne & Hstep & Hcomp & _).
  unfold resolve. destruct (String.eqb_spec f "") as [->|_]; [now elim Hne|].
  rewrite Hcomp. cbn [fold_left]. now rewrite Hstep.
Qed.

Lemma fold_step_plain (names : list string) :
  forallb plain_name names = true ->
  forall here, fold_left step names here = (here ++ names)%list.
Proof.
  induction names as [|f names IH]; intros H here; cbn [fold_left].
  - now rewrite List.app_nil_r.
  - cbn [forallb] in H. apply andb_true_iff in H as [Hf Hrest].
    destruct (plain_name_inv f Hf) as (_ & Hstep & _).
    rewrite Hstep, (IH Hrest), <- List.app_assoc. reflexivity.
Qed.

(** A relative path of plain names resolves to its names. *)
Lemma resolve_plain_path (name : string) :
  plain_path name = true -> resolve name = Some (components name).
Proof.
  intros H. unfold resolve.
  destruct (String.eqb_spec name "") as [->|_]; [discriminate H|].
  now rewrite (fold_step_plain _ H).
Qed.

(** A name joined to a relative path of plain names. *)
Lemma join_plain_path (target f : string) :
  plain_path target = true -> plain_name f = true ->
  os_path_join target f = target ++ "/" ++ f.
Proof.
  intros Ht Hf. destruct (plain_name_inv f Hf) as (_ & _ & _ & Hslash).
  unfold os_path_join. rewrite Hslash.
  destruct (String.eqb_spec target "") as [->|_]; [discriminate Ht|]. cbn [orb].
  destruct (String.eqb (drop (String.length target - 1) target) "/") eqn:E;
    [|reflexivity].
  destruct (ends_with_slash _ E) as [b ->]. unfold plain_path in Ht.
  change (b ++ "/") with (b ++ String "/" "") in Ht.
  rewrite components_app_slash, forallb_app in Ht.
  apply andb_true_iff in Ht as [_ Ht]. discriminate Ht.
Qed.

Example resolve_examples :
  resolve "out/" = Some ["out"] /\ resolve "./a//b/../c" = Some ["a"; "c"]
  /\ resolve "" = None /\ os_path_join "out/" "x" = "out/x"
  /\ os_path_join "out" "x" = "out/x".
Proof. repeat split. Qed.

Lemma strip_prefix_refl (p : path) : strip_prefix p p = Some [].
Proof.
  induction p as [|a p IH]; [reflexivity|]. cbn [strip_prefix].
  now rewrite String.eqb_refl.
Qed.

Lemma strip_prefix_app (p rel : path) :
  strip_prefix p (p ++ rel)%list = Some rel.
Proof.
  induction p as [|a p IH]; [reflexivity|]. cbn [strip_prefix app].
  now rewrite String.eqb_refl.
Qed.

Lemma strip_prefix_inv (p q rel : path) :
  strip_prefix p q = Some rel -> q = (p ++ rel)%list.
Proof.
  revert q. induction p as [|a p IH]; intros q; cbn [strip_prefix].
  - now intros [= ->].
  - destruct q as [|b q]; [discriminate|].
    destruct (String.eqb_spec a b) as [->|_]; [|discriminate].
    intros H. cbn [app]. f_equal. now apply IH.
Qed.

Lemma strip_prefix_longer (p q : path) :
  length q < length p -> strip_prefix p q = None.
Proof.
  intros H. destruct (strip_prefix p q) as [rel|] eqn:E; [|reflexivity].
  apply strip_prefix_inv in E. subst q. rewrite List.length_app in H. lia.
Qed.

(** ** Directories and copies *)

Lemma blocked_from_ext (f f' : filesystem) (rest : path) :
  forall pre,
    (forall q, length q < length pre + length rest ->
               is_file (lookup f' q) = is_file (lookup f q)) ->
    blocked_from f' pre rest = blocked_from f pre rest.
Proof.
  induction rest as [|c rest IH]; intros pre H; [reflexivity|].
  cbn [blocked_from]. rewrite H by (cbn [length]; lia). f_equal.
  apply IH. intros q Hq. apply H. rewrite List.length_app in Hq. cbn [length] in *. lia.
Qed.

Lemma blocked_from_snoc (f : filesystem) (rest : path) (x : string) :
  forall pre,
    blocked_from f pre (rest ++ [x])%list
    = blocked_from f pre rest || is_file (lookup f (pre ++ rest)%list).
Proof.
  induction rest as [|c rest IH]; intros pre; cbn [blocked_from app].
  - now rewrite List.app_nil_r, orb_false_r.
  - rewrite IH, <- List.app_assoc. cbn [app]. now rewrite orb_assoc.
Qed.

Lemma blocked_snoc (f : filesystem) (p : path) (x : string) :
  blocked f (p ++ [x])%list = blocked f p || is_file (lookup f p).
Proof. apply (blocked_from_snoc f p x []). Qed.

Lemma lookup_nonempty (f : filesystem) (p : path) :
  p <> [] -> lookup f p = f p.
Proof. now destruct p. Qed.

(** [os.makedirs] on a name that is not there and can be made. *)
Lemma makedirs_creates (target : string) (p : path) (w : world) :
  resolve target = Some p ->
  lookup (fs w) p = None ->
  blocked (fs w) p = false ->
  exists w', os_makedirs target w = (Ok tt, w')
             /\ lookup (fs w') p = Some Dir
             /\ (forall q n, lookup (fs w) q = Some n -> lookup (fs w') q = Some n)
             /\ (forall q, on_the_way q p = false -> lookup (fs w') q = lookup (fs w) q)
             /\ stdout w' = stdout w
             /\ blocked (fs w') p = false.
Proof.
  intros Hres Hnone Hblocked. unfold os_makedirs. rewrite Hres, Hnone, Hblocked.
  eexists. split; [reflexivity|]. cbn [fs stdout].
  assert (Hp : p <> []) by (intros ->; discriminate Hnone).
  assert (Hkeep : forall q n, lookup (fs w) q = Some n ->
            lookup (fun q0 => if on_the_way q0 p
                              then match fs w q0 with None => Some Dir | n0 => n0 end
                              else fs w q0) q = Some n).
  { intros q n Hq. destruct q as [|a q]; [exact Hq|]. cbn [lookup] in *.
    destruct (on_the_way (a :: q) p); [now rewrite Hq | exact Hq]. }
  split; [|split; [exact Hkeep|split; [|split; [reflexivity|]]]].
  - rewrite lookup_nonempty by exact Hp. rewrite lookup_nonempty in Hnone by exact Hp.
    unfold on_the_way. destruct p; [now elim Hp|].
    now rewrite strip_prefix_refl, Hnone.
  - intros q Hq. destruct q as [|a q]; [reflexivity|]. cbn [lookup]. now rewrite Hq.
  - rewrite <- Hblocked. apply blocked_from_ext. intros q _.
    destruct (lookup (fs w) q) as [n|] eqn:E.
    + now rewrite (Hkeep q n E).
    + destruct q as [|a q]; [discriminate E|]. cbn [lookup] in *.
      destruct (on_the_way (a :: q) p); now rewrite ?E.
Qed.

Lemma app_same_length {A} (a b c d : list A) :
  length a = length b -> (a ++ c)%list = (b ++ d)%list -> a = b.
Proof.
  revert b. induction a as [|x a IH]; intros [|y b] Hlen H; try discriminate Hlen.
  - reflexivity.
  - cbn [app] in H. injection H as -> H. injection Hlen as Hlen.
    now rewrite (IH b Hlen H).
Qed.

Lemma blocked_from_above (f : filesystem) (rest : path) :
  forall pre q x more,
    blocked_from f pre rest = false ->
    strip_prefix q (pre ++ rest)%list = Some (x :: more) ->
    length pre <= length q ->
    is_file (lookup f q) = false.
Proof.
  induction rest as [|c rest IH]; intros pre q x more Hb Hq Hlen.
  - rewrite List.app_nil_r in Hq. apply strip_prefix_inv in Hq.
    apply (f_equal (@length string)) in Hq. rewrite List.length_app in Hq.
    cbn [length] in Hq. lia.
  - cbn [blocked_from] in Hb. apply orb_false_iff in Hb as [Hhere Hb].
    destruct (Nat.eq_dec (length q) (length pre)) as [E|E].
    + pose proof (strip_prefix_inv _ _ _ Hq) as Hsplit.
      assert (pre = q) by (now apply (app_same_length _ _ _ _ (eq_sym E) Hsplit)).
      now subst.
    + apply (IH (pre ++ [c])%list q x more Hb).
      * now rewrite <- List.app_assoc.
      * rewrite List.length_app. cbn [length]. lia.
Qed.

(** No directory above a path that is not blocked is a regular file. *)
Lemma blocked_above (f : filesystem) (p q : path) (x : string) (more : path) :
  blocked f p = false -> strip_prefix q p = Some (x :: more) ->
  is_file (lookup f q) = false.
Proof.
  intros Hb Hq. apply (blocked_from_above f p [] q x more Hb Hq). cbn. lia.
Qed.

(** [os.makedirs] makes every directory on the way that is not there. *)
Lemma makedirs_makes_all (target : string) (p : path) (w w' : world) :
  resolve target = Some p ->
  lookup (fs w) p = None ->
  blocked (fs w) p = false ->
  os_makedirs target w = (Ok tt, w') ->
  forall q, on_the_way q p = true -> lookup (fs w') q = Some Dir.
Proof.
  intros Hres Hnone Hblocked. unfold os_makedirs. rewrite Hres, Hnone, Hblocked.
  intros [= <-] q Hq. cbn [fs].
  destruct q as [|a q]; [discriminate Hq|]. cbn [lookup]. rewrite Hq.
  unfold on_the_way in Hq.
  destruct (strip_prefix (a :: q) p) as [[|x more]|] eqn:E; [| |discriminate Hq].
  - apply strip_prefix_inv in E. rewrite List.app_nil_r in E. subst p.
    cbn [lookup] in Hnone. now rewrite Hnone.
  - pose proof (blocked_above _ _ _ _ _ Hblocked E) as Hfile.
    cbn [lookup] in Hfile. now destruct (fs w (a :: q)) as [[d|]|].
Qed.

(** [shutil.copyfile]: it changes the destination at most, it copies a
    source that is a file into a directory that is there, and it raises
    [FileNotFoundError] for a source that is not there. *)
Lemma copyfile_spec (src dst : string) (ps pd : path) (w : world) :
  resolve src = Some ps -> resolve dst = Some pd ->
  exists r w',
    shutil_copyfile src dst w = (r, w')
    /\ stdout w' = stdout w
    /\ (forall q, q <> pd -> lookup (fs w') q = lookup (fs w) q)
    /\ (forall d, lookup (fs w) ps = Some (File d) ->
                  lookup (fs w) pd <> Some Dir ->
                  lookup (fs w) (removelast pd) = Some Dir ->
                  lookup (fs w') pd = Some (File d))
    /\ (lookup (fs w) ps = None -> blocked (fs w) ps = false ->
        r = Raise (FileNotFoundError src) /\ w' = w).
Proof.
  intros Hs Hd. rewrite shutil_copyfile_eq. rewrite Hs, Hd.
  destruct (path_eqb ps pd) eqn:Eq.
  - (* the same path *)
    apply path_eqb_eq in Eq as <-. cbn [andb].
    destruct (lookup (fs w) ps) as [n|] eqn:En.
    + exists (Raise (SameFileError src dst)), w.
      split; [reflexivity|]. split; [reflexivity|]. split; [reflexivity|].
      split; [intros d Hd' _ _; congruence | discriminate].
    + unfold bind, read_file. rewrite Hs, En.
      exists (Raise (missing (fs w) ps src)), w.
      split; [reflexivity|]. split; [reflexivity|]. split; [reflexivity|].
      split; [discriminate|]. intros _ Hb. unfold missing. now rewrite Hb.
  - cbn [andb]. unfold bind, read_file. rewrite Hs.
    destruct (lookup (fs w) ps) as [[d|]|] eqn:En.
    + (* the source is a file *)
      unfold open_write. rewrite Hd.
      assert (Hraise : forall e, exists r w',
                (Raise e : outcome unit, w) = (r, w')
                /\ stdout w' = stdout w
                /\ (forall q, q <> pd -> lookup (fs w') q = lookup (fs w) q)
                /\ r = Raise e /\ w' = w).
      { intros e. exists (Raise e), w. repeat split. }
      destruct (lookup (fs w) pd) as [[old|]|] eqn:Ed.
      * destruct (lookup (fs w) (removelast pd)) as [[x|]|] eqn:Ep.
        -- exists (Raise (NotADirectoryError dst)), w.
           split; [reflexivity|]. split; [reflexivity|]. split; [reflexivity|].
           split; [intros ? _ _ H; discriminate H | discriminate].
        -- assert (Hpd : pd <> []) by (intros ->; discriminate Ed).
           unfold write. rewrite Hd. cbn [fs stdout].
           rewrite lookup_update_same by exact Hpd.
           eexists. eexists. split; [reflexivity|]. cbn [fs stdout].
           split; [reflexivity|]. split; [|split].
           ++ intros q Hq. now rewrite !lookup_update_other.
           ++ intros d' [= <-] _ _. now rewrite lookup_update_same.
           ++ discriminate.
        -- eexists. exists w.
           split; [reflexivity|]. split; [reflexivity|]. split; [reflexivity|].
           split; [intros ? _ _ H; discriminate H | discriminate].
      * exists (Raise (IsADirectoryError dst)), w.
        split; [reflexivity|]. split; [reflexivity|]. split; [reflexivity|].
        split; [intros ? _ H; now elim H | discriminate].
      * destruct (lookup (fs w) (removelast pd)) as [[x|]|] eqn:Ep.
        -- exists (Raise (NotADirectoryError dst)), w.
           split; [reflexivity|]. split; [reflexivity|]. split; [reflexivity|].
           split; [intros ? _ _ H; discriminate H | discriminate].
        -- assert (Hpd : pd <> []) by (intros ->; discriminate Ed).
           unfold write. rewrite Hd. cbn [fs stdout].
           rewrite lookup_update_same by exact Hpd.
           eexists. eexists. split; [reflexivity|]. cbn [fs stdout].
           split; [reflexivity|]. split; [|split].
           ++ intros q Hq. now rewrite !lookup_update_other.
           ++ intros d' [= <-] _ _. now rewrite lookup_update_same.
           ++ discriminate.
        -- eexists. exists w.
           split; [reflexivity|]. split; [reflexivity|]. split; [reflexivity|].
           split; [intros ? _ _ H; discriminate H | discriminate].
    + exists (Raise (IsADirectoryError src)), w.
      split; [reflexivity|]. split; [reflexivity|]. split; [reflexivity|].
      split; [discriminate | discriminate].
    + exists (Raise (missing (fs w) ps src)), w.
      split; [reflexivity|]. split; [reflexivity|]. split; [reflexivity|].
      split; [discriminate|]. intros _ Hb. unfold missing. now rewrite Hb.
Qed.

(** [shutil.copytree]: it changes what is at or below the destination and
    makes the directories above it that are not there, at most; a directory
    that is there is copied whole to a destination that is not there and can
    be made. *)
Lemma copytree_spec (src dst : string) (ps pd : path) (w : world) :
  resolve src = Some ps -> resolve dst = Some pd ->
  exists r w',
    shutil_copytree src dst w = (r, w')
    /\ stdout w' = stdout w
    /\ (forall q, strip_prefix pd q = None ->
                  on_the_way q pd = false \/ lookup (fs w) q <> None ->
                  lookup (fs w') q = lookup (fs w) q)
    /\ (lookup (fs w) ps = Some Dir -> lookup (fs w) pd = None ->
        blocked (fs w) pd = false ->
        r = Ok tt /\ lookup (fs w') pd = Some Dir
        /\ forall name rel,
             lookup (fs w') (pd ++ name :: rel)%list
             = lookup (fs w) (ps ++ name :: rel)%list).
Proof.
  intros Hs Hd. unfold shutil_copytree. rewrite Hs, Hd.
  assert (Hfail : forall e, exists r w',
            (Raise e : outcome unit, w) = (r, w')
            /\ stdout w' = stdout w
            /\ (forall q, strip_prefix pd q = None ->
                          on_the_way q pd = false \/ lookup (fs w) q <> None ->
                          lookup (fs w') q = lookup (fs w) q)
            /\ r = Raise e).
  { intros e. exists (Raise e), w. repeat split. }
  destruct (lookup (fs w) ps) as [[d|]|] eqn:Es.
  - destruct (Hfail (NotADirectoryError src)) as (r & w' & E & S & F & _).
    exists r, w'. split; [exact E|]. split; [exact S|]. split; [exact F|].
    discriminate.
  - destruct (lookup (fs w) pd) as [n|] eqn:Ed.
    + unfold os_makedirs. rewrite Hd, Ed.
      destruct (Hfail (FileExistsError dst)) as (r & w' & E & S & F & _).
      exists r, w'. split; [exact E|]. split; [exact S|]. split; [exact F|].
      discriminate.
    + destruct (blocked (fs w) pd) eqn:Eb.
      * unfold os_makedirs. rewrite Hd, Ed, Eb.
        destruct (Hfail (NotADirectoryError dst)) as (r & w' & E & S & F & _).
        exists r, w'. split; [exact E|]. split; [exact S|]. split; [exact F|].
        discriminate.
      * destruct (makedirs_creates dst pd w Hd Ed Eb)
          as (wm & -> & Hdir & Hkeep & Hframe & Hout & _).
        assert (Hpd : pd <> []) by (intros ->; discriminate Ed).
        eexists. eexists. split; [reflexivity|]. cbn [fs stdout].
        split; [exact Hout|]. split; [|intros _ _ _; split; [reflexivity|split]].
        -- intros q Hq Hway. destruct q as [|a q]; [reflexivity|].
           cbn [lookup]. rewrite Hq. destruct Hway as [Hway | Hsome].
           ++ exact (Hframe (a :: q) Hway).
           ++ destruct (lookup (fs w) (a :: q)) as [n|] eqn:En; [|now elim Hsome].
              cbn [lookup] in En. rewrite En. exact (Hkeep (a :: q) n En).
        -- rewrite lookup_nonempty by exact Hpd.
           rewrite strip_prefix_refl. rewrite <- (lookup_nonempty _ pd Hpd).
           exact Hdir.
        -- intros name rel.
           assert (H1 : (pd ++ name :: rel)%list <> []) by now destruct pd.
           assert (H2 : (ps ++ name :: rel)%list <> []) by now destruct ps.
           rewrite !lookup_nonempty by assumption.
           now rewrite strip_prefix_app.
  - destruct (Hfail (missing (fs w) ps src)) as (r & w' & E & S & F & _).
    exists r, w'. split; [exact E|]. split; [exact S|]. split; [exact F|].
    discriminate.
Qed.

Lemma strip_prefix_snoc_neq (p : path) (f g : string) :
  f <> g -> strip_prefix (p ++ [g])%list (p ++ [f])%list = None.
Proof.
  intros H. destruct (strip_prefix (p ++ [g])%list (p ++ [f])%list) as [rel|] eqn:E;
    [|reflexivity].
  apply strip_prefix_inv in E. rewrite <- List.app_assoc in E.
  apply app_inv_head in E. cbn in E. injection E as -> _. now elim H.
Qed.

Lemma on_the_way_below (a : string) (q p : path) :
  strip_prefix [a] p = None -> on_the_way (a :: q) p = false.
Proof.
  intros H. unfold on_the_way. destruct p as [|b p]; [reflexivity|].
  cbn [strip_prefix] in *. destruct (a =? b); [discriminate H | reflexivity].
Qed.

(** ** [deploy_files] *)

Section DeployFiles.

Variable str_exn : exn -> string.

(** The step of [deploy_files] for one file always returns: the file is
    copied below the target when it is there, and a line is printed for it
    when it is missing; nothing but its destination is changed. *)
Lemma copy_one (target : string) (p : path) (f : string) (w : world) :
  resolve target = Some p -> plain_name f = true ->
  exists w',
    try_except (copyf str_exn f (os_path_join target f))
      (except_Exception
         (fun e => print ("Error copying " ++ f ++ ": " ++ str_exn e))) w
    = (Ok tt, w')
    /\ (forall q, q <> (p ++ [f])%list -> lookup (fs w') q = lookup (fs w) q)
    /\ (forall d, lookup (fs w) [f] = Some (File d) ->
                  lookup (fs w) (p ++ [f])%list <> Some Dir ->
                  lookup (fs w) p = Some Dir ->
                  lookup (fs w') (p ++ [f])%list = Some (File d))
    /\ (lookup (fs w) [f] = None ->
        In ("Error copying " ++ f ++ ": " ++ str_exn (FileNotFoundError f))
           (stdout w'))
    /\ (forall line, In line (stdout w) -> In line (stdout w')).
Proof.
  intros Hp Hf.
  pose proof (resolve_plain f Hf) as Hsrc.
  pose proof (resolve_join target p f Hp Hf) as Hdst.
  set (msg := "Copying " ++ f ++ " -> " ++ os_path_join target f).
  destruct (copyfile_spec f (os_path_join target f) [f] (p ++ [f])%list
              (printed w msg) Hsrc Hdst)
    as (r & w1 & Hrun & Hout & Hframe & Hcopy & Hmiss).
  unfold try_except, copyf, try_except, bind, print. fold msg. rewrite Hrun.
  cbn [fs stdout printed] in *.
  assert (Hin : forall line, In line (stdout w) -> In line (stdout w1)).
  { intros line H. rewrite Hout. apply in_or_app. now left. }
  destruct r as [[]|e].
  - exists w1. split; [reflexivity|]. split; [exact Hframe|]. split; [|split].
    + intros d H1 H2 H3. apply Hcopy; try assumption.
      now rewrite removelast_last.
    + intros Hnone. destruct (Hmiss Hnone eq_refl) as [H _]. discriminate H.
    + exact Hin.
  - assert (Hsame : lookup (fs w) [f] = None \/
                    forall d, lookup (fs w) [f] = Some (File d) ->
                              lookup (fs w) (p ++ [f])%list <> Some Dir ->
                              lookup (fs w) p = Some Dir ->
                              lookup (fs w1) (p ++ [f])%list = Some (File d)).
    { right. intros d H1 H2 H3. apply Hcopy; try assumption.
      now rewrite removelast_last. }
    destruct e; cbn [except_FileNotFoundError except_Exception];
      eexists; (split; [reflexivity|]); cbn [fs stdout printed];
      (split; [exact Hframe|]);
      (split; [intros d H1 H2 H3; apply Hcopy; try assumption;
               now rewrite removelast_last|]);
      (split; [|intros line H; apply in_or_app; left; now apply Hin]);
      intros Hnone; destruct (Hmiss Hnone eq_refl) as [[= <-] _];
      apply in_or_app; right; now left.
Qed.

(** The steps of [deploy_files] for a list of files: each file that is
    there is copied, each missing one is reported, and the loop goes on to
    the end of the list. *)
Lemma copy_all (target : string) (p : path) (files : list string) :
  resolve target = Some p ->
  Forall (fun f => plain_name f = true) files -> NoDup files ->
  forall w,
    lookup (fs w) p = Some Dir ->
    exists w',
      for_each files
        (fun file_name =>
           try_except (copyf str_exn file_name (os_path_join target file_name))
             (except_Exception
                (fun e => print ("Error copying " ++ file_name ++ ": " ++ str_exn e))))
        w
      = (Ok tt, w')
      /\ (forall q, (forall f, In f files -> q <> (p ++ [f])%list) ->
                    lookup (fs w') q = lookup (fs w) q)
      /\ (forall f d, In f files -> lookup (fs w) [f] = Some (File d) ->
                      lookup (fs w) (p ++ [f])%list <> Some Dir ->
                      lookup (fs w') (p ++ [f])%list = Some (File d))
      /\ (forall f, In f files -> lookup (fs w) [f] = None ->
            In ("Error copying " ++ f ++ ": " ++ str_exn (FileNotFoundError f))
               (stdout w'))
      /\ (forall line, In line (stdout w) -> In line (stdout w')).
Proof.
  intros Hp Hplain Hnodup.
  induction files as [|x files IH]; intros w Hdir.
  - exists w. split; [reflexivity|]. repeat split; try easy.
  - inversion Hplain as [|? ? Hx Hfiles]; subst.
    inversion Hnodup as [|? ? Hnotin Hnodup']; subst.
    destruct (copy_one target p x w Hp Hx) as (w1 & Hrun & F1 & C1 & M1 & O1).
    assert (Hne : forall f, In f files -> (p ++ [f])%list <> (p ++ [x])%list).
    { intros f Hin E. apply app_inv_head in E. injection E as ->. now elim Hnotin. }
    assert (Hsrc : forall f, In f files -> [f] <> (p ++ [x])%list).
    { intros f Hin E. destruct p as [|a p].
      - cbn in E. injection E as ->. now elim Hnotin.
      - destruct p; discriminate E. }
    assert (Hdir1 : lookup (fs w1) p = Some Dir).
    { rewrite F1; [exact Hdir|]. intros E.
      apply (f_equal (@length string)) in E. rewrite List.length_app in E.
      cbn in E. lia. }
    destruct (IH Hfiles Hnodup' w1 Hdir1) as (w' & Hrest & F' & C' & M' & O').
    exists w'. split; [|split; [|split; [|split]]].
    + cbn [for_each]. unfold bind. now rewrite Hrun.
    + intros q Hq. rewrite F'; [apply F1|].
      * apply Hq. now left.
      * intros f Hin. apply Hq. now right.
    + intros f d [<- | Hin] Hfile Hdst.
      * rewrite F'; [now apply C1|]. intros f Hin E. symmetry in E.
        now apply (Hne f Hin).
      * apply C'; [exact Hin | |].
        -- rewrite F1; [exact Hfile | now apply Hsrc].
        -- rewrite F1; [exact Hdst | now apply Hne].
    + intros f [<- | Hin] Hnone.
      * apply O'. now apply M1.
      * apply M'; [exact Hin|]. rewrite F1; [exact Hnone | now apply Hsrc].
    + intros line H. apply O'. now apply O1.
Qed.

(** The last step of [deploy_files] always returns; it changes what is at
    or below the copy of the icons at most, and it copies the icons when they
    are there and their copy is not. *)
Lemma copy_icons (target : string) (p : path) (w : world) :
  resolve target = Some p ->
  exists w',
    try_except (copytree str_exn "icons" (os_path_join target "icons"))
      (except_Exception
         (fun e => print ("Error copying images directory: " ++ str_exn e))) w
    = (Ok tt, w')
    /\ (forall q, strip_prefix (p ++ ["icons"])%list q = None ->
                  on_the_way q (p ++ ["icons"])%list = false
                  \/ lookup (fs w) q <> None ->
                  lookup (fs w') q = lookup (fs w) q)
    /\ (lookup (fs w) ["icons"] = Some Dir ->
        lookup (fs w) (p ++ ["icons"])%list = None ->
        blocked (fs w) (p ++ ["icons"])%list = false ->
        lookup (fs w') (p ++ ["icons"])%list = Some Dir
        /\ forall name rel,
             lookup (fs w') (p ++ "icons" :: name :: rel)%list
             = lookup (fs w) ("icons" :: name :: rel))
    /\ (forall line, In line (stdout w) -> In line (stdout w')).
Proof.
  intros Hp.
  pose proof (resolve_join target p "icons" Hp eq_refl) as Hdst.
  set (msg := "Copying directory " ++ "icons" ++ " -> " ++ os_path_join target "icons").
  destruct (copytree_spec "icons" (os_path_join target "icons") ["icons"]
              (p ++ ["icons"])%list (printed w msg) eq_refl Hdst)
    as (r & w1 & Hrun & Hout & Hframe & Hcopy).
  unfold try_except, copytree, try_except, bind, print. fold msg. rewrite Hrun.
  cbn [fs stdout printed] in *.
  assert (Hin : forall line, In line (stdout w) -> In line (stdout w1)).
  { intros line H. rewrite Hout. apply in_or_app. now left. }
  assert (Hres : lookup (fs w) ["icons"] = Some Dir ->
                 lookup (fs w) (p ++ ["icons"])%list = None ->
                 blocked (fs w) (p ++ ["icons"])%list = false ->
                 r = Ok tt
                 /\ lookup (fs w1) (p ++ ["icons"])%list = Some Dir
                 /\ forall name rel,
                      lookup (fs w1) (p ++ "icons" :: name :: rel)%list
                      = lookup (fs w) ("icons" :: name :: rel)).
  { intros H1 H2 H3. destruct (Hcopy H1 H2 H3) as (Hr & Hd & Hall).
    split; [exact Hr|]. split; [exact Hd|]. intros name rel.
    specialize (Hall name rel). rewrite <- List.app_assoc in Hall. exact Hall. }
  destruct r as [[]|e].
  - exists w1. split; [reflexivity|]. split; [exact Hframe|]. split; [|exact Hin].
    intros H1 H2 H3. now destruct (Hres H1 H2 H3) as (_ & Hd & Hall).
  - destruct e; cbn [except_Exception];
      eexists; (split; [reflexivity|]); cbn [fs stdout printed];
      (split; [exact Hframe|]);
      (split; [|intros line H; apply in_or_app; left; now apply Hin]);
      intros H1 H2 H3; destruct (Hres H1 H2 H3) as (Hr & _); discriminate Hr.
Qed.

Lemma files_to_copy_plain : Forall (fun f => plain_name f = true) files_to_copy.
Proof. repeat constructor. Qed.

Lemma files_to_copy_nodup : NoDup files_to_copy.
Proof.
  unfold files_to_copy.
  repeat (constructor; [cbn [In]; intros H; repeat destruct H as [H|H];
                        try discriminate H; exact H|]).
  constructor.
Qed.

Lemma icons_not_listed : ~ In "icons" files_to_copy.
Proof.
  cbn [In files_to_copy]. intros H. repeat destruct H as [H|H];
    try discriminate H; exact H.
Qed.

(** The first step of [deploy_files]: the target is a directory after it,
    what was there is there still, and nothing is made but the target and
    the directories above it. *)
Lemma ensure_target (target : string) (p : path) (w : world) :
  resolve target = Some p ->
  blocked (fs w) p = false ->
  lookup (fs w) p = Some Dir \/ lookup (fs w) p = None ->
  exists w1,
    (there <- os_path_exists target ;;
     if negb there then os_makedirs target else ret tt)%monad w = (Ok tt, w1)
    /\ lookup (fs w1) p = Some Dir
    /\ (forall q n, lookup (fs w) q = Some n -> lookup (fs w1) q = Some n)
    /\ (forall q, on_the_way q p = false -> lookup (fs w1) q = lookup (fs w) q)
    /\ stdout w1 = stdout w
    /\ blocked (fs w1) p = false.
Proof.
  intros Hp Hb [Hdir | Hnone]; unfold bind, os_path_exists; rewrite Hp.
  - rewrite Hdir. cbn [negb]. exists w. repeat split; auto.
  - rewrite Hnone. cbn [negb].
    destruct (makedirs_creates target p w Hp Hnone Hb)
      as (w1 & -> & H1 & H2 & H3 & H4 & H5).
    exists w1. repeat split; auto.
Qed.

(** The last step of [deploy_files] when the target holds icons already:
    [shutil.copytree] raises [FileExistsError], [copytree] reports it, and
    nothing is copied. *)
Lemma copy_icons_there (target : string) (p : path) (w : world) (n : node) :
  resolve target = Some p ->
  lookup (fs w) ["icons"] = Some Dir ->
  lookup (fs w) (p ++ ["icons"])%list = Some n ->
  try_except (copytree str_exn "icons" (os_path_join target "icons"))
    (except_Exception
       (fun e => print ("Error copying images directory: " ++ str_exn e))) w
  = (Ok tt,
     printed
       (printed w ("Copying directory " ++ "icons" ++ " -> "
                   ++ os_path_join target "icons"))
       ("Directory " ++ os_path_join target "icons" ++ " already exists: "
        ++ str_exn (FileExistsError (os_path_join target "icons")))).
Proof.
  intros Hp Hsrc Hdst.
  pose proof (resolve_join target p "icons" Hp eq_refl) as Hres.
  unfold try_except, copytree, try_except, bind, print, shutil_copytree, os_makedirs.
  cbn [fs printed]. change (resolve "icons") with (Some ["icons"]).
  cbv beta iota. rewrite Hsrc, Hres, Hdst. reflexivity.
Qed.

End DeployFiles.

Section DeployClaim.

Variable str_exn : exn -> string.

(** C9: for a target named by a relative path of plain names that is a
    directory, or is not there and not below a regular file, [deploy_files]
    returns with the target a directory; a target that was not there is made
    with every directory above it.  Whatever listed files are missing, every
    one of the six listed files that is there is copied into the target (its
    place there not being a directory), and every missing one is reported on
    the console.  The icons directory is copied whole when it is there and
    the target holds no icons yet; when the target holds icons already, the
    copy is reported as existing and the icons of the target are left as they
    are. *)
Theorem deploy_files_survives_missing_files
    (target : string) (p : path) (w : world) :
  plain_path target = true ->
  components target = p ->
  blocked (fs w) p = false ->
  lookup (fs w) p = Some Dir \/ lookup (fs w) p = None ->
  exists w',
    deploy_files str_exn target w = (Ok tt, w')
    /\ lookup (fs w') p = Some Dir
    /\ (lookup (fs w) p = None ->
        forall q, on_the_way q p = true -> lookup (fs w') q = Some Dir)
    /\ (forall f d,
          In f ["astrohopper_deploy.html"; "sw_deploy.js"; "LICENSE";
                "COPYING.md"; "manual.html"; "manifest.json"] ->
          lookup (fs w) [f] = Some (File d) ->
          lookup (fs w) (p ++ [f])%list <> Some Dir ->
          lookup (fs w') (p ++ [f])%list = Some (File d))
    /\ (forall f,
          In f ["astrohopper_deploy.html"; "sw_deploy.js"; "LICENSE";
                "COPYING.md"; "manual.html"; "manifest.json"] ->
          lookup (fs w) [f] = None -> strip_prefix [f] p = None ->
          In ("Error copying " ++ f ++ ": " ++ str_exn (FileNotFoundError f))
             (stdout w'))
    /\ (lookup (fs w) ["icons"] = Some Dir ->
        lookup (fs w) (p ++ ["icons"])%list = None ->
        strip_prefix ["icons"] p = None ->
        lookup (fs w') (p ++ ["icons"])%list = Some Dir
        /\ forall name rel,
             lookup (fs w') (p ++ "icons" :: name :: rel)%list
             = lookup (fs w) ("icons" :: name :: rel))
    /\ (forall n,
          lookup (fs w) ["icons"] = Some Dir ->
          lookup (fs w) (p ++ ["icons"])%list = Some n ->
          In ("Directory " ++ (target ++ "/icons") ++ " already exists: "
              ++ str_exn (FileExistsError (target ++ "/icons")))
             (stdout w')
          /\ forall rel,
               lookup (fs w') (p ++ "icons" :: rel)%list
               = lookup (fs w) (p ++ "icons" :: rel)%list).
Proof.
  intros Hplain Hnames Hb Hstate.
  pose proof (resolve_plain_path target Hplain) as Hp. rewrite Hnames in Hp.
  pose proof (join_plain_path target "icons" Hplain eq_refl) as Hjoin.
  destruct (ensure_target target p w Hp Hb Hstate)
    as (w1 & Hrun1 & Hdir1 & Hkeep1 & Hframe1 & _ & Hb1).
  destruct (copy_all str_exn target p files_to_copy Hp files_to_copy_plain
              files_to_copy_nodup w1 Hdir1)
    as (w2 & Hrun2 & Hframe2 & Hcopy2 & Hmiss2 & _).
  destruct (copy_icons str_exn target p w2 Hp) as (w3 & Hrun3 & Hframe3 & Hcopy3 & Hout3).
  assert (Hlen : forall (q : path) f, length q <= length p -> q <> (p ++ [f])%list).
  { intros q f Hq ->. rewrite List.length_app in Hq. cbn in Hq. lia. }
  assert (Hbelow : forall rest, rest <> [] -> on_the_way (p ++ rest)%list p = false).
  { intros rest Hrest. unfold on_the_way. destruct (p ++ rest)%list eqn:E; [reflexivity|].
    rewrite <- E. rewrite strip_prefix_longer; [reflexivity|].
    rewrite List.length_app. destruct rest; [now elim Hrest|]. cbn. lia. }
  assert (Hnot_dst : forall f, on_the_way (p ++ [f])%list p = false)
    by (intros f; now apply Hbelow).
  assert (Habove : forall q n, length q <= length p ->
                               lookup (fs w1) q = Some n ->
                               lookup (fs w3) q = Some n).
  { intros q n Hq E. rewrite Hframe3.
    - rewrite Hframe2; [exact E|]. intros f _. now apply Hlen.
    - apply strip_prefix_longer. rewrite List.length_app. cbn [length]. lia.
    - right. rewrite Hframe2; [now rewrite E|]. intros f _. now apply Hlen. }
  exists w3. split; [|split; [|split; [|split; [|split; [|split]]]]].
  - unfold deploy_files.
    change (bind ?m ?k w) with (match m w with
                                | (Ok a, w') => k a w'
                                | (Raise e, w') => (Raise e, w')
                                end).
    rewrite Hrun1. cbv beta iota.
    change (bind ?m ?k w1) with (match m w1 with
                                 | (Ok a, w') => k a w'
                                 | (Raise e, w') => (Raise e, w')
                                 end).
    rewrite Hrun2. exact Hrun3.
  - apply Habove; [lia | exact Hdir1].
  - intros Hnone q Hway.
    assert (Hmade : os_makedirs target w = (Ok tt, w1)).
    { unfold bind, os_path_exists in Hrun1. rewrite Hp, Hnone in Hrun1.
      exact Hrun1. }
    apply Habove.
    + unfold on_the_way in Hway. destruct q as [|a q]; [discriminate Hway|].
      destruct (strip_prefix (a :: q) p) as [rel|] eqn:Es; [|discriminate Hway].
      apply strip_prefix_inv in Es. rewrite Es, List.length_app. lia.
    + exact (makedirs_makes_all target p w w1 Hp Hnone Hb Hmade q Hway).
  - intros f d Hin Hfile Hdst.
    assert (H2 : lookup (fs w2) (p ++ [f])%list = Some (File d)).
    { apply Hcopy2; [exact Hin | now apply Hkeep1 |].
      now rewrite Hframe1 by apply Hnot_dst. }
    rewrite Hframe3; [exact H2 | | right; now rewrite H2].
    apply strip_prefix_snoc_neq. intros ->. now apply icons_not_listed.
  - intros f Hin Hnone Hout. apply Hout3. apply Hmiss2; [exact Hin|].
    rewrite Hframe1; [exact Hnone|]. now apply on_the_way_below.
  - intros Hicons Hnew Hout.
    assert (Hsrc : forall q, lookup (fs w2) ("icons" :: q) = lookup (fs w) ("icons" :: q)).
    { intros q. rewrite Hframe2.
      - apply Hframe1. now apply on_the_way_below.
      - intros f Hin E. destruct p as [|a p].
        + cbn in E. injection E as <- _. now apply icons_not_listed.
        + cbn in E. injection E as <- _. cbn in Hout. discriminate Hout. }
    assert (Hcopied : lookup (fs w3) (p ++ ["icons"])%list = Some Dir
                      /\ forall name rel,
                           lookup (fs w3) (p ++ "icons" :: name :: rel)%list
                           = lookup (fs w2) ("icons" :: name :: rel));
      [|destruct Hcopied as [Hd Hall]; split;
        [exact Hd | intros name rel; now rewrite Hall, Hsrc]].
    apply Hcopy3.
    + now rewrite Hsrc.
    + rewrite Hframe2.
      * now rewrite Hframe1 by apply Hnot_dst.
      * intros f Hin E. apply app_inv_head in E. injection E as <-.
        now apply icons_not_listed.
    + rewrite blocked_snoc. rewrite Hframe2 by (intros f _; now apply Hlen).
      rewrite Hdir1. rewrite orb_false_r. rewrite <- Hb1.
      apply blocked_from_ext. intros q Hq. cbn in Hq.
      rewrite Hframe2; [reflexivity|]. intros f _. apply Hlen. lia.
  - intros n Hicons Hthere.
    assert (Hp0 : p <> []).
    { rewrite <- Hnames. apply components_nonempty. }
    assert (Hkept : forall rel, lookup (fs w2) (p ++ "icons" :: rel)%list
                                = lookup (fs w) (p ++ "icons" :: rel)%list).
    { intros rel. rewrite Hframe2.
      - apply Hframe1. apply Hbelow. discriminate.
      - intros f Hin E. apply app_inv_head in E. injection E as <- _.
        now apply icons_not_listed. }
    assert (Hsrc2 : lookup (fs w2) ["icons"] = Some Dir).
    { rewrite Hframe2; [now apply Hkeep1|]. intros f _ E.
      destruct p as [|a [|b p]]; [now elim Hp0 | discriminate E | discriminate E]. }
    assert (Hdst2 : lookup (fs w2) (p ++ ["icons"])%list = Some n)
      by (now rewrite Hkept).
    rewrite (copy_icons_there str_exn target p w2 n Hp Hsrc2 Hdst2) in Hrun3.
    injection Hrun3 as <-. rewrite Hjoin. cbn [fs stdout printed]. split.
    + apply in_or_app. right. now left.
    + exact Hkept.
Qed.

End DeployClaim.

(** A deployment with one listed file missing: the console, and what is in
    the target afterwards. *)
Example deploy_sample :
  stdout (snd (deploy_files Sample.str_exn "_deploy" Sample.to_deploy))
  = ["Copying astrohopper_deploy.html -> _deploy/astrohopper_deploy.html";
     "Copying sw_deploy.js -> _deploy/sw_deploy.js";
     "Copying LICENSE -> _deploy/LICENSE";
     "Copying COPYING.md -> _deploy/COPYING.md";
     "Error copying COPYING.md: [Errno 2] No such file or directory: COPYING.md";
     "Copying manual.html -> _deploy/manual.html";
     "Copying manifest.json -> _deploy/manifest.json";
     "Copying directory icons -> _deploy/icons"]
  /\ content (snd (deploy_files Sample.str_exn "_deploy" Sample.to_deploy))
       "_deploy/manifest.json" = Some "{}"
  /\ content (snd (deploy_files Sample.str_exn "_deploy" Sample.to_deploy))
       "_deploy/icons/icon.png" = Some "PNG"
  /\ content (snd (deploy_files Sample.str_exn "_deploy" Sample.to_deploy))
       "_deploy/COPYING.md" = None.
Proof. repeat split. Qed.

(** C9, at a project in which [COPYING.md] is missing and the target is not
    there yet. *)
Lemma deploy_files_survives_missing_files_witness :
  lookup (fs Sample.to_deploy) ["COPYING.md"] = None
  /\ exists w',
       deploy_files Sample.str_exn "_deploy" Sample.to_deploy = (Ok tt, w')
       /\ lookup (fs w') ["_deploy"] = Some Dir
       /\ (lookup (fs Sample.to_deploy) ["_deploy"] = None ->
           forall q, on_the_way q ["_deploy"] = true -> lookup (fs w') q = Some Dir)
       /\ (forall f d,
             In f ["astrohopper_deploy.html"; "sw_deploy.js"; "LICENSE";
                   "COPYING.md"; "manual.html"; "manifest.json"] ->
             lookup (fs Sample.to_deploy) [f] = Some (File d) ->
             lookup (fs Sample.to_deploy) (["_deploy"] ++ [f])%list <> Some Dir ->
             lookup (fs w') (["_deploy"] ++ [f])%list = Some (File d))
       /\ (forall f,
             In f ["astrohopper_deploy.html"; "sw_deploy.js"; "LICENSE";
                   "COPYING.md"; "manual.html"; "manifest.json"] ->
             lookup (fs Sample.to_deploy) [f] = None ->
             strip_prefix [f] ["_deploy"] = None ->
             In ("Error copying " ++ f ++ ": "
                 ++ Sample.str_exn (FileNotFoundError f))
                (stdout w'))
       /\ (lookup (fs Sample.to_deploy) ["icons"] = Some Dir ->
           lookup (fs Sample.to_deploy) (["_deploy"] ++ ["icons"])%list = None ->
           strip_prefix ["icons"] ["_deploy"] = None ->
           lookup (fs w') (["_deploy"] ++ ["icons"])%list = Some Dir
           /\ forall name rel,
                lookup (fs w') (["_deploy"] ++ "icons" :: name :: rel)%list
                = lookup (fs Sample.to_deploy) ("icons" :: name :: rel))
       /\ (forall n,
             lookup (fs Sample.to_deploy) ["icons"] = Some Dir ->
             lookup (fs Sample.to_deploy) (["_deploy"] ++ ["icons"])%list = Some n ->
             In ("Directory " ++ ("_deploy" ++ "/icons") ++ " already exists: "
                 ++ Sample.str_exn (FileExistsError ("_deploy" ++ "/icons")))
                (stdout w')
             /\ forall rel,
                  lookup (fs w') (["_deploy"] ++ "icons" :: rel)%list
                  = lookup (fs Sample.to_deploy) (["_deploy"] ++ "icons" :: rel)%list).
Proof.
  split; [reflexivity|].
  apply (deploy_files_survives_missing_files Sample.str_exn "_deploy" ["_deploy"]
           Sample.to_deploy).
  - reflexivity.
  - reflexivity.
  - reflexivity.
  - right. reflexivity.
Defined.

(** C9 as it is written fails on a second deployment.  One listed file,
    [COPYING.md], is missing and the target holds the icons of the first
    deployment: [deploy_files] returns and the files that are there are
    copied, but the icons directory is not copied, since
    [shutil.copytree] raises [FileExistsError] for a destination that is
    there; [copytree] reports it, and the target keeps its old icon. *)
Lemma deploy_files_second_deployment_counterexample :
  lookup (fs Project.second_deployment) ["COPYING.md"] = None
  /\ content Project.second_deployment "icons/icon.png" = Some "new icon"
  /\ fst (deploy_files Sample.str_exn "_deploy" Project.second_deployment) = Ok tt
  /\ content (snd (deploy_files Sample.str_exn "_deploy" Project.second_deployment))
       "_deploy/LICENSE" = Some "GPL"
  /\ content (snd (deploy_files Sample.str_exn "_deploy" Project.second_deployment))
       "_deploy/icons/icon.png" = Some "old icon"
  /\ content (snd (deploy_files Sample.str_exn "_deploy" Project.second_deployment))
       "_deploy/icons/icon.png"
     <> content Project.second_deployment "icons/icon.png"
  /\ In "Directory _deploy/icons already exists: [Errno 17] File exists: _deploy/icons"
        (stdout (snd (deploy_files Sample.str_exn "_deploy" Project.second_deployment))).
Proof.
  repeat split; try reflexivity.
  - discriminate.
  - vm_compute. tauto.
Qed.

(** ** Further properties of the script *)

(** A text that does not hold [old] is left as it is by the replacement. *)
Lemma replace_absent (old new s : string) :
  occurs old s = false -> replace old new s = s.
Proof.
  unfold replace. induction s as [|c s IH]; [reflexivity|].
  cbn [occurs]. rewrite orb_false_iff. intros [H1 H2].
  cbn [replace_go]. now rewrite H1, IH.
Qed.

Section Handlers.

Variable str_exn : exn -> string.

(** X1: [get_ver] never raises and changes no file; it prints only when it
    returns no value, and a version it returns holds no newline. *)
Theorem get_ver_always_returns (w : world) :
  exists r w',
    get_ver str_exn w = (Ok r, w')
    /\ fs w' = fs w
    /\ (forall ver, r = Some ver -> w' = w /\ no_newline ver = true)
    /\ (r = None ->
        exists e, w' = printed w ("Error reading version: " ++ str_exn e)).
Proof.
  destruct (content w "Changelog.md") as [text|] eqn:Hc.
  - pose proof (get_ver_readable str_exn w text Hc) as Hrun.
    eexists. exists w. split; [exact Hrun|]. split; [reflexivity|]. split.
    + intros ver [= <-]. split; [reflexivity|].
      exact (get_ver_no_newline str_exn w w _ Hrun).
    + discriminate.
  - destruct (get_ver_unreadable str_exn w Hc) as [e Hrun].
    exists None. eexists. split; [exact Hrun|]. split; [reflexivity|]. split.
    + discriminate.
    + intros _. now exists e.
Qed.

(** X2: when [sw.js] can be read and [sw_deploy.js] can be written,
    [embed_service_worker] writes to [sw_deploy.js] the text of [sw.js] with
    every [VERSION] replaced by the version, prints nothing and changes no
    other file; a service worker without the placeholder is copied as it
    is. *)
Theorem embed_service_worker_stamps (version : string) (w : world) (text : string) :
  content w "sw.js" = Some text ->
  lookup (fs w) ["sw_deploy.js"] <> Some Dir ->
  exists w',
    embed_service_worker str_exn version w = (Ok tt, w')
    /\ content w' "sw_deploy.js" = Some (replace "VERSION" version text)
    /\ (occurs "VERSION" text = false -> content w' "sw_deploy.js" = Some text)
    /\ (forall q, q <> ["sw_deploy.js"] -> lookup (fs w') q = lookup (fs w) q)
    /\ stdout w' = stdout w.
Proof.
  intros Ht Hd. unfold embed_service_worker, try_except.
  rewrite opened_then_read by (intros p [= <-]; discriminate). unfold bind.
  rewrite (read_file_content _ _ _ Ht). cbv beta iota.
  rewrite (open_write_file "sw_deploy.js" ["sw_deploy.js"] w eq_refl Hd eq_refl).
  cbv beta iota zeta.
  set (w1 := World (update (fs w) ["sw_deploy.js"] (File "")) (stdout w)).
  assert (H1 : lookup (fs w1) ["sw_deploy.js"] = Some (File "")).
  { unfold w1; cbn [fs]. apply lookup_update_same. discriminate. }
  rewrite (write_file "sw_deploy.js" ["sw_deploy.js"] w1 "" _ eq_refl H1).
  eexists. split; [reflexivity|].
  assert (Hc : content
                 (World (update (fs w1) ["sw_deploy.js"]
                           (File ("" ++ replace "VERSION" version text)))
                    (stdout w1)) "sw_deploy.js"
               = Some (replace "VERSION" version text)).
  { unfold content. change (resolve "sw_deploy.js") with (Some ["sw_deploy.js"]).
    cbn [fs]. now rewrite lookup_update_same by discriminate. }
  split; [exact Hc|]. split; [|split; [|reflexivity]].
  - intros Habs. rewrite Hc. now rewrite replace_absent.
  - intros q Hq. unfold w1. cbn [fs]. now rewrite !lookup_update_other.
Qed.

(** X3: when there is no regular file [sw.js] (it is missing, or it is a
    directory), [embed_service_worker] prints the error and returns: the
    service worker is the first of the two files to be opened, so
    [sw_deploy.js] is not opened, and no file is made or changed. *)
Theorem embed_service_worker_without_source (version : string) (w : world) :
  content w "sw.js" = None ->
  exists e,
    embed_service_worker str_exn version w
    = (Ok tt, printed w ("Error embedding service worker: " ++ str_exn e)).
Proof.
  intros Hc. destruct (read_file_absent _ _ Hc) as [e He]. exists e.
  unfold embed_service_worker, try_except.
  rewrite opened_then_read by (intros p [= <-]; discriminate). unfold bind. now rewrite He.
Qed.

End Handlers.

(** X2, at a service worker with one placeholder. *)
Lemma embed_service_worker_stamps_witness :
  content Project.with_service_worker "sw.js"
  = Some "const CACHE = 'hopper-VERSION';"
  /\ exists w',
       embed_service_worker Sample.str_exn "2.3.1" Project.with_service_worker
       = (Ok tt, w')
       /\ content w' "sw_deploy.js"
          = Some (replace "VERSION" "2.3.1" "const CACHE = 'hopper-VERSION';")
       /\ (occurs "VERSION" "const CACHE = 'hopper-VERSION';" = false ->
           content w' "sw_deploy.js" = Some "const CACHE = 'hopper-VERSION';")
       /\ (forall q, q <> ["sw_deploy.js"] ->
             lookup (fs w') q = lookup (fs Project.with_service_worker) q)
       /\ stdout w' = stdout Project.with_service_worker.
Proof.
  split; [reflexivity|].
  apply (embed_service_worker_stamps Sample.str_exn).
  - reflexivity.
  - vm_compute. discriminate.
Defined.

(** X3, at a project without a service worker. *)
Lemma embed_service_worker_without_source_witness :
  content Sample.no_changelog "sw.js" = None
  /\ exists e,
       embed_service_worker Sample.str_exn "2.3.1" Sample.no_changelog
       = (Ok tt,
          printed Sample.no_changelog
            ("Error embedding service worker: " ++ Sample.str_exn e)).
Proof.
  split; [reflexivity|].
  apply (embed_service_worker_without_source Sample.str_exn). reflexivity.
Defined.

Example embed_service_worker_sample :
  content
    (snd (embed_service_worker Sample.str_exn "2.3.1" Project.with_service_worker))
    "sw_deploy.js"
  = Some "const CACHE = 'hopper-2.3.1';".
Proof. reflexivity. Qed.

(** *** What a computation touches, and whether it returns *)

Lemma touches_ret {A} (p : path) (a : A) : touches_only p (ret a).
Proof. intros w r w' [= _ <-] q _. reflexivity. Qed.

Lemma touches_pure {A} (p : path) (x : outcome A) :
  touches_only p (fun w => (x, w)).
Proof. intros w r w' [= _ <-] q _. reflexivity. Qed.

Lemma touches_print (p : path) (line : string) : touches_only p (print line).
Proof. intros w r w' [= _ <-] q _. reflexivity. Qed.

Lemma touches_read_file (p : path) (name : string) : touches_only p (read_file name).
Proof.
  intros w r w' H q _. now rewrite (read_file_world _ _ _ _ H).
Qed.

Lemma touches_open_read (p : path) (name : string) : touches_only p (open_read name).
Proof.
  intros w r w' H q _. now rewrite (open_read_world _ _ _ _ H).
Qed.

Lemma touches_read_open (p : path) (name : string) : touches_only p (read_open name).
Proof. intros w r w' [= _ <-] q _. reflexivity. Qed.

Lemma touches_bind {A B} (p : path) (m : M A) (k : A -> M B) :
  touches_only p m -> (forall a, touches_only p (k a)) ->
  touches_only p (bind m k).
Proof.
  intros Hm Hk w r w' H q Hq. unfold bind in H.
  destruct (m w) as [[a|e] w1] eqn:E.
  - rewrite (Hk a w1 r w' H q Hq). exact (Hm w _ w1 E q Hq).
  - injection H as _ <-. exact (Hm w _ w1 E q Hq).
Qed.

Lemma touches_try_except {A} (p : path) (body : M A)
    (handler : exn -> option (M A)) :
  touches_only p body ->
  (forall e h, handler e = Some h -> touches_only p h) ->
  touches_only p (try_except body handler).
Proof.
  intros Hb Hh w r w' H q Hq. unfold try_except in H.
  destruct (body w) as [[a|e] w1] eqn:E.
  - injection H as _ <-. exact (Hb w _ w1 E q Hq).
  - destruct (handler e) as [h|] eqn:Eh.
    + rewrite (Hh e h Eh w1 r w' H q Hq). exact (Hb w _ w1 E q Hq).
    + injection H as _ <-. exact (Hb w _ w1 E q Hq).
Qed.

Lemma touches_for_each {A} (p : path) (xs : list A) (body : A -> M unit) :
  (forall x, touches_only p (body x)) -> touches_only p (for_each xs body).
Proof.
  intros Hb. induction xs as [|x xs IH]; cbn [for_each].
  - apply touches_ret.
  - apply touches_bind; [apply Hb | intros _; exact IH].
Qed.

Lemma touches_open_write (p : path) (name : string) :
  resolve name = Some p -> touches_only p (open_write name).
Proof.
  intros Hres w r w' H q Hq. unfold open_write in H. rewrite Hres in H.
  destruct (lookup (fs w) p) as [[d|]|];
    try destruct (lookup (fs w) (removelast p)) as [[x|]|];
    injection H as _ <-; cbn [fs]; try reflexivity;
    now apply lookup_update_other.
Qed.

Lemma touches_write (p : path) (name data : string) :
  resolve name = Some p -> touches_only p (write name data).
Proof.
  intros Hres w r w' H q Hq. unfold write in H. rewrite Hres in H.
  destruct (lookup (fs w) p) as [[d|]|]; injection H as _ <-; cbn [fs];
    try reflexivity; now apply lookup_update_other.
Qed.

(** A [try] whose handler catches every exception and returns does not
    raise. *)
Lemma try_except_returns {A} (body : M A) (h : exn -> M A) :
  (forall e, returns (h e)) -> returns (try_except body (except_Exception h)).
Proof.
  intros Hh w. unfold try_except, except_Exception.
  destruct (body w) as [[a|e] w1]; [now exists a, w1 | apply Hh].
Qed.

Lemma returns_print_then {A} (line : string) (a : A) :
  returns (bind (print line) (fun _ => ret a)).
Proof. intros w. now eexists; eexists. Qed.

Lemma returns_print (line : string) : returns (print line).
Proof. intros w. now eexists; eexists. Qed.

Section Manual2.

Variable markdown_convert : string -> outcome string.
Variable str_exn : exn -> string.

(** X4: [make_manual] never raises, and it changes no file but
    [manual.html]; what it returns is the empty string or the conversion of
    the readme. *)
Theorem make_manual_keeps_to_manual (w : world) :
  exists html w',
    make_manual markdown_convert str_exn w = (Ok html, w')
    /\ (forall q, q <> ["manual.html"] -> lookup (fs w') q = lookup (fs w) q)
    /\ (html = ""
        \/ exists text, content w "README.md" = Some text
                        /\ markdown_convert text = Ok html).
Proof.
  destruct (try_except_returns
              (text <- read_file "README.md" ;;
               html <- (fun w => (markdown_convert text, w)) ;;
               open_write "manual.html" ;;
               for_each ["header.html"; "footer.html"]
                 (fun part => data <- read_file part ;; write "manual.html" data) ;;
               write "manual.html" html ;;
               ret html)%monad
              (fun e => print ("Error creating manual: " ++ str_exn e) ;; ret "")%monad
              (fun e => returns_print_then _ "") w) as (html & w' & Hrun).
  exists html, w'. split; [exact Hrun|]. split.
  - apply (fun H => H w (Ok html) w' Hrun). unfold make_manual.
    apply touches_try_except.
    + apply touches_bind; [apply touches_read_file|]. intros text.
      apply touches_bind; [apply touches_pure|]. intros h.
      apply touches_bind; [now apply touches_open_write|]. intros _.
      apply touches_bind.
      * apply touches_for_each. intros part.
        apply touches_bind; [apply touches_read_file|]. intros data.
        now apply touches_write.
      * intros _. apply touches_bind; [now apply touches_write|].
        intros _. apply touches_ret.
    + intros e h [= <-]. apply touches_bind; [apply touches_print|].
      intros _. apply touches_ret.
  - unfold make_manual, try_except in Hrun.
    set (loop := for_each _ _) in Hrun. unfold bind in Hrun.
    destruct (content w "README.md") as [text|] eqn:Hc.
    + rewrite (read_file_content _ _ _ Hc) in Hrun. cbv beta iota in Hrun.
      destruct (markdown_convert text) as [h|e] eqn:Hm.
      * destruct (open_write "manual.html" w) as [[[]|e1] w1].
        2:{ cbn in Hrun. injection Hrun as <- _. now left. }
        destruct (loop w1) as [[[]|e2] w2].
        2:{ cbn in Hrun. injection Hrun as <- _. now left. }
        destruct (write "manual.html" h w2) as [[[]|e3] w3].
        2:{ cbn in Hrun. injection Hrun as <- _. now left. }
        cbn in Hrun. injection Hrun as <- _. right. now exists text.
      * cbn in Hrun. injection Hrun as <- _. now left.
    + destruct (read_file_absent _ _ Hc) as [e He]. rewrite He in Hrun.
      cbn in Hrun. injection Hrun as <- _. now left.
Qed.

(** X5: when the readme cannot be read, [make_manual] prints the error
    and returns the empty string; no file is made or changed, and an old
    manual stays as it was. *)
Theorem make_manual_without_readme (w : world) :
  content w "README.md" = None ->
  exists e,
    make_manual markdown_convert str_exn w
    = (Ok "", printed w ("Error creating manual: " ++ str_exn e)).
Proof.
  intros Hc. destruct (read_file_absent _ _ Hc) as [e He]. exists e.
  unfold make_manual, try_except, bind. now rewrite He.
Qed.

(** X6: when the readme is read and converted but the header cannot be
    read, [make_manual] has opened [manual.html] already: the manual is left
    empty (an old manual is lost), the error is printed and the empty string
    is returned. *)
Theorem make_manual_without_header (w : world) (text html : string) :
  content w "README.md" = Some text ->
  markdown_convert text = Ok html ->
  content w "header.html" = None ->
  lookup (fs w) ["manual.html"] <> Some Dir ->
  exists e w',
    make_manual markdown_convert str_exn w = (Ok "", w')
    /\ content w' "manual.html" = Some ""
    /\ stdout w' = (stdout w ++ [("Error creating manual: " ++ str_exn e)%string])%list.
Proof.
  intros Hreadme Hconv Hheader Hmanual.
  unfold make_manual, try_except. cbn [for_each]. unfold bind.
  rewrite (read_file_content _ _ _ Hreadme). cbv beta iota. rewrite Hconv.
  rewrite (open_write_file "manual.html" ["manual.html"] w eq_refl Hmanual eq_refl).
  cbv beta iota.
  set (w1 := World (update (fs w) ["manual.html"] (File "")) (stdout w)).
  assert (H1 : content w1 "header.html" = None).
  { unfold content in *. change (resolve "header.html") with (Some ["header.html"]) in *.
    unfold w1. cbn [fs]. rewrite lookup_update_other by discriminate. exact Hheader. }
  destruct (read_file_absent _ _ H1) as [e He]. rewrite He. cbv beta iota.
  exists e. eexists. split; [reflexivity|]. split; [|reflexivity].
  unfold content. change (resolve "manual.html") with (Some ["manual.html"]).
  cbn [fs printed]. unfold w1. cbn [fs].
  now rewrite lookup_update_same by discriminate.
Qed.

End Manual2.

(** X5, at a project without a readme. *)
Lemma make_manual_without_readme_witness :
  content (Sample.with_changelog "Changes: v1.0") "README.md" = None
  /\ exists e,
       make_manual Sample.markdown_convert Sample.str_exn
         (Sample.with_changelog "Changes: v1.0")
       = (Ok "",
          printed (Sample.with_changelog "Changes: v1.0")
            ("Error creating manual: " ++ Sample.str_exn e)).
Proof.
  split; [reflexivity|].
  apply (make_manual_without_readme Sample.markdown_convert Sample.str_exn).
  reflexivity.
Defined.

(** X6, at a project with a readme and an old manual, but no header. *)
Lemma make_manual_without_header_witness :
  content Project.readme_only "manual.html" = Some "old manual"
  /\ exists e w',
       make_manual Sample.markdown_convert Sample.str_exn Project.readme_only
       = (Ok "", w')
       /\ content w' "manual.html" = Some ""
       /\ stdout w'
          = (stdout Project.readme_only
             ++ [("Error creating manual: " ++ Sample.str_exn e)%string])%list.
Proof.
  split; [reflexivity|].
  apply (make_manual_without_header Sample.markdown_convert Sample.str_exn
           Project.readme_only "# Manual" "<p># Manual</p>").
  - reflexivity.
  - reflexivity.
  - reflexivity.
  - vm_compute. discriminate.
Defined.

(** *** More on [embed] *)

(** A line that matches the pattern of a PNG in a CSS url is the text
    before the reference, the reference, the text after it, and its end; the
    name of the image is made of name characters and ends with [.png]. *)
Lemma urlpng_decompose (line : string) (u : captures) :
  rmatch urlpng_pattern line = Some u ->
  exists name eol,
    (eol = "" \/ eol = nl)
    /\ all png_name_char name = true
    /\ group u 2 = name ++ ".png"
    /\ line = group u 1 ++ "url(" ++ group u 2 ++ ")" ++ group u 3 ++ eol.
Proof.
  unfold rmatch, urlpng_pattern. intros H.
  rewrite exec_seq in H. apply exec_bol in H.
  rewrite exec_seq in H.
  apply exec_group in H as (g1 & r1 & E1 & D1 & H); [|reflexivity].
  rewrite exec_seq in H. apply exec_lit in H as (r2 & E2 & H).
  rewrite exec_seq in H.
  apply exec_group in H as (g2 & r3 & E3 & D2 & H); [|reflexivity].
  rewrite exec_seq in H. apply exec_lit in H as (r4 & E4 & H).
  rewrite exec_seq in H.
  apply exec_group in H as (g3 & r5 & E5 & D3 & H); [|reflexivity].
  apply exec_eol in H as [Hend [= <-]].
  destruct D2 as (name & ext & -> & Dname & Dext). cbn in Dname, Dext.
  subst ext. exists name, r5. split; [destruct Hend; auto|]. split; [exact Dname|].
  split; [reflexivity|].
  cbn [group Nat.eqb]. subst. now rewrite !append_assoc.
Qed.

Section Embed2.

Variable str_exn : exn -> string.

(** X7: [png_encode] never raises and changes no file.  For a file that
    can be read it returns the data URI of its bytes in base64 and prints
    nothing; for one that cannot it prints the error and returns the empty
    string.  What it returns holds no newline. *)
Theorem png_encode_never_raises (name : string) (w : world) :
  exists s w',
    png_encode str_exn name w = (Ok s, w')
    /\ fs w' = fs w
    /\ no_newline s = true
    /\ (forall png, content w name = Some png ->
          s = "data:image/png;base64," ++ b64encode png /\ w' = w)
    /\ (content w name = None ->
        s = "" /\ exists e, w' = printed w ("Error encoding PNG: " ++ str_exn e)).
Proof.
  destruct (png_encode_returns str_exn name w)
    as (s & w' & Hrun & Hfs & Hs & Hcases).
  exists s, w'. split; [exact Hrun|]. split; [exact Hfs|]. split; [exact Hs|].
  destruct Hcases as [(png & Hc & -> & ->) | (Hc & -> & e & ->)]; split.
  - intros png' Hc'. rewrite Hc in Hc'. injection Hc' as <-. now split.
  - intros Hc'. rewrite Hc in Hc'. discriminate Hc'.
  - intros png Hc'. rewrite Hc in Hc'. discriminate Hc'.
  - intros _. split; [reflexivity | now exists e].
Qed.

(** X8: for a line with a PNG in a CSS url that is neither a script line
    nor a version line, and whose image can be read, [embed] writes the text
    before the reference, the reference with the data URI of the image in the
    place of its name, the text after it, and a newline (also when the line,
    the last of the template, had none); nothing is printed. *)
Theorem embed_inlines_png
    (manual version line : string) (w : world) (old png : string) (u : captures) :
  rmatch script_pattern line = None ->
  rmatch version_pattern line = None ->
  rmatch urlpng_pattern line = Some u ->
  content w (group u 2) = Some png ->
  content w deploy_html = Some old ->
  exists w' eol,
    (eol = "" \/ eol = nl)
    /\ line = group u 1 ++ "url(" ++ group u 2 ++ ")" ++ group u 3 ++ eol
    /\ embed_line str_exn manual version line w = (Ok tt, w')
    /\ content w' deploy_html
       = Some (old ++ group u 1 ++ "url(" ++ "data:image/png;base64,"
               ++ b64encode png ++ ")" ++ group u 3 ++ nl)
    /\ stdout w' = stdout w.
Proof.
  intros Hm Hv Hu Hpng Hold. apply content_deploy in Hold.
  destruct (urlpng_decompose line u Hu) as (name & eol & Heol & _ & _ & Hline).
  unfold embed_line. rewrite Hm, Hv, Hu. cbv beta iota zeta. unfold bind.
  destruct (png_encode_returns str_exn (group u 2) w)
    as (s & w1 & -> & _ & _ & [(png' & Hc & -> & ->) | (Hc & _)]).
  2:{ rewrite Hc in Hpng. discriminate Hpng. }
  rewrite Hc in Hpng. injection Hpng as ->. cbv beta iota.
  destruct (write_deploy w old
              (group u 1 ++ "url(" ++ ("data:image/png;base64," ++ b64encode png)
               ++ ")" ++ group u 3 ++ nl) Hold) as (w2 & -> & H2 & _ & S2).
  exists w2, eol. split; [exact Heol|]. split; [exact Hline|].
  split; [reflexivity|]. split; [|exact S2].
  apply content_deploy. rewrite H2. now rewrite !append_assoc.
Qed.

Lemma embed_line_passes (manual version line : string) (w : world) (old : string) :
  passes_through line = true ->
  lookup (fs w) deploy_path = Some (File old) ->
  exists w', embed_line str_exn manual version line w = (Ok tt, w')
             /\ lookup (fs w') deploy_path = Some (File (old ++ line))
             /\ stdout w' = stdout w.
Proof.
  unfold passes_through, embed_line. intros Hp Hold.
  destruct (rmatch script_pattern line); [discriminate Hp|].
  destruct (rmatch version_pattern line); [discriminate Hp|].
  destruct (rmatch urlpng_pattern line); [discriminate Hp|].
  destruct (rmatch urlpng2_pattern line); [discriminate Hp|].
  apply negb_true_iff in Hp. rewrite Hp.
  destruct (write_deploy w old line Hold) as (w1 & -> & H1 & _ & S1).
  now exists w1.
Qed.

(** X9: a template none of whose lines is taken by a classifier is copied
    to the page as it is, character for character, and nothing is printed. *)
Theorem embed_copies_plain_template (manual version : string) (w : world) (text : string) :
  content w template = Some text ->
  lookup (fs w) deploy_path <> Some Dir ->
  forallb passes_through (lines text) = true ->
  exists w',
    embed str_exn manual version w = (Ok tt, w')
    /\ content w' deploy_html = Some text
    /\ stdout w' = stdout w.
Proof.
  intros Ht Hd Hplain. unfold embed, try_except.
  rewrite opened_then_read by (intros p [= <-]; discriminate). unfold bind.
  rewrite (read_file_content _ _ _ Ht). cbv beta iota.
  destruct (open_deploy w Hd) as (w0 & -> & H0 & _ & S0). cbv beta iota.
  assert (Hloop : forall ls w1 old,
             forallb passes_through ls = true ->
             lookup (fs w1) deploy_path = Some (File old) ->
             exists w',
               for_each ls (embed_line str_exn manual version) w1 = (Ok tt, w')
               /\ lookup (fs w') deploy_path
                  = Some (File (old ++ String.concat "" ls))
               /\ stdout w' = stdout w1).
  { induction ls as [|l ls IH]; intros w1 old Hall Hold.
    - exists w1. split; [reflexivity|]. now rewrite append_nil_r.
    - cbn [forallb] in Hall. apply andb_true_iff in Hall as [Hl Hls].
      destruct (embed_line_passes manual version l w1 old Hl Hold)
        as (w2 & Hrun & H2 & S2).
      destruct (IH w2 (old ++ l) Hls H2) as (w3 & Hrest & H3 & S3).
      exists w3. split; [|split].
      + cbn [for_each]. unfold bind. now rewrite Hrun.
      + now rewrite concat_cons, <- append_assoc.
      + now rewrite S3.
  }
  destruct (Hloop (lines text) w0 "" Hplain H0) as (w' & -> & H' & S').
  exists w'. split; [reflexivity|]. split.
  - apply content_deploy. rewrite H'. now rewrite concat_lines.
  - now rewrite S', S0.
Qed.

(** X10: when there is no regular file of the name of the template (it is
    missing, or it is a directory), [embed] prints the error and returns: the
    template is the first of the two files to be opened, so the page is not
    opened, and an old page stays as it was. *)
Theorem embed_without_template (manual version : string) (w : world) :
  content w template = None ->
  exists e,
    embed str_exn manual version w
    = (Ok tt, printed w ("Error embedding: " ++ str_exn e)).
Proof.
  intros Hc. destruct (read_file_absent _ _ Hc) as [e He]. exists e.
  unfold embed, try_except.
  rewrite opened_then_read by (intros p [= <-]; discriminate). unfold bind. now rewrite He.
Qed.

Lemma touches_png_encode (p : path) (name : string) :
  touches_only p (png_encode str_exn name).
Proof.
  unfold png_encode. apply touches_try_except.
  - apply touches_bind; [apply touches_read_file | intros png; apply touches_ret].
  - intros e h [= <-]. apply touches_bind; [apply touches_print|].
    intros _. apply touches_ret.
Qed.

Lemma touches_embed_line (manual version line : string) :
  touches_only deploy_path (embed_line str_exn manual version line).
Proof.
  assert (W : forall data, touches_only deploy_path (write deploy_html data))
    by (intros data; now apply touches_write).
  unfold embed_line.
  destruct (rmatch script_pattern line) as [m|].
  - apply touches_bind; [apply touches_read_file|]. intros code.
    apply touches_bind; [apply W|]. intros _.
    apply touches_bind; [apply W|]. intros _. apply W.
  - destruct (rmatch version_pattern line); [apply W|].
    destruct (rmatch urlpng_pattern line) as [u|].
    + apply touches_bind; [apply touches_png_encode | intros s; apply W].
    + destruct (rmatch urlpng2_pattern line) as [u2|].
      * apply touches_bind; [apply touches_png_encode | intros s; apply W].
      * destruct (strip line =? "MANUAL"); apply W.
Qed.

(** X11: [embed] never raises, whatever the template holds and whatever
    files are missing, and it changes no file but the page. *)
Theorem embed_keeps_to_page (manual version : string) (w : world) :
  exists w',
    embed str_exn manual version w = (Ok tt, w')
    /\ forall q, q <> deploy_path -> lookup (fs w') q = lookup (fs w) q.
Proof.
  destruct (try_except_returns
              (open_read template ;;
               open_write deploy_html ;;
               text <- read_open template ;;
               for_each (lines text) (embed_line str_exn manual version))%monad
              (fun e => print ("Error embedding: " ++ str_exn e))
              (fun e => returns_print _) w) as ([] & w' & Hrun).
  exists w'. split; [exact Hrun|].
  apply (fun H => H w (Ok tt) w' Hrun). unfold embed.
  apply touches_try_except.
  - apply touches_bind; [apply touches_open_read|]. intros _.
    apply touches_bind; [now apply touches_open_write|]. intros _.
    apply touches_bind; [apply touches_read_open|]. intros text.
    apply touches_for_each. intros line. apply touches_embed_line.
  - intros e h [= <-]. apply touches_print.
Qed.

End Embed2.

(** X8, at a page that is open and a line with one image. *)
Lemma embed_inlines_png_witness :
  rmatch urlpng_pattern Sample.png_line
  = Some [(3, " }"); (2, "bg.png"); (1, "body { background: ")]
  /\ exists w' eol,
       (eol = "" \/ eol = nl)
       /\ Sample.png_line
          = "body { background: " ++ "url(" ++ "bg.png" ++ ")" ++ " }" ++ eol
       /\ embed_line Sample.str_exn Sample.manual "2.3.1" Sample.png_line
            (Sample.world_of [(deploy_path, File "<html>"); (["bg.png"], File "PNG")])
          = (Ok tt, w')
       /\ content w' deploy_html
          = Some ("<html>" ++ "body { background: " ++ "url("
                  ++ "data:image/png;base64," ++ b64encode "PNG" ++ ")" ++ " }" ++ nl)
       /\ stdout w'
          = stdout (Sample.world_of
                      [(deploy_path, File "<html>"); (["bg.png"], File "PNG")]).
Proof.
  split; [reflexivity|].
  apply (embed_inlines_png Sample.str_exn Sample.manual "2.3.1" Sample.png_line
           (Sample.world_of [(deploy_path, File "<html>"); (["bg.png"], File "PNG")])
           "<html>" "PNG"
           [(3, " }"); (2, "bg.png"); (1, "body { background: ")]);
    reflexivity.
Defined.

(** X9, at a template of two plain lines, the second without a newline. *)
Lemma embed_copies_plain_template_witness :
  content (Sample.bare_template (Sample.plain_line ++ "</html>")) template
  = Some (Sample.plain_line ++ "</html>")
  /\ exists w',
       embed Sample.str_exn Sample.manual "2.3.1"
         (Sample.bare_template (Sample.plain_line ++ "</html>"))
       = (Ok tt, w')
       /\ content w' deploy_html = Some (Sample.plain_line ++ "</html>")
       /\ stdout w' = stdout (Sample.bare_template (Sample.plain_line ++ "</html>")).
Proof.
  split; [reflexivity|].
  apply (embed_copies_plain_template Sample.str_exn).
  - reflexivity.
  - vm_compute. discriminate.
  - reflexivity.
Defined.

(** X10, at a project with an old page and no template. *)
Lemma embed_without_template_witness :
  content Project.without_template deploy_html = Some "old page"
  /\ exists e,
       embed Sample.str_exn Sample.manual "2.3.1" Project.without_template
       = (Ok tt,
          printed Project.without_template
            ("Error embedding: " ++ Sample.str_exn e)).
Proof.
  split; [reflexivity|].
  apply (embed_without_template Sample.str_exn). reflexivity.
Defined.

(** *** More on the copies and on [main] *)

Section Copies.

Variable str_exn : exn -> string.

(** X12: for a source and a target named by relative paths of plain names,
    [copyf] prints what it copies; a source that is not there, and not below
    a regular file, is reported and [copyf] returns, and so is a target
    directory that is not there, and not below a regular file (under the name
    of the source); copying a file onto itself is not caught by [copyf]: the
    exception goes to the caller.  No file is changed in these cases. *)
Theorem copyf_reports (src tgt : string) (p q : path) (w : world) :
  plain_path src = true -> plain_path tgt = true ->
  components src = p -> components tgt = q ->
  (lookup (fs w) p = None -> blocked (fs w) p = false ->
   copyf str_exn src tgt w
   = (Ok tt,
      printed (printed w ("Copying " ++ src ++ " -> " ++ tgt))
        ("Error copying " ++ src ++ ": " ++ str_exn (FileNotFoundError src))))
  /\ (forall data, lookup (fs w) p = Some (File data) -> p <> q ->
        lookup (fs w) q = None ->
        lookup (fs w) (removelast q) = None ->
        blocked (fs w) (removelast q) = false ->
        copyf str_exn src tgt w
        = (Ok tt,
           printed (printed w ("Copying " ++ src ++ " -> " ++ tgt))
             ("Error copying " ++ src ++ ": " ++ str_exn (FileNotFoundError tgt))))
  /\ (forall n, lookup (fs w) p = Some n -> p = q ->
        copyf str_exn src tgt w
        = (Raise (SameFileError src tgt),
           printed w ("Copying " ++ src ++ " -> " ++ tgt))).
Proof.
  intros Hsrc Htgt Hnp Hnq.
  pose proof (resolve_plain_path src Hsrc) as Hp. rewrite Hnp in Hp.
  pose proof (resolve_plain_path tgt Htgt) as Hq. rewrite Hnq in Hq.
  split; [|split].
  - intros Hnone Hb. unfold copyf, try_except, bind, print. rewrite shutil_copyfile_eq.
    cbn [fs printed]. rewrite Hp, Hq, Hnone, andb_false_r.
    unfold bind, read_file. cbn [fs printed]. rewrite Hp, Hnone.
    unfold missing. rewrite Hb. reflexivity.
  - intros data Hfile Hne Hdst Hparent Hb.
    unfold copyf, try_except, bind, print. rewrite shutil_copyfile_eq.
    cbn [fs printed]. rewrite Hp, Hq, (path_eqb_neq p q Hne). cbn [andb].
    unfold bind, read_file, open_write. cbn [fs printed].
    rewrite Hp, Hfile. cbv beta iota. cbn [fs printed].
    rewrite Hq, Hdst, Hparent. unfold missing. rewrite Hb. reflexivity.
  - intros n Hsome <-. unfold copyf, try_except, bind, print. rewrite shutil_copyfile_eq.
    cbn [fs printed]. rewrite Hp, Hq, path_eqb_refl, Hsome. reflexivity.
Qed.

(** X13: for a source and a target named by relative paths of plain names,
    [copytree] prints what it copies; a source that is not there, and not
    below a regular file, and a target that is there already are reported
    and [copytree] returns, leaving the files as they are (the target is not
    brought up to date); a source that is a regular file is not caught: the
    exception goes to the caller. *)
Theorem copytree_reports (src tgt : string) (p q : path) (w : world) :
  plain_path src = true -> plain_path tgt = true ->
  components src = p -> components tgt = q ->
  (lookup (fs w) p = None -> blocked (fs w) p = false ->
   copytree str_exn src tgt w
   = (Ok tt,
      printed (printed w ("Copying directory " ++ src ++ " -> " ++ tgt))
        ("Error copying directory " ++ src ++ ": "
         ++ str_exn (FileNotFoundError src))))
  /\ (forall n, lookup (fs w) p = Some Dir -> lookup (fs w) q = Some n ->
        copytree str_exn src tgt w
        = (Ok tt,
           printed (printed w ("Copying directory " ++ src ++ " -> " ++ tgt))
             ("Directory " ++ tgt ++ " already exists: "
              ++ str_exn (FileExistsError tgt))))
  /\ (forall data, lookup (fs w) p = Some (File data) ->
        copytree str_exn src tgt w
        = (Raise (NotADirectoryError src),
           printed w ("Copying directory " ++ src ++ " -> " ++ tgt))).
Proof.
  intros Hsrc Htgt Hnp Hnq.
  pose proof (resolve_plain_path src Hsrc) as Hp. rewrite Hnp in Hp.
  pose proof (resolve_plain_path tgt Htgt) as Hq. rewrite Hnq in Hq.
  split; [|split].
  - intros Hnone Hb. unfold copytree, try_except, bind, print, shutil_copytree.
    cbn [fs printed]. rewrite Hp, Hnone. unfold missing. now rewrite Hb.
  - intros n Hdir Hthere.
    unfold copytree, try_except, bind, print, shutil_copytree, os_makedirs.
    cbn [fs printed]. now rewrite Hp, Hdir, Hq, Hthere.
  - intros data Hfile. unfold copytree, try_except, bind, print, shutil_copytree.
    cbn [fs printed]. now rewrite Hp, Hfile.
Qed.

Lemma copy_loop_returns (target : string) (p : path) (files : list string) :
  resolve target = Some p ->
  Forall (fun f => plain_name f = true) files ->
  forall w, exists w',
    for_each files
      (fun file_name =>
         try_except (copyf str_exn file_name (os_path_join target file_name))
           (except_Exception
              (fun e => print ("Error copying " ++ file_name ++ ": " ++ str_exn e))))
      w
    = (Ok tt, w').
Proof.
  intros Hp Hplain. induction Hplain as [|f files Hf _ IH]; intros w.
  - now exists w.
  - destruct (copy_one str_exn target p f w Hp Hf) as (w1 & Hrun & _).
    destruct (IH w1) as (w2 & Hrest). exists w2.
    cbn [for_each]. unfold bind. now rewrite Hrun.
Qed.

(** The first step of [deploy_files]: it returns with a target that
    resolves, or [os.makedirs] raises and leaves the world as it was. *)
Lemma first_step_cases (target : string) (w : world) :
  (exists p w1,
      resolve target = Some p
      /\ (there <- os_path_exists target ;;
          if negb there then os_makedirs target else ret tt)%monad w = (Ok tt, w1))
  \/ (exists e,
         os_path_exists target w = (Ok false, w)
         /\ os_makedirs target w = (Raise e, w)
         /\ (there <- os_path_exists target ;;
             if negb there then os_makedirs target else ret tt)%monad w
            = (Raise e, w)).
Proof.
  unfold bind, os_path_exists, os_makedirs.
  destruct (resolve target) as [p|]; cbv beta iota; cbn [negb].
  - destruct (lookup (fs w) p) as [n|] eqn:Hl; cbv beta iota; cbn [negb].
    + left. now exists p, w.
    + rewrite Hl. destruct (blocked (fs w) p).
      * right. now exists (NotADirectoryError target).
      * left. exists p. now eexists.
  - right. now exists (FileNotFoundError target).
Qed.

(** X14: for a target named by a relative path of plain names,
    [deploy_files] raises only when the target is not there and a regular
    file is on the way to it, so that [os.makedirs] cannot make it; then
    nothing is made, copied or printed.  In every other case it returns,
    whatever files are missing. *)
Theorem deploy_files_raises_only_from_makedirs (target : string) (w : world) :
  plain_path target = true ->
  (exists w', deploy_files str_exn target w = (Ok tt, w'))
  \/ (lookup (fs w) (components target) = None
      /\ blocked (fs w) (components target) = true
      /\ exists e, os_makedirs target w = (Raise e, w)
                   /\ deploy_files str_exn target w = (Raise e, w)).
Proof.
  intros Hplain. pose proof (resolve_plain_path target Hplain) as Hres.
  destruct (first_step_cases target w) as [(p & w1 & Hp & Hrun) | (e & H1 & H2 & Hrun)].
  - left.
    destruct (copy_loop_returns target p files_to_copy Hp files_to_copy_plain w1)
      as (w2 & Hloop).
    destruct (copy_icons str_exn target p w2 Hp) as (w3 & Hicons & _).
    exists w3. unfold deploy_files.
    set (first := (there <- os_path_exists target ;;
                   if negb there then os_makedirs target else ret tt)%monad) in *.
    unfold bind at 1. rewrite Hrun. unfold bind. now rewrite Hloop.
  - right.
    assert (Hstate : lookup (fs w) (components target) = None
                     /\ blocked (fs w) (components target) = true).
    { unfold os_path_exists in H1. unfold os_makedirs in H2. rewrite Hres in H1, H2.
      destruct (lookup (fs w) (components target)); [discriminate H1|].
      destruct (blocked (fs w) (components target)); [now split | discriminate H2]. }
    destruct Hstate as [Hnone Hb]. split; [exact Hnone|]. split; [exact Hb|].
    exists e. split; [exact H2|].
    unfold deploy_files.
    set (first := (there <- os_path_exists target ;;
                   if negb there then os_makedirs target else ret tt)%monad) in *.
    unfold bind at 1. now rewrite Hrun.
Qed.


End Copies.

(** X12, at a project in which [LICENSE] is there and [COPYING.md] is not. *)
Lemma copyf_reports_witness :
  copyf Sample.str_exn "COPYING.md" "site/COPYING.md" Project.with_license
  = (Ok tt,
     printed (printed Project.with_license "Copying COPYING.md -> site/COPYING.md")
       "Error copying COPYING.md: [Errno 2] No such file or directory: COPYING.md")
  /\ copyf Sample.str_exn "LICENSE" "site/LICENSE" Project.with_license
     = (Ok tt,
        printed (printed Project.with_license "Copying LICENSE -> site/LICENSE")
          "Error copying LICENSE: [Errno 2] No such file or directory: site/LICENSE")
  /\ copyf Sample.str_exn "LICENSE" "LICENSE" Project.with_license
     = (Raise (SameFileError "LICENSE" "LICENSE"),
        printed Project.with_license "Copying LICENSE -> LICENSE").
Proof.
  split; [|split].
  - apply (copyf_reports Sample.str_exn "COPYING.md" "site/COPYING.md"
             ["COPYING.md"] ["site"; "COPYING.md"] Project.with_license
             eq_refl eq_refl eq_refl eq_refl); reflexivity.
  - apply (copyf_reports Sample.str_exn "LICENSE" "site/LICENSE"
             ["LICENSE"] ["site"; "LICENSE"] Project.with_license
             eq_refl eq_refl eq_refl eq_refl) with (data := "GPL");
      try reflexivity. discriminate.
  - apply (copyf_reports Sample.str_exn "LICENSE" "LICENSE"
             ["LICENSE"] ["LICENSE"] Project.with_license
             eq_refl eq_refl eq_refl eq_refl) with (n := File "GPL"); reflexivity.
Defined.

(** X13, at a project that was deployed before. *)
Lemma copytree_reports_witness :
  copytree Sample.str_exn "images" "_deploy/images" Project.deployed_before
  = (Ok tt,
     printed (printed Project.deployed_before
                "Copying directory images -> _deploy/images")
       "Error copying directory images: [Errno 2] No such file or directory: images")
  /\ copytree Sample.str_exn "icons" "_deploy/icons" Project.deployed_before
     = (Ok tt,
        printed (printed Project.deployed_before
                   "Copying directory icons -> _deploy/icons")
          "Directory _deploy/icons already exists: [Errno 17] File exists: _deploy/icons")
  /\ copytree Sample.str_exn "icons/icon.png" "_deploy/icon"
       Project.deployed_before
     = (Raise (NotADirectoryError "icons/icon.png"),
        printed Project.deployed_before
          "Copying directory icons/icon.png -> _deploy/icon").
Proof.
  split; [|split].
  - apply (copytree_reports Sample.str_exn "images" "_deploy/images"
             ["images"] ["_deploy"; "images"] Project.deployed_before
             eq_refl eq_refl eq_refl eq_refl); reflexivity.
  - apply (copytree_reports Sample.str_exn "icons" "_deploy/icons"
             ["icons"] ["_deploy"; "icons"] Project.deployed_before
             eq_refl eq_refl eq_refl eq_refl) with (n := Dir); reflexivity.
  - apply (copytree_reports Sample.str_exn "icons/icon.png" "_deploy/icon"
             ["icons"; "icon.png"] ["_deploy"; "icon"] Project.deployed_before
             eq_refl eq_refl eq_refl eq_refl) with (data := "PNG"); reflexivity.
Defined.

(** X14, at a target below the file [LICENSE] and at a target that can be
    made. *)
Lemma deploy_files_raises_only_from_makedirs_witness :
  ((exists w', deploy_files Sample.str_exn "LICENSE/site" Project.with_license
               = (Ok tt, w'))
   \/ (lookup (fs Project.with_license) (components "LICENSE/site") = None
       /\ blocked (fs Project.with_license) (components "LICENSE/site") = true
       /\ exists e,
            os_makedirs "LICENSE/site" Project.with_license
            = (Raise e, Project.with_license)
            /\ deploy_files Sample.str_exn "LICENSE/site" Project.with_license
               = (Raise e, Project.with_license)))
  /\ ((exists w', deploy_files Sample.str_exn "site" Project.with_license
                  = (Ok tt, w'))
      \/ (lookup (fs Project.with_license) (components "site") = None
          /\ blocked (fs Project.with_license) (components "site") = true
          /\ exists e,
               os_makedirs "site" Project.with_license
               = (Raise e, Project.with_license)
               /\ deploy_files Sample.str_exn "site" Project.with_license
                  = (Raise e, Project.with_license))).
Proof.
  split.
  - apply (deploy_files_raises_only_from_makedirs Sample.str_exn "LICENSE/site"
             Project.with_license). reflexivity.
  - apply (deploy_files_raises_only_from_makedirs Sample.str_exn "site"
             Project.with_license). reflexivity.
Defined.


Section Main.

Variable create_db : M unit.
Variable markdown_convert : string -> outcome string.
Variable str_exn : exn -> string.

(** X16: a readme that cannot be read does not stop [main]: with a version
    at hand, [make_manual] prints its error, and the page, the service worker
    and the deployment are made as usual, the page with the empty string for
    the manual. *)
Theorem main_goes_on_without_manual
    (argv : list string) (w w1 : world) (ver : string) :
  create_db w = (Ok tt, w1) ->
  get_ver str_exn w1 = (Ok (Some ver), w1) ->
  ver <> "" ->
  content w1 "README.md" = None ->
  exists e,
    main create_db markdown_convert str_exn argv w
    = (embed str_exn "" ver ;;
       embed_service_worker str_exn ver ;;
       deploy_files str_exn (target_dir argv))%monad
        (printed w1 ("Error creating manual: " ++ str_exn e)).
Proof.
  intros Hdb Hver Hne Hreadme.
  destruct (read_file_absent _ _ Hreadme) as [e He]. exists e.
  unfold main. unfold bind at 1. rewrite Hdb. unfold bind at 1. rewrite Hver.
  assert (Hnot : not_ver (Some ver) = false).
  { cbn [not_ver]. now apply String.eqb_neq. }
  rewrite Hnot. unfold bind at 1.
  assert (Hman : make_manual markdown_convert str_exn w1
                 = (Ok "", printed w1 ("Error creating manual: " ++ str_exn e))).
  { unfold make_manual, try_except, bind. now rewrite He. }
  rewrite Hman. reflexivity.
Qed.

Lemma make_manual_returns : returns (make_manual markdown_convert str_exn).
Proof.
  unfold make_manual. apply try_except_returns. intros e.
  apply returns_print_then.
Qed.

Lemma embed_returns (manual version : string) :
  returns (embed str_exn manual version).
Proof.
  unfold embed. apply try_except_returns. intros e. apply returns_print.
Qed.

Lemma embed_service_worker_returns (version : string) :
  returns (embed_service_worker str_exn version).
Proof.
  unfold embed_service_worker. apply try_except_returns. intros e.
  apply returns_print.
Qed.

(** X17: an exception comes out of [main] only from [create_db], or from
    [os.makedirs] on a target that is not there: the steps of the version, the
    manual, the page and the service worker never raise, and [deploy_files]
    catches every error of a copy. *)
Theorem main_raises_only_at_the_ends
    (argv : list string) (w w' : world) (e : exn) :
  main create_db markdown_convert str_exn argv w = (Raise e, w') ->
  create_db w = (Raise e, w')
  \/ (os_path_exists (target_dir argv) w' = (Ok false, w')
      /\ os_makedirs (target_dir argv) w' = (Raise e, w')).
Proof.
  unfold main. unfold bind at 1.
  destruct (create_db w) as [[[]|e0] w1] eqn:Hdb; [|intros [= <- <-]; now left].
  unfold bind at 1.
  assert (Hv : exists r w2, get_ver str_exn w1 = (Ok r, w2)).
  { destruct (content w1 "Changelog.md") as [text|] eqn:Hc.
    - eexists; eexists. exact (get_ver_readable str_exn w1 text Hc).
    - destruct (get_ver_unreadable str_exn w1 Hc) as [e1 H1].
      eexists; eexists. exact H1. }
  destruct Hv as (r & w2 & ->).
  destruct (not_ver r); [discriminate|].
  unfold bind at 1.
  destruct (make_manual_returns w2) as (man & w3 & Hman). rewrite Hman.
  unfold bind at 1.
  set (ver := match r with Some s => s | None => "" end).
  destruct (embed_returns man ver w3) as ([] & w4 & Hembed). rewrite Hembed.
  unfold bind at 1.
  destruct (embed_service_worker_returns ver w4) as ([] & w5 & Hsw). rewrite Hsw.
  change (match argv with
          | _ :: dir :: _ => dir
          | _ => "_deploy"
          end) with (target_dir argv).
  intros Hdeploy. right.
  destruct (first_step_cases (target_dir argv) w5)
    as [(p & w6 & Hp & Hrun) | (e1 & H1 & H2 & Hrun)];
    unfold deploy_files in Hdeploy;
    set (first := (there <- os_path_exists (target_dir argv) ;;
                   if negb there then os_makedirs (target_dir argv)
                   else ret tt)%monad) in *;
    unfold bind at 1 in Hdeploy; rewrite Hrun in Hdeploy.
  - destruct (copy_loop_returns str_exn (target_dir argv) p files_to_copy Hp
                files_to_copy_plain w6) as (w7 & Hloop).
    destruct (copy_icons str_exn (target_dir argv) p w7 Hp) as (w8 & Hicons & _).
    unfold bind in Hdeploy. rewrite Hloop, Hicons in Hdeploy. discriminate Hdeploy.
  - injection Hdeploy as <- <-. now split.
Qed.

End Main.

(** X16, at a project with a changelog and a template of one [MANUAL] line,
    but no readme: the page is made, and it is empty. *)
Lemma main_goes_on_without_manual_witness :
  get_ver Sample.str_exn Project.without_readme
  = (Ok (Some "1.0"), Project.without_readme)
  /\ (exists e,
         main Sample.create_db Sample.markdown_convert Sample.str_exn
           ["deploy.py"] Project.without_readme
         = (embed Sample.str_exn "" "1.0" ;;
            embed_service_worker Sample.str_exn "1.0" ;;
            deploy_files Sample.str_exn "_deploy")%monad
             (printed Project.without_readme
                ("Error creating manual: " ++ Sample.str_exn e)))
  /\ content
       (snd (main Sample.create_db Sample.markdown_convert Sample.str_exn
               ["deploy.py"] Project.without_readme))
       "_deploy/astrohopper_deploy.html"
     = Some "".
Proof.
  split; [reflexivity|]. split; [|reflexivity].
  apply (main_goes_on_without_manual Sample.create_db Sample.markdown_convert
           Sample.str_exn ["deploy.py"] Project.without_readme
           Project.without_readme "1.0").
  - reflexivity.
  - reflexivity.
  - discriminate.
  - reflexivity.
Defined.

(** X17, at a run with the empty string for the target. *)
Lemma main_raises_only_at_the_ends_witness :
  main Sample.create_db Sample.markdown_convert Sample.str_exn
    ["deploy.py"; ""] Project.without_readme
  = (Raise (FileNotFoundError ""),
     snd (main Sample.create_db Sample.markdown_convert Sample.str_exn
            ["deploy.py"; ""] Project.without_readme))
  /\ (Sample.create_db Project.without_readme
      = (Raise (FileNotFoundError ""),
         snd (main Sample.create_db Sample.markdown_convert Sample.str_exn
                ["deploy.py"; ""] Project.without_readme))
      \/ (os_path_exists ""
            (snd (main Sample.create_db Sample.markdown_convert Sample.str_exn
                    ["deploy.py"; ""] Project.without_readme))
          = (Ok false,
             snd (main Sample.create_db Sample.markdown_convert Sample.str_exn
                    ["deploy.py"; ""] Project.without_readme))
          /\ os_makedirs ""
               (snd (main Sample.create_db Sample.markdown_convert Sample.str_exn
                       ["deploy.py"; ""] Project.without_readme))
             = (Raise (FileNotFoundError ""),
                snd (main Sample.create_db Sample.markdown_convert Sample.str_exn
                       ["deploy.py"; ""] Project.without_readme)))).
Proof.
  split; [reflexivity|].
  apply (main_raises_only_at_the_ends Sample.create_db Sample.markdown_convert
           Sample.str_exn ["deploy.py"; ""] Project.without_readme).
  reflexivity.
Defined.

(** *** The last reference of a line *)

(** A greedy star hands on the longest run that lets the rest of the
    pattern match. *)
Lemma star_greedy (f : ascii -> bool) (k : string -> option captures)
    (s : string) (res : captures) :
  star f k s = Some res ->
  exists a rest,
    s = a ++ rest /\ all f a = true /\ k rest = Some res
    /\ forall a' rest', s = a' ++ rest' -> all f a' = true ->
                        String.length a < String.length a' -> k rest' = None.
Proof.
  induction s as [|c s IH]; cbn [star].
  - intros H. exists "", "". repeat split; try assumption.
    intros a' rest' E _ Hlen. destruct a'; [cbn in Hlen; lia | discriminate E].
  - destruct (f c) eqn:Hf.
    + destruct (star f k s) as [r|] eqn:Hs.
      * intros [= ->]. destruct (IH eq_refl) as (a & rest & -> & Ha & Hk & Hmax).
        exists (String c a), rest. cbn [append all]. rewrite Hf, Ha.
        repeat split; try assumption.
        intros a' rest' E Ha' Hlen. destruct a' as [|c' a']; [cbn in Hlen; lia|].
        cbn [append] in E. injection E as <- E. cbn [all] in Ha'.
        apply andb_true_iff in Ha' as [_ Ha'].
        apply (Hmax a' rest' E Ha'). cbn in Hlen. lia.
      * intros H. exists "", (String c s). repeat split; try assumption.
        intros a' rest' E Ha' Hlen. destruct a' as [|c' a']; [cbn in Hlen; lia|].
        cbn [append] in E. injection E as <- E. cbn [all] in Ha'.
        apply andb_true_iff in Ha' as [_ Ha'].
        destruct (k rest') eqn:Hk'; [|reflexivity].
        exfalso. apply (star_complete f k a' rest' Ha'); [now rewrite Hk'|].
        now rewrite <- E.
    + intros H. exists "", (String c s). repeat split; try assumption.
      intros a' rest' E Ha' Hlen. destruct a' as [|c' a']; [cbn in Hlen; lia|].
      cbn [append] in E. injection E as <- E. cbn [all] in Ha'.
      rewrite Hf in Ha'. discriminate Ha'.
Qed.

Lemma name_char_is_dot (name : string) :
  all png_name_char name = true -> all dot name = true.
Proof.
  induction name as [|c name IH]; [reflexivity|]. cbn [all].
  intros H. apply andb_true_iff in H as [Hc Hn]. rewrite (IH Hn), andb_true_r.
  unfold dot, not_newline. destruct (Ascii.eqb_spec c newline) as [->|]; [|reflexivity].
  discriminate Hc.
Qed.

(** What stands after group 1 in the pattern of a PNG in a CSS url matches
    a reference with what follows it on the line. *)
Lemma urlpng_rest_matches (input name z eol : string) (caps : captures) :
  all png_name_char name = true -> all dot z = true ->
  eol = "" \/ eol = nl ->
  exec (Lit "url(" ;; Group 2 (Star png_name_char ;; Lit ".png") ;; Lit ")"
        ;; Group 3 (Star dot) ;; Eol)%re input
    (fun _ caps => Some caps) ("url(" ++ name ++ ".png)" ++ z ++ eol) caps
  <> None.
Proof.
  intros Hname Hz Heol. rewrite exec_seq. cbn [exec].
  replace (startswith "url(" ("url(" ++ name ++ ".png)" ++ z ++ eol)) with true
    by reflexivity.
  rewrite ?drop_app_length_string.
  apply star_complete; [exact Hname|].
  replace (startswith ".png" (".png)" ++ z ++ eol)) with true by reflexivity.
  change (".png)" ++ z ++ eol) with (".png" ++ ")" ++ z ++ eol).
  rewrite ?drop_app_length_string.
  replace (startswith ")" (")" ++ z ++ eol)) with true by reflexivity.
  rewrite ?drop_app_length_string.
  apply star_complete; [exact Hz|].
  destruct Heol as [-> | ->]; discriminate.
Qed.

Lemma exec_group_star (n : nat) (f : ascii -> bool) input k s caps :
  exec (Group n (Star f)) input k s caps
  = star f (fun rest =>
              k rest ((n, take (String.length s - String.length rest) s) :: caps)) s.
Proof. reflexivity. Qed.

(** X18: of the PNG references in CSS urls that a line holds, the pattern
    takes the last: the text after the match (group 3) holds no further
    reference, so [embed] replaces the last reference of a line only and
    leaves the ones before it (in group 1) as they are. *)
Theorem urlpng_takes_last_reference
    (line : string) (u : captures) (x name z : string) :
  rmatch urlpng_pattern line = Some u ->
  all png_name_char name = true ->
  group u 3 <> x ++ "url(" ++ name ++ ".png)" ++ z.
Proof.
  intros Hu Hname Hg3. unfold rmatch, urlpng_pattern in Hu.
  rewrite exec_seq in Hu. apply exec_bol in Hu.
  rewrite exec_seq, exec_group_star in Hu.
  apply star_greedy in Hu as (g1 & r1 & E1 & D1 & Hu & Hmax).
  pose proof Hu as Hu'.
  rewrite exec_seq in Hu'. apply exec_lit in Hu' as (r2 & E2 & Hu').
  rewrite exec_seq in Hu'.
  apply exec_group in Hu' as (g2 & r3 & E3 & D2 & Hu'); [|reflexivity].
  rewrite exec_seq in Hu'. apply exec_lit in Hu' as (r4 & E4 & Hu').
  rewrite exec_seq in Hu'.
  apply exec_group in Hu' as (g3 & r5 & E5 & D3 & Hu'); [|reflexivity].
  apply exec_eol in Hu' as [Hend [= <-]].
  cbn [group Nat.eqb] in Hg3. subst g3.
  destruct D2 as (name2 & ext & -> & Dname2 & Dext).
  cbn [denotes] in Dname2, Dext, D3. subst ext.
  rewrite !all_app_string in D3.
  apply andb_true_iff in D3 as [Dx D3]. apply andb_true_iff in D3 as [_ D3].
  apply andb_true_iff in D3 as [_ D3]. apply andb_true_iff in D3 as [_ Dz'].
  specialize (Hmax (g1 ++ "url(" ++ (name2 ++ ".png") ++ ")" ++ x)
                   ("url(" ++ name ++ ".png)" ++ z ++ r5)).
  assert (Hnone : exec (Lit "url(" ;; Group 2 (Star png_name_char ;; Lit ".png")
                        ;; Lit ")" ;; Group 3 (Star dot) ;; Eol)%re line
                    (fun _ caps => Some caps)
                    ("url(" ++ name ++ ".png)" ++ z ++ r5)
                    [(1, take (String.length line
                               - String.length ("url(" ++ name ++ ".png)" ++ z ++ r5))
                            line)]
                  = None).
  { apply Hmax.
    - subst. now rewrite !append_assoc.
    - rewrite !all_app_string. rewrite D1, (name_char_is_dot _ Dname2), Dx.
      reflexivity.
    - rewrite !length_append. cbn. lia. }
  exact (urlpng_rest_matches line name z r5 _ Hname Dz' Hend Hnone).
Qed.

(** X18, at a line with two references. *)
Lemma urlpng_takes_last_reference_witness :
  rmatch urlpng_pattern ("a { url(one.png) } b { url(two.png) }" ++ nl)
  = Some [(3, " }"); (2, "two.png"); (1, "a { url(one.png) } b { ")]
  /\ " }" <> "" ++ "url(" ++ "one" ++ ".png)" ++ " } b { url(two.png) }".
Proof.
  split; [reflexivity|].
  apply (urlpng_takes_last_reference
           ("a { url(one.png) } b { url(two.png) }" ++ nl)
           [(3, " }"); (2, "two.png"); (1, "a { url(one.png) } b { ")]
           "" "one" " } b { url(two.png) }"); reflexivity.
Defined.
